(** * Kia / Hyundai car device: command queue, status normalizer, activity classifier

    A shallow embedding of [drivers/car/device.js] (class [CarDevice]):
    the command queue set up by [setupQueue] ([enQueue], [deQueue],
    [flushQueue], [runQueue]), [startPolling] and its polling tick, the
    client's handlers of [setupClient], the decisions of [doPoll] and its
    odometer repair, [handleInfo], the status normalizer [mapStatus], the
    activity classifier ([isMoving], [isParking]), the controls
    ([acOnOff] ... [refreshStatus]) and [migrate]; of the driver, its
    engine types and capability table; of [app.js], the flow action
    cards.

    JavaScript values are embedded as the inductive type [value]; finite
    numbers are the rationals they denote (arithmetic is exact), [NaN] is
    a value of its own, and the infinities and the negative zero, which
    no status payload can carry, are left out.  Where the code multiplies
    and divides settings that need not be whole numbers (the forced poll
    interval), binary64 rounds, and the operations are left to the host.
    Code that can raise runs in the error monad [res]; an [async]
    function that rejects is a function that raises. *)

From Stdlib Require Import ZArith QArith Qabs Qround String List Lia Bool.
From stdpp Require Import gmap strings list pretty.

Set Warnings "-register-all".
Local Open Scope Z_scope.
Local Open Scope string_scope.

(* ===================================================================== *)
(** * JavaScript values                                                   *)
(* ===================================================================== *)

Inductive value : Type :=
| VUndefined
| VNull
| VBool (b : bool)
| VNum (q : Q)
| VNaN
| VStr (s : string)
| VObj (o : list (string * value))
| VArr (l : list value).

(** An object is its list of own enumerable properties, in insertion order. *)
Abbreviation obj := (list (string * value)).

(** Results of code that may raise. *)
Inductive res (A : Type) : Type :=
| Ok (a : A)
| Throw (e : string).
Arguments Ok {A} a.
Arguments Throw {A} e.

#[global] Instance res_ret : MRet res := fun A a => Ok a.
#[global] Instance res_bind : MBind res := fun A B k m =>
  match m with
  | Ok a => k a
  | Throw e => Throw e
  end.

Definition TypeError : string := "TypeError".

(** [!!v] in JavaScript: [undefined], [null], [false], [0], [NaN] and the
    empty string are falsy, everything else is truthy. *)
Definition truthy (v : value) : bool :=
  match v with
  | VUndefined | VNull | VNaN => false
  | VBool b => b
  | VNum q => negb (Qeq_bool q 0)
  | VStr s => negb (String.eqb s EmptyString)
  | VObj _ | VArr _ => true
  end.

Definition nullish (v : value) : bool :=
  match v with
  | VUndefined | VNull => true
  | _ => false
  end.

(** Own property of an object; a missing property reads as [undefined]. *)
Fixpoint field (o : obj) (k : string) : value :=
  match o with
  | [] => VUndefined
  | (k', v) :: o' => if String.eqb k' k then v else field o' k
  end.

(** [o[k] = v]: overwrite in place, or append a new property. *)
Fixpoint assign (o : obj) (k : string) (v : value) : obj :=
  match o with
  | [] => [(k, v)]
  | (k', v') :: o' =>
      if String.eqb k' k then (k', v) :: o' else (k', v') :: assign o' k v
  end.

(** Index properties of arrays and strings, keyed by their decimal names. *)
Definition indexed (l : list value) : obj :=
  imap (fun i v => (pretty i, v)) l.

Fixpoint chars (s : string) : list value :=
  match s with
  | EmptyString => []
  | String c s' => VStr (String c EmptyString) :: chars s'
  end.

(** [{ ...v }]: the own enumerable properties of [v]; primitives other
    than strings have none. *)
Definition spread (v : value) : obj :=
  match v with
  | VObj o => o
  | VArr l => indexed l
  | VStr s => indexed (chars s)
  | _ => []
  end.

(** [Object.keys(v)] raises on [undefined] and [null]. *)
Definition keys (v : value) : res (list string) :=
  match v with
  | VUndefined | VNull => Throw TypeError
  | _ => Ok (map fst (spread v))
  end.

(** [v.k]: raises on [undefined] and [null]. *)
Definition get (v : value) (k : string) : res value :=
  match v with
  | VUndefined | VNull => Throw TypeError
  | _ => Ok (field (spread v) k)
  end.

(** [v?.k]. *)
Definition oget (v : value) (k : string) : value :=
  match v with
  | VUndefined | VNull => VUndefined
  | _ => field (spread v) k
  end.

(** [v?.k1?.k2 ...] *)
Definition ochain (v : value) (ks : list string) : value :=
  fold_left oget ks v.

(** [a || b] and [a && b] on values. *)
Definition vor (a b : value) : value := if truthy a then a else b.
Definition vand (a b : value) : value := if truthy a then b else a.
Definition vnot (a : value) : value := VBool (negb (truthy a)).

(** Strict equality against a primitive constant. *)
Definition eq_num (v : value) (n : Q) : bool :=
  match v with
  | VNum q => Qeq_bool q n
  | _ => false
  end.

Definition eq_str (v : value) (s : string) : bool :=
  match v with
  | VStr s' => String.eqb s' s
  | _ => false
  end.

Definition Qgtb (a b : Q) : bool :=
  match (a ?= b)%Q with
  | Gt => true
  | _ => false
  end.

Definition Qltb (a b : Q) : bool := Qgtb b a.

Section Coercions.

(** [Number(s)] for a string and [Number(a)] for an array parse text;
    the parser is left to the host.  [None] stands for [NaN]. *)
Variable parse_number : value → option Q.
(** [String(v)] for numbers and arrays (number formatting, [join]). *)
Variable format : value → string.

Definition to_number (v : value) : option Q :=
  match v with
  | VUndefined | VNaN | VObj _ => None
  | VNull => Some 0%Q
  | VBool b => Some (if b then 1%Q else 0%Q)
  | VNum q => Some q
  | VStr _ | VArr _ => parse_number v
  end.

Definition of_number (n : option Q) : value :=
  match n with
  | Some q => VNum q
  | None => VNaN
  end.

(** [Number(v)] *)
Definition Number (v : value) : value := of_number (to_number v).

Definition to_string (v : value) : string :=
  match v with
  | VUndefined => "undefined"
  | VNull => "null"
  | VBool true => "true"
  | VBool false => "false"
  | VNaN => "NaN"
  | VStr s => s
  | VObj _ => "[object Object]"
  | VNum _ | VArr _ => format v
  end.

(** [v.toString()] *)
Definition toString (v : value) : res value :=
  match v with
  | VUndefined | VNull => Throw TypeError
  | _ => Ok (VStr (to_string v))
  end.

Definition is_stringy (v : value) : bool :=
  match v with
  | VStr _ | VObj _ | VArr _ => true
  | _ => false
  end.

(** [a > b] and [a < b]: two strings compare as text, anything else
    numerically; a comparison with [NaN] is [false]. *)
Definition js_gt (a b : value) : bool :=
  if is_stringy a && is_stringy b
  then String.ltb (to_string b) (to_string a)
  else match to_number a, to_number b with
       | Some x, Some y => Qgtb x y
       | _, _ => false
       end.

Definition js_lt (a b : value) : bool := js_gt b a.

(** [a + b]: text concatenation as soon as one side is a string, an
    object or an array. *)
Definition js_add (a b : value) : value :=
  if is_stringy a || is_stringy b
  then VStr (to_string a ++ to_string b)
  else match to_number a, to_number b with
       | Some x, Some y => VNum (x + y)
       | _, _ => VNaN
       end.

Definition js_sub (a b : value) : value :=
  match to_number a, to_number b with
  | Some x, Some y => VNum (x - y)
  | _, _ => VNaN
  end.

Definition js_mul (a b : value) : value :=
  match to_number a, to_number b with
  | Some x, Some y => VNum (x * y)
  | _, _ => VNaN
  end.

(** The divisors in this program are the constants 10 and 100; a division
    by zero is mapped to [NaN]. *)
Definition js_div (a b : value) : value :=
  match to_number a, to_number b with
  | Some x, Some y => if Qeq_bool y 0 then VNaN else VNum (x / y)
  | _, _ => VNaN
  end.

(** [Math.abs(v)] *)
Definition Math_abs (v : value) : value :=
  match to_number v with
  | Some x => VNum (Qabs x)
  | None => VNaN
  end.

(** [Math.round(v)]: the integer nearest to [v], ties upwards. *)
Definition Math_round (v : value) : value :=
  match to_number v with
  | Some x => VNum (inject_Z (Qfloor (x + (1 # 2))))
  | None => VNaN
  end.

End Coercions.

(* ===================================================================== *)
(** * The command queue ([setupQueue])                                   *)
(* ===================================================================== *)

(** A queued command: [{ command, args }]. *)
Record item : Type := Item { command : string; args : value }.

(** What the device does to the outside world, in order. *)
Inductive event : Type :=
| Log (msg : string)                    (* this.log(...) *)
| Error (msg : string)                  (* this.error(...) *)
| Call (cmd : string) (a : value)       (* methodClass[item.command](item.args) *)
| Login                                 (* this.client.login() *)
| Wait (seconds : Z)                    (* setTimeoutPromise(seconds * 1000) *)
| SetAvailable
| SetUnavailable
| ClearInterval.

(** The fields of [CarDevice] the queue and the poll timer read or write.
    [queue] is the JavaScript array [this.queue]: a sparse map from
    indices to items ([delete] leaves a hole). *)
Record device : Type := Device {
  disabled : bool;
  queue : gmap Z item;
  head : Z;
  tail : Z;
  queueRunning : bool;
  busy : bool;
  restarting : bool;
  watchDogCounter : Z;
  vehicle : value;
  loginOnRetry : bool;                 (* this.settings.loginOnRetry *)
  lastCommand : option string;         (* undefined until the first command *)
  fixChargerStateTime : option Z;      (* undefined unless set *)
  trace : list event;
}.

Definition with_slots (q : gmap Z item) (h t : Z) (d : device) : device :=
  Device (disabled d) q h t (queueRunning d) (busy d) (restarting d)
    (watchDogCounter d) (vehicle d) (loginOnRetry d) (lastCommand d)
    (fixChargerStateTime d) (trace d).

Definition with_queueRunning (b : bool) (d : device) : device :=
  Device (disabled d) (queue d) (head d) (tail d) b (busy d) (restarting d)
    (watchDogCounter d) (vehicle d) (loginOnRetry d) (lastCommand d)
    (fixChargerStateTime d) (trace d).

Definition with_busy (b : bool) (d : device) : device :=
  Device (disabled d) (queue d) (head d) (tail d) (queueRunning d) b
    (restarting d) (watchDogCounter d) (vehicle d) (loginOnRetry d)
    (lastCommand d) (fixChargerStateTime d) (trace d).

Definition with_restarting (b : bool) (d : device) : device :=
  Device (disabled d) (queue d) (head d) (tail d) (queueRunning d) (busy d)
    b (watchDogCounter d) (vehicle d) (loginOnRetry d) (lastCommand d)
    (fixChargerStateTime d) (trace d).

Definition with_watchDogCounter (n : Z) (d : device) : device :=
  Device (disabled d) (queue d) (head d) (tail d) (queueRunning d) (busy d)
    (restarting d) n (vehicle d) (loginOnRetry d) (lastCommand d)
    (fixChargerStateTime d) (trace d).

Definition with_lastCommand (c : option string) (d : device) : device :=
  Device (disabled d) (queue d) (head d) (tail d) (queueRunning d) (busy d)
    (restarting d) (watchDogCounter d) (vehicle d) (loginOnRetry d) c
    (fixChargerStateTime d) (trace d).

Definition with_vehicle (v : value) (d : device) : device :=
  Device (disabled d) (queue d) (head d) (tail d) (queueRunning d) (busy d)
    (restarting d) (watchDogCounter d) v (loginOnRetry d) (lastCommand d)
    (fixChargerStateTime d) (trace d).

Definition emit (e : event) (d : device) : device :=
  Device (disabled d) (queue d) (head d) (tail d) (queueRunning d) (busy d)
    (restarting d) (watchDogCounter d) (vehicle d) (loginOnRetry d)
    (lastCommand d) (fixChargerStateTime d) (trace d ++ [e])%list.

(** [enQueue(item)]: the new state, and whether [this.runQueue()] was
    started by this call. *)
Definition enQueue (x : item) (d : device) : device * bool :=
  if disabled d then
    (emit (Log "ignoring command; Homey live link is disabled.") d, false)
  else if (10 <=? tail d)%Z then
    (emit (Error "queue overflow") d, false)
  else
    let d := with_slots (<[tail d := x]> (queue d)) (head d) (tail d + 1) d in
    if negb (queueRunning d) then (with_queueRunning true d, true)
    else (d, false).

(** [deQueue()]: [None] is [undefined]. *)
Definition deQueue (d : device) : device * option item :=
  let size := tail d - head d in
  if (size <=? 0)%Z then (d, None)
  else
    let x := queue d !! head d in
    let q := delete (head d) (queue d) in
    let h := head d + 1 in
    if (h =? tail d)%Z then (with_slots q 0 0 d, x)
    else (with_slots q h (tail d) d, x).

Definition flushQueue (d : device) : device :=
  emit (Log "Queue is flushed")
    (with_queueRunning false (with_slots ∅ 0 0 d)).

(** [itemWait[item.command] || 5] *)
Definition itemWait (cmd : string) : Z :=
  if String.eqb cmd "doPoll" then 5
  else if String.eqb cmd "start" then 65
  else if String.eqb cmd "stop" then 5
  else if String.eqb cmd "lock" then 5
  else if String.eqb cmd "unlock" then 5
  else if String.eqb cmd "setChargeTargets" then 25
  else if String.eqb cmd "startCharge" then 25
  else if String.eqb cmd "stopCharge" then 5
  else if String.eqb cmd "setNavigation" then 65
  else 5.

(** The text ["resCode":"<code>"], quotes included. *)
Definition dquote : string := String (Ascii.ascii_of_nat 34) EmptyString.
Definition resCode (code : string) : string :=
  dquote ++ "resCode" ++ dquote ++ ":" ++ dquote ++ code ++ dquote.

(** [msg.includes(needle)] *)
Definition includes (msg needle : string) : bool :=
  match String.index 0 needle msg with
  | Some _ => true
  | None => false
  end.

(** [msg && (msg.includes(resCode 4002) || msg.includes(resCode 4004))]
    on a text. *)
Definition retryable (msg : string) : bool :=
  negb (String.eqb msg EmptyString)
  && (includes msg (resCode "4002") || includes msg (resCode "4004")).

(** How a call on the vehicle client (or [doPoll]) settles.  A call that
    resolved: [modeChanged] tells, for [doPoll], whether the poll changed
    the poll mode and so called [startPolling] before it resolved (lines
    463-470); the methods of the vehicle client do not touch the device.
    A call that was rejected: [error] is the value it was rejected with,
    an [Error] object with its [message], an error with a [body], a text
    or anything else. *)
Inductive outcome : Type :=
| Resolved (modeChanged : bool)
| Rejected (error : value).

(** What the remote side answers during one run of [runQueue]. *)
Record remote : Type := Remote {
  first : outcome;        (* the command *)
  login : bool;           (* this.client.login() resolves *)
  retry : outcome;        (* the command, called once more *)
  clock : Z;              (* Date.now() *)
}.

(** [const msg = error.body || error.message || error] (line 186);
    reading a property of [undefined] or [null] raises. *)
Definition errorText (error : value) : res value :=
  body ← get error "body";
  if truthy body then Ok body
  else
    message ← get error "message";
    Ok (vor message error).

(** [msg.includes(needle)] on a value: a search in a text, membership in
    an array; no other value has an [includes] to call. *)
Definition msgIncludes (msg : value) (needle : string) : res bool :=
  match msg with
  | VStr s => Ok (includes s needle)
  | VArr l => Ok (existsb (fun v => eq_str v needle) l)
  | _ => Throw TypeError
  end.

(** The test of line 189 on the rejection itself:
    [msg && (msg.includes(4002) || msg.includes(4004))]. *)
Definition wantsRetry (error : value) : res bool :=
  msg ← errorText error;
  if negb (truthy msg) then Ok false
  else
    match msgIncludes msg (resCode "4002") with
    | Ok true => Ok true
    | Ok false => msgIncludes msg (resCode "4004")
    | Throw e => Throw e
    end.

(** The first poll [startPolling] queues (line 289). *)
Definition firstPoll : item :=
  Item "doPoll" (VObj [("forceOnce", VBool false); ("logPoll", VBool true)]).

(** [startPolling(interval)] (lines 269-293): the timer is cleared and
    armed anew, with [pollTick] below as its callback, and a first poll
    is queued. *)
Definition startPolling (d : device) : device * bool :=
  enQueue firstPoll (emit (Log "Start polling") (emit ClearInterval d)).

(** What the call did to the device before it resolved: nothing, but for
    a [doPoll] that changed the poll mode.  [runQueue] is running then,
    so the [enQueue] of [startPolling] starts no second consumer. *)
Definition called (x : item) (modeChanged : bool) (d : device) : device :=
  if modeChanged && String.eqb (command x) "doPoll" then (startPolling d).1 else d.

(** The [.then] handler of a call that resolved. *)
Definition succeeded (d : device) : device :=
  emit SetAvailable (with_watchDogCounter 6 d).

(** Lines 180-206: the call, its [.then] and its [.catch] handler.
    [inr e] is an exception leaving the handler: the test of line 189
    raising on an error without a text, or the login before the retry
    failing. *)
Definition execute (x : item) (r : remote) (d : device) : device + device * string :=
  let d := emit (Call (command x) (args x)) d in
  match first r with
  | Resolved changed => inl (succeeded (called x changed d))
  | Rejected error =>
      match wantsRetry error with
      | Throw e => inr (d, e)
      | Ok again =>
          let attempt : (device * bool) + device * string :=
            if again then
              let d := emit (Log (command x ++ " failed. Retrying in 60 seconds")) d in
              let d := emit (Wait 60) d in
              let logged := if loginOnRetry d then emit Login d else d in
              if loginOnRetry d && negb (login r) then inr (logged, "login failed")
              else
                let d := emit (Call (command x) (args x)) logged in
                match retry r with
                | Resolved changed => inl (succeeded (called x changed d), true)
                | Rejected _ => inl (d, false)
                end
            else inl (d, false) in
          match attempt with
          | inr e => inr e
          | inl (d, retryWorked) =>
              let d :=
                if retryWorked then d
                else with_watchDogCounter (watchDogCounter d - 1)
                       (emit (Error (command x ++ " failed")) d) in
              inl (with_busy false d)
          end
      end
  end.

(** [!this.vehicle || !this.vehicle.vehicleConfig] *)
Definition noSession (d : device) : bool :=
  negb (truthy (vehicle d)) || negb (truthy (oget (vehicle d) "vehicleConfig")).

(** The [catch] block of [runQueue]. *)
Definition caught (e : string) (d : device) : device :=
  emit (Error e) (with_busy false (with_queueRunning false d)).

(** One run of [runQueue].  The flag tells whether [this.runQueue()] is
    invoked again: by line 208 after the wait, or by the [enQueue] of the
    follow-up poll. *)
Definition runQueue (r : remote) (d : device) : device * bool :=
  let d := with_busy true d in
  let d := with_queueRunning true d in
  let '(d, x) := deQueue d in
  match x with
  | Some x =>
      if noSession d then
        let d := with_watchDogCounter (watchDogCounter d - 2) d in
        (caught "Ignoring queued command; not logged in" d, false)
      else
        let d := with_lastCommand (Some (command x)) d in
        match execute x r d with
        | inl d => (emit (Wait (itemWait (command x))) d, true)
        | inr (d, e) => (caught e d, false)
        end
  | None =>
      let d := with_queueRunning false d in
      let d := with_busy false d in
      let fixingChargerState :=
        match lastCommand d with Some c => String.eqb c "stopCharge" | None => false end
        || match fixChargerStateTime d with
           | Some t => (clock r - t <? 30 * 1000)%Z
           | None => false
           end in
      let notPoll :=
        match lastCommand d with Some c => negb (String.eqb c "doPoll") | None => true end in
      if notPoll && negb fixingChargerState then
        enQueue (Item "doPoll" (VObj [("forceOnce", VBool true); ("logPoll", VBool false)])) d
      else (d, false)
  end.

(** The consumption loop: [runQueue] re-invoking itself until it stops.
    [None]: the loop is still going when the fuel is used up. *)
Fixpoint runLoop (fuel : nat) (rs : nat → remote) (d : device) : option device :=
  match fuel with
  | O => None
  | S fuel =>
      let '(d, again) := runQueue (rs O) d in
      if again then runLoop fuel (fun n => rs (S n)) d else Some d
  end.

(** [restartDevice]: up to the delay before [onInit]. *)
Definition restartDevice (d : device) : device :=
  if restarting d then d
  else
    let d := with_restarting true d in
    let d := emit ClearInterval (emit (Log "Stop polling") d) in
    let d := flushQueue d in
    emit SetUnavailable (emit (Log "Device will restart") d).

(** The interval callback armed by [startPolling]. *)
Definition pollTick (d : device) : device * bool :=
  if (watchDogCounter d <=? 0)%Z then
    (restartDevice (emit (Log "watchdog triggered, restarting device now") d), false)
  else if busy d then
    (emit (Log "skipping a poll") (with_watchDogCounter (watchDogCounter d - 1) d), false)
  else
    enQueue (Item "doPoll" (VObj [("forceOnce", VBool false); ("logPoll", VBool false)])) d.

(** The [ready] handler of [setupClient] (lines 258-263): [found] is the
    vehicle of the account with the configured VIN, [undefined] when there
    is none.  While [this.vehicle] is still [null] the configuration of
    the vehicle found is logged first; reading it off [undefined] raises
    (line 261), and the assignment is not reached. *)
Definition ready (found : value) (d : device) : device :=
  match vehicle d with
  | VNull =>
      if nullish found then d
      else with_vehicle found (emit (Log "vehicle configuration") d)
  | _ => with_vehicle found d
  end.

(** [initvalues] and [setupQueue] on a fresh device. *)
Definition initial (v : value) (retryLogin : bool) : device :=
  Device false ∅ 0 0 false false false 6 v retryLogin None None [].

(** The pending commands, oldest first. *)
Definition pending (d : device) : list item :=
  omap (fun i => queue d !! i) (seqZ (head d) (tail d - head d)).

Definition size (d : device) : Z := tail d - head d.

(* ===================================================================== *)
(** * The status normalizer ([mapStatus]) and the classifier             *)
(* ===================================================================== *)

(** [v[k]] for a [v] known not to be [undefined] or [null]. *)
Definition prop (v : value) (k : string) : value := field (spread v) k.

(** An optional chain [base?.rest]: everything after the [?.] is skipped
    when [base] is [undefined] or [null]. *)
Definition optional (base : value) (rest : value → res value) : res value :=
  if nullish base then Ok VUndefined else rest base.

(** [[...].filter(Boolean)] *)
Definition filter_Boolean (l : list value) : list value :=
  List.filter truthy l.

(** [l.every((d) => d[k] === 0)] on a list of truthy values. *)
Definition every_zero (k : string) (l : list value) : bool :=
  forallb (fun d => eq_num (prop d k) 0) l.

(** [arr.find((list) => list.plugType === n)] *)
Fixpoint find_plugType (l : list value) (n : Q) : res value :=
  match l with
  | [] => Ok VUndefined
  | x :: l' =>
      p ← get x "plugType";
      if eq_num p n then Ok x else find_plugType l' n
  end.

Definition find (v : value) (n : Q) : res value :=
  match v with
  | VArr l => find_plugType l n
  | _ => Throw TypeError
  end.

(** The charging phase from the connector code and the charging flag
    (the [if]/[else if] ladder both schema branches end with). *)
Definition evChargingState (charger : value) : string :=
  if eq_num charger 1 || eq_num charger 2 then "plugged_in_charging"
  else if eq_num charger 3 || eq_num charger 4 then "plugged_in"
  else "plugged_out".

Section Normalizer.

Variable parse_number : value → option Q.
Variable format : value → string.

(** [this.settings] and [this.getCapabilityValue]. *)
Variable settings : obj.
Variable getCapabilityValue : string → value.

(** The collaborators that are not part of this repository's sources:
    - [new GeoPoint(lat1, lon1).distanceTo(new GeoPoint(lat2, lon2), true)]
      (package geopoint; its constructor raises on invalid coordinates);
    - [geo.getCarLocString(map).catch(...)] (lib/nomatim): [undefined]
      when the lookup fails;
    - [convert.getTempFromCode] (lib/temp_convert). *)
Variable geoDistance : value → value → value → value → res value.
Variable getCarLocString : obj → value.
Variable getTempFromCode : value → res value.

Abbreviation num := (Number parse_number).
Abbreviation jgt := (js_gt parse_number format).
Abbreviation jlt := (js_lt parse_number format).
Abbreviation jadd := (js_add parse_number format).
Abbreviation jmul := (js_mul parse_number).
Abbreviation jdiv := (js_div parse_number).
Abbreviation jround := (Math_round parse_number).

(** [distance(location)] *)
Definition distance (location : obj) : res value :=
  let lat1 := field location "latitude" in
  let lon1 := field location "longitude" in
  let lat2 := field settings "lat" in
  let lon2 := field settings "lon" in
  d ← geoDistance (num lat1) (num lon1) (num lat2) (num lon2);
  Ok (jdiv (jround (jmul d (VNum 100))) (VNum 100)).

(** [if (charger && !charge) charger += 2] *)
Definition recode (charger charge : value) : value :=
  if truthy charger && negb (truthy charge) then jadd charger (VNum 2)
  else charger.

(** [speed > 255 ? 0 : speed] *)
Definition clampSpeed (speed : value) : value :=
  if jgt speed (VNum 255) then VNum 0 else speed.

(** Coordinates, speed, distance from home and the address, written by
    the old full branch and by the new branch alike. *)
Definition locate (map : obj) (lat lon speed : value) : res obj :=
  let map := assign map "latitude" lat in
  let map := assign map "longitude" lon in
  let map := assign map "measure_speed" (clampSpeed speed) in
  d ← distance map;
  let map := assign map "meter_distance"
               (jdiv (jround (jmul d (VNum 10))) (VNum 10)) in
  let carLocString := getCarLocString map in
  let map := assign map "location" (oget carLocString "local") in
  let map := assign map "address" (oget carLocString "address") in
  Ok map.

(** Lines 534-545: "is old type full status". *)
Definition mapOldFull (sts map : obj) : res obj :=
  let map := assign map "measure_odo" (ochain (VObj sts) ["odometer"; "value"]) in
  locate map
    (ochain (VObj sts) ["vehicleLocation"; "coord"; "lat"])
    (ochain (VObj sts) ["vehicleLocation"; "coord"; "lon"])
    (ochain (VObj sts) ["vehicleLocation"; "speed"; "value"]).

(** [sts.doorLock && !sts.trunkOpen && !sts.hoodOpen
     && Object.keys(sts.doorOpen).reduce(
          (closedAccu, door) => closedAccu || !sts.doorOpen[door], true)] *)
Definition closedLockedOld (sts : obj) : res value :=
  let lock := field sts "doorLock" in
  if negb (truthy lock) then Ok lock
  else if truthy (field sts "trunkOpen") then Ok (VBool false)
  else if truthy (field sts "hoodOpen") then Ok (VBool false)
  else
    doors ← keys (field sts "doorOpen");
    Ok (fold_left
          (fun closedAccu door =>
             vor closedAccu (vnot (prop (field sts "doorOpen") door)))
          doors (VBool true)).

(** [targetSOClist.find((list) => list.plugType === n)?.targetSOClevel.toString()] *)
Definition targetOf (targetSOClist : value) (n : Q) : res value :=
  found ← find targetSOClist n;
  optional found (fun f => toString format (prop f "targetSOClevel")).

(** Lines 547-582: "is old type simple or full status". *)
Definition mapOld (sts map : obj) : res obj :=
  let charge := ochain (VObj sts) ["evStatus"; "batteryCharge"] in
  let charger := ochain (VObj sts) ["evStatus"; "batteryPlugin"] in
  let charger := recode charger charge in
  let map := assign map "climate_control" (field sts "airCtrlOn") in
  temp ← (if truthy (field sts "airCtrlOn")
          then code ← get (field sts "airTemp") "value"; getTempFromCode code
          else Ok (getCapabilityValue "target_temperature"));
  let map := assign map "target_temperature" temp in
  let map := assign map "locked" (field sts "doorLock") in
  let map := assign map "defrost" (field sts "defrost") in
  let map := assign map "engine" (field sts "engine") in
  closed ← closedLockedOld sts;
  let map := assign map "closed_locked" closed in
  let map := assign map "alarm_tire_pressure"
    (VBool (truthy (ochain (VObj sts) ["tirePressureLamp"; "tirePressureLampAll"]))) in
  let map := assign map "measure_battery.12V" (ochain (VObj sts) ["battery"; "batSoc"]) in
  let range :=
    vor (ochain (VObj sts) ["evStatus"; "drvDistance"; "0"; "rangeByFuel";
                            "totalAvailableRange"; "value"])
        (ochain (VObj sts) ["dte"; "value"]) in
  let range :=
    match range with
    | VUndefined => VNull
    | _ => if jlt range (VNum 0) then VNull else range
    end in
  let map := assign map "measure_range" range in
  let map := assign map "measure_battery" (ochain (VObj sts) ["evStatus"; "batteryStatus"]) in
  let map := assign map "measure_power.charge" VNull in
  let map := assign map "meter_power.fuel_economy" VNull in
  let map := assign map "charge" charge in
  let targetSOClist := ochain (VObj sts) ["evStatus"; "reservChargeInfos"; "targetSOClist"] in
  map ← (if truthy targetSOClist then
           slow ← targetOf targetSOClist 1;
           let map := assign map "charge_target_slow" slow in
           fast ← targetOf targetSOClist 0;
           Ok (assign map "charge_target_fast" fast)
         else Ok map);
  let map := assign map "ev_charging_state" (VStr (evChargingState charger)) in
  let map := assign map "alarm_bat"
    (VBool (jlt (ochain (VObj sts) ["battery"; "batSoc"]) (field settings "batteryAlarmLevel")
            || jlt (ochain (VObj sts) ["evStatus"; "batteryStatus"])
                   (field settings "EVbatteryAlarmLevel"))) in
  Ok (assign map "Date" (field sts "time")).

(** Lines 584-651: "is new type status". *)
Definition mapNew (sts map : obj) : res obj :=
  let s := VObj sts in
  let map := assign map "measure_odo" (ochain s ["Drivetrain"; "Odometer"]) in
  map ← locate map
    (ochain s ["Location"; "GeoCoord"; "Latitude"])
    (ochain s ["Location"; "GeoCoord"; "Longitude"])
    (ochain s ["Location"; "Speed"; "Value"]);
  let map := assign map "measure_power.charge"
    (jmul (ochain s ["Green"; "Electric"; "SmartGrid"; "RealTimePower"]) (VNum 1000)) in
  let map := assign map "meter_power.fuel_economy"
    (ochain s ["Drivetrain"; "FuelSystem"; "AverageFuelEconomy"; "Drive"]) in
  let charge :=
    VBool (truthy (ochain s ["Green"; "ChargingInformation"; "Charging"; "RemainTime"])) in
  let charger := ochain s ["Green"; "ChargingInformation"; "ConnectorFastening"; "State"] in
  let charger := recode charger charge in
  let targetTemp := ochain s ["Cabin"; "HVAC"; "Row1"; "Driver"; "Temperature"; "Value"] in
  let targetTemp :=
    match targetTemp with
    | VStr _ => match num targetTemp with VNaN => targetTemp | n => n end
    | _ => targetTemp
    end in
  let map := assign map "climate_control" (VBool (negb (eq_str targetTemp "OFF"))) in
  let map := assign map "target_temperature"
    (if eq_str targetTemp "OFF" then getCapabilityValue "target_temperature"
     else targetTemp) in
  let map := assign map "defrost"
    (VBool (truthy (ochain s ["Body"; "Windshield"; "Front"; "Defog"; "State"])
            || truthy (ochain s ["Body"; "Windshield"; "Rear"; "Defog"; "State"]))) in
  let doors := filter_Boolean
    [ ochain s ["Cabin"; "Door"; "Row1"; "Driver"];
      ochain s ["Cabin"; "Door"; "Row1"; "Passenger"];
      ochain s ["Cabin"; "Door"; "Row2"; "Left"];
      ochain s ["Cabin"; "Door"; "Row2"; "Right"] ] in
  let allDoorsClosed := every_zero "Open" doors in
  let allDoorsLocked := every_zero "Lock" doors in
  let windows := filter_Boolean
    [ ochain s ["Cabin"; "Window"; "Row1"; "Driver"];
      ochain s ["Cabin"; "Window"; "Row1"; "Passenger"];
      ochain s ["Cabin"; "Window"; "Row2"; "Left"];
      ochain s ["Cabin"; "Window"; "Row2"; "Right"] ] in
  let allWindowsClosed := every_zero "Open" windows in
  let trunkClosed := eq_num (ochain s ["Body"; "Trunk"; "Open"]) 0 in
  let hoodClosed := eq_num (ochain s ["Body"; "Hood"; "Open"]) 0 in
  let sunroofClosed := eq_num (ochain s ["Body"; "Sunroof"; "Glass"; "Open"]) 0 in
  let map := assign map "locked" (VBool allDoorsLocked) in
  let map := assign map "closed_locked"
    (VBool (allDoorsClosed && allDoorsLocked && allWindowsClosed
            && trunkClosed && hoodClosed && sunroofClosed)) in
  let map := assign map "engine" (VBool (truthy (field sts "DrivingReady"))) in
  let map := assign map "alarm_tire_pressure"
    (VBool (truthy (ochain s ["battery"; "Axle"; "Tire"; "PressureLow"]))) in
  let map := assign map "measure_battery.12V" (ochain s ["Electronics"; "Battery"; "Level"]) in
  range ← optional (ochain s ["Drivetrain"; "FuelSystem"])
            (fun fs => get (prop fs "DTE") "Total");
  let map := assign map "measure_range" range in
  battery ← optional (ochain s ["Green"; "BatteryManagement"])
              (fun bm => get (prop bm "BatteryRemain") "Ratio");
  let map := assign map "measure_battery" battery in
  let map := assign map "charge" charge in
  slow ← optional (ochain s ["Green"; "ChargingInformation"; "TargetSoC"])
           (fun t => toString format (prop t "Standard"));
  let map := assign map "charge_target_slow" slow in
  fast ← optional (ochain s ["Green"; "ChargingInformation"; "TargetSoC"])
           (fun t => toString format (prop t "Quick"));
  let map := assign map "charge_target_fast" fast in
  let map := assign map "ev_charging_state" (VStr (evChargingState charger)) in
  let map := assign map "alarm_bat"
    (VBool (jlt (field map "measure_battery.12V") (field settings "batteryAlarmLevel")
            || jlt (field map "measure_battery") (field settings "EVbatteryAlarmLevel"))) in
  Ok (assign map "Date" (field sts "Date")).

(** [mapStatus(status)]: [Ok map] when the promise resolves with [map],
    [Throw e] when it is rejected. *)
Definition mapStatus (status : value) : res obj :=
  let map : obj := [] in
  if negb (truthy status) then Ok map
  else
    let sts := spread status in
    '(map, sts) ← (if truthy (field sts "vehicleStatus")
                   then map ← mapOldFull sts map;
                        Ok (map, spread (prop status "vehicleStatus"))
                   else Ok (map, sts));
    map ← (if truthy (field sts "time") then mapOld sts map else Ok map);
    map ← (if truthy (field sts "Date") then mapNew sts map else Ok map);
    Ok map.

(** Lines 435-438 of [doPoll]:
    [if (!stsMapped.measure_odo)
       stsMapped.measure_odo = { ...this?.lastStatus?.measure_odo };]
    The result is the new [this.lastStatus]. *)
Definition repairOdo (lastStatus : value) (stsMapped : obj) : obj :=
  if negb (truthy (field stsMapped "measure_odo"))
  then assign stsMapped "measure_odo" (VObj (spread (oget lastStatus "measure_odo")))
  else stsMapped.

Abbreviation jsub := (js_sub parse_number).
Abbreviation jabs := (Math_abs parse_number).

(** [isMoving(info)]; the previous location is read from the
    capabilities [latitude] and [longitude]. *)
Definition isMoving (info : obj) : bool :=
  let prevLat := getCapabilityValue "latitude" in
  let prevLon := getCapabilityValue "longitude" in
  if negb (truthy (field info "measure_speed")) || negb (truthy prevLat) then false
  else
    jgt (field info "measure_speed") (VNum 0)
    || (jgt (jabs (jsub (field info "latitude") prevLat)) (VNum (1 # 10000))
        || jgt (jabs (jsub (field info "longitude") prevLon)) (VNum (1 # 10000))).

(** [isParking(info)] against [this.parkLocation]. *)
Definition isParking (parkLocation : obj) (info : obj) : bool :=
  let parked := negb (truthy (field info "engine")) in
  if negb parked then false
  else
    let newLocation :=
      jgt (jabs (jsub (field info "latitude") (field parkLocation "latitude")))
          (VNum (3 # 10000))
      || jgt (jabs (jsub (field info "longitude") (field parkLocation "longitude")))
             (VNum (3 # 10000)) in
    parked && newLocation.

End Normalizer.

(** Replaying queue operations from a state: the commands accepted by
    [enQueue] and the commands handed out by [deQueue], both in order.
    The calls of [deQueue] made by the consumer [runQueue] are [Deq]
    operations of the sequence. *)
Inductive op : Type :=
| Enq (x : item)
| Deq.

Definition accepts (d : device) : bool :=
  negb (disabled d) && negb (10 <=? tail d)%Z.

Fixpoint replay (ops : list op) (d : device) : device * list item * list item :=
  match ops with
  | [] => (d, [], [])
  | Enq x :: ops =>
      let '(d', acc, out) := replay ops (enQueue x d).1 in
      (d', (if accepts d then [x] else []) ++ acc, out)%list
  | Deq :: ops =>
      let '(d1, x) := deQueue d in
      let '(d', acc, out) := replay ops d1 in
      (d', acc, (option_list x ++ out)%list)
  end.

(** The slot table is well formed: the indices from [head] up to [tail]
    all hold a command. *)
Definition wf (d : device) : Prop :=
  (0 ≤ head d ≤ tail d)%Z
  ∧ ∀ i, (head d ≤ i < tail d)%Z → is_Some (queue d !! i).

(* ===================================================================== *)
(** * The life of a device                                               *)
(* ===================================================================== *)

(** [initvalues] and [setupQueue] as [onInit] runs them again after a
    restart: the queue, the flags, the counter and the vehicle start
    afresh; the last command is not touched. *)
Definition reinit (d : device) : device :=
  Device (disabled d) ∅ 0 0 false false false 6 VNull (loginOnRetry d)
    (lastCommand d) (fixChargerStateTime d) (trace d).

(** [this.parkLocation] as [initvalues] sets it (line 103); [stored] is
    [getStoreValue('parkLocation')]. *)
Definition initialParkLocation (stored : value) : value :=
  vor stored (VObj [("latitude", VNum 0); ("longitude", VNum 0)]).

(** [error.message && error.message.includes(resCode <code>)] *)
Definition carries (msg code : string) : bool :=
  negb (String.eqb msg EmptyString) && includes msg (resCode code).

(** The [error] handler of the client ([setupClient], lines 242-256);
    [msg] is [error.message]. *)
Definition clientError (msg : string) (d : device) : device :=
  let d :=
    if carries msg "5091" then
      let d := emit (Log "Daily quotum reached! Pausing app for 60 minutes.") d in
      let d := emit ClearInterval (emit (Log "Stop polling") d) in
      let d := emit SetUnavailable d in
      restartDevice d
    else d in
  let d :=
    if carries msg "4004" then
      with_watchDogCounter (watchDogCounter d - 1)
        (emit (Log "Command failed (duplicate request)") d)
    else d in
  let d := emit (Error msg) d in
  let d := with_watchDogCounter (watchDogCounter d - 1) d in
  if negb (truthy (vehicle d)) then restartDevice d else d.

(** How often a trace announces a restart. *)
Definition announced (t : list event) : nat :=
  length (List.filter
            (fun e => match e with
                      | Log msg => String.eqb msg "Device will restart"
                      | _ => false
                      end) t).

(** What can happen to a device between two awaits. *)
Inductive happening : Type :=
| DoEnQueue (x : item)
| DoDeQueue
| DoRunQueue (r : remote)
| DoPollTick
| DoRestart
| DoFlush
| DoReady (found : value)
| DoInit.

Definition happen (d : device) (h : happening) : device :=
  match h with
  | DoEnQueue x => (enQueue x d).1
  | DoDeQueue => (deQueue d).1
  | DoRunQueue r => (runQueue r d).1
  | DoPollTick => (pollTick d).1
  | DoRestart => restartDevice d
  | DoFlush => flushQueue d
  | DoReady found => ready found d
  | DoInit => reinit d
  end.

Definition history (hs : list happening) (d : device) : device :=
  fold_left happen hs d.

(** The slot table is in order: well formed, never past index 10, and
    back at index 0 whenever it is empty. *)
Definition inv (d : device) : Prop :=
  wf d ∧ (tail d ≤ 10)%Z ∧ (head d = tail d → tail d = 0%Z).

(** The calls made on the vehicle client (or [doPoll]), read off a trace. *)
Definition calls (t : list event) : list item :=
  omap (fun e => match e with Call c a => Some (Item c a) | _ => None end) t.

(** The poll that [runQueue] queues behind the last command. *)
Definition followUpPoll : item :=
  Item "doPoll" (VObj [("forceOnce", VBool true); ("logPoll", VBool false)]).

(** Whether a drained queue gets a follow-up poll: the last command was
    neither a poll nor [stopCharge] (line 213-214, with
    [fixChargerStateTime] undefined). *)
Definition wantsFollowUp (last : option string) : bool :=
  match last with
  | Some c => negb (String.eqb c "doPoll") && negb (String.eqb c "stopCharge")
  | None => true
  end.

(** Whether the charger-fix window of 30 seconds is open ([Date.now() -
    this.fixChargerStateTime < 30 * 1000]; never, while the time stamp is
    undefined). *)
Definition cooling (r : remote) (d : device) : bool :=
  match fixChargerStateTime d with
  | Some t => (clock r - t <? 30 * 1000)%Z
  | None => false
  end.

(** The command the consumer ran last once [items] are done. *)
Definition lastOf (items : list item) (before : option string) : option string :=
  fold_left (fun _ x => Some (command x)) items before.

(** [n] ticks of the poll timer in a row. *)
Fixpoint ticks (n : nat) (d : device) : device :=
  match n with
  | O => d
  | S n => ticks n (pollTick d).1
  end.

(** How often a trace makes the device unavailable, as [restartDevice]
    does once each time it goes ahead. *)
Definition restarts (t : list event) : nat :=
  length (List.filter (fun e => match e with SetUnavailable => true | _ => false end) t).

(** What [execute] leaves of the slot table it was given: the table as
    it was, or with the first poll of [startPolling] queued behind it,
    which takes a [doPoll] that resolved with the poll mode changed. *)
Definition polledSlots (x : item) (r : remote) (d d' : device) : Prop :=
  ∃ (polled : bool) dm,
    queue dm = queue d ∧ head dm = head d ∧ tail dm = tail d
    ∧ (let dn := if polled then (enQueue firstPoll dm).1 else dm in
       queue d' = queue dn ∧ head d' = head dn ∧ tail d' = tail dn)
    ∧ (polled = true →
       command x = "doPoll"
       ∧ (first r = Resolved true
          ∨ (∃ error, first r = Rejected error) ∧ retry r = Resolved true)).

(** The fields the consumer does not write, and no restart. *)
Definition keptFields (d d' : device) : Prop :=
  disabled d' = disabled d
  ∧ restarting d' = restarting d
  ∧ vehicle d' = vehicle d
  ∧ loginOnRetry d' = loginOnRetry d
  ∧ lastCommand d' = lastCommand d
  ∧ fixChargerStateTime d' = fixChargerStateTime d
  ∧ restarts (trace d') = restarts (trace d).

(** Whether a call of this run resolves with the poll mode changed: the
    first call, or the retry after a rejection. *)
Definition rearms (r : remote) : bool :=
  match first r with
  | Resolved b => b
  | Rejected _ => match retry r with Resolved b => b | Rejected _ => false end
  end.

(** How many of the first [n] runs do. *)
Fixpoint modeChanges (rs : nat → remote) (n : nat) : nat :=
  match n with
  | O => 0
  | S n => (if rearms (rs O) then 1 else 0) + modeChanges (fun i => rs (S i)) n
  end.


(* ===================================================================== *)
(** * Reading the new type status                                        *)
(* ===================================================================== *)

(** The door and window objects the new branch of [mapStatus] looks at
    (lines 618-632), before [filter(Boolean)]. *)
Definition doorsOf (sts : obj) : list value :=
  [ ochain (VObj sts) ["Cabin"; "Door"; "Row1"; "Driver"];
    ochain (VObj sts) ["Cabin"; "Door"; "Row1"; "Passenger"];
    ochain (VObj sts) ["Cabin"; "Door"; "Row2"; "Left"];
    ochain (VObj sts) ["Cabin"; "Door"; "Row2"; "Right"] ].

Definition windowsOf (sts : obj) : list value :=
  [ ochain (VObj sts) ["Cabin"; "Window"; "Row1"; "Driver"];
    ochain (VObj sts) ["Cabin"; "Window"; "Row1"; "Passenger"];
    ochain (VObj sts) ["Cabin"; "Window"; "Row2"; "Left"];
    ochain (VObj sts) ["Cabin"; "Window"; "Row2"; "Right"] ].

(** A computation that returned. *)
Definition returned_ok {A} (m : res A) : Prop :=
  match m with
  | Ok _ => True
  | Throw _ => False
  end.

(* ===================================================================== *)
(** * Polling: what [doPoll] decides, and [handleInfo]                   *)
(* ===================================================================== *)

(** [a === b].  Two objects or arrays that were built apart are never the
    same object, and [NaN] equals nothing. *)
Definition strict_eq (a b : value) : bool :=
  match a, b with
  | VUndefined, VUndefined | VNull, VNull => true
  | VBool x, VBool y => Bool.eqb x y
  | VNum x, VNum y => Qeq_bool x y
  | VStr x, VStr y => String.eqb x y
  | _, _ => false
  end.

(** A destructured argument with a default: [{ k = dflt }]. *)
Definition argOr (args : obj) (k : string) (dflt : value) : value :=
  match field args k with
  | VUndefined => dflt
  | v => v
  end.

(** [this.pollMode] and [this.carLastActive]. *)
Record pollState : Type := PollState { pollMode : value; carLastActive : value }.

(** What [handleInfo] leaves behind: the park location, the capability
    values it set, the flow triggers it fired, the token object handed to
    [has_moved] and [has_parked] (one object, shared by both), and
    whether the park location was stored. *)
Record handling : Type := Handling {
  newParkLocation : obj;
  written : list (string * value);
  fired : list string;
  tokens : obj;
  stored : bool;
}.

Section Polling.

Variable parse_number : value → option Q.
Variable format : value → string.
Variable settings : obj.
Variable getCapabilityValue : string → value.
Variable hasCapability : string → bool.
(** The products and quotients of lines 368-370, which JavaScript takes
    in binary64 and so rounds; they are left to the host. *)
Variable fmul : value → value → value.
Variable fdiv : value → value → value.

(** [setCapability(capability, value)] (lines 341-348): the call of
    [setCapabilityValue] it makes, if any. *)
Definition setCapability (capability : string) (v : value) : list (string * value) :=
  if hasCapability capability && negb (strict_eq v VUndefined)
  then [(capability, v)] else [].

(** Lines 368-370 of [doPoll]; [now1] and [now2] are the two readings of
    the clock.  The clock and the time of the last refresh are whole
    numbers of milliseconds, whose difference is exact. *)
Definition forcePollInterval (now1 now2 lastRefresh : value) : value :=
  let batSoc := getCapabilityValue "measure_battery.12V" in
  let forced := field settings "pollIntervalForced" in
  vand
    (vand forced
       (VBool (js_lt parse_number format
                 (fmul (fmul forced (VNum 60)) (VNum 1000))
                 (js_sub parse_number now1 lastRefresh))))
    (VBool (js_gt parse_number format
              (js_sub parse_number now2 lastRefresh)
              (fmul
                 (fmul (VNum (1000 * 60 * 24)) (fdiv forced (VNum 5)))
                 (fdiv (vor batSoc (VNum 50)) (VNum 100))))).

(** Line 372. *)
Definition batSoCGood (lastStatus : value) : bool :=
  js_gt parse_number format (oget lastStatus "measure_battery.12V")
    (field settings "batteryAlarmLevel").

(** Lines 373-374: whether the car itself is asked for fresh data. *)
Definition refresh (st : pollState) (args : obj) (now1 now2 lastRefresh lastStatus : value)
    : value :=
  vor (pollMode st)
      (vand (VBool (batSoCGood lastStatus))
            (vor (argOr args "forceOnce" (VBool false))
                 (forcePollInterval now1 now2 lastRefresh))).

(** Lines 442-446. *)
Definition justUnplugged (isEV : bool) (stsMapped : obj) : bool :=
  isEV
  && eq_str (field stsMapped "ev_charging_state") "plugged_out"
  && negb (strict_eq (field stsMapped "ev_charging_state")
             (getCapabilityValue "ev_charging_state")).

Definition justUnlocked (stsMapped : obj) : bool :=
  negb (truthy (field stsMapped "closed_locked"))
  && negb (strict_eq (field stsMapped "closed_locked")
             (getCapabilityValue "closed_locked")).

Definition carActive (isEV : bool) (stsMapped : obj) : value :=
  let climateOn := vor (field stsMapped "climate_control") (field stsMapped "defrost") in
  let engineOn := field stsMapped "engine" in
  vor (vor (vor engineOn climateOn) (VBool (justUnplugged isEV stsMapped)))
      (VBool (justUnlocked stsMapped)).

(** Lines 448-449 and 463-470: the new poll state and, when the timer is
    armed anew, the interval handed to [startPolling].  [now1] and [now2]
    are the two readings of the clock. *)
Definition activity (isEV : bool) (stsMapped : obj) (now1 now2 : value) (st : pollState)
    : pollState * option value :=
  let last := if truthy (carActive isEV stsMapped) then now1 else carLastActive st in
  let carJustActive :=
    js_lt parse_number format (js_sub parse_number now2 last) (VNum (3 * 60 * 1000)) in
  if truthy (field settings "pollIntervalEngineOn") && negb (truthy (pollMode st))
     && carJustActive
  then (PollState (VNum 1) last, Some (field settings "pollIntervalEngineOn"))
  else if truthy (pollMode st) && negb carJustActive
  then (PollState (VNum 0) last, Some (field settings "pollInterval"))
  else (PollState (pollMode st) last, None).

(** [handleInfo(info)] (lines 480-526).  [refreshText] is the text of
    [this.lastRefresh] as a date and a time of day, which the host's
    [Date] makes; [now] is the clock at line 518. *)
Definition handleInfo (refreshText : string) (parkLocation : obj)
    (lastRefresh now : value) (info : obj) : handling :=
  let moving := isMoving parse_number format getCapabilityValue info in
  let hasParked := isParking parse_number format parkLocation info in
  let w := flat_map (fun '(cap, val) => setCapability cap val) info in
  let w := (w ++ if truthy lastRefresh
                 then setCapability "last_refresh" (VStr refreshText) else [])%list in
  let f := if moving then ["has_moved"] else [] in
  let park := if hasParked then spread (VObj info) else parkLocation in
  let tok : obj :=
    if hasParked then
      assign (assign [] "address" (field info "address")) "map"
        (VStr ("https://www.google.com/maps?q="
               ++ to_string format (field info "latitude") ++ ","
               ++ to_string format (field info "longitude")))
    else [] in
  let f := (f ++ if hasParked then ["has_parked"] else [])%list in
  let f := (f ++ if js_lt parse_number format (js_sub parse_number now lastRefresh)
                      (VNum (30 * 1000))
                 then ["status_update"] else [])%list in
  Handling park w f tok hasParked.

End Polling.

(* ===================================================================== *)
(** * The controls of the device ([acOnOff] ... [refreshStatus])         *)
(* ===================================================================== *)

(** What a control method does before it returns, in order. *)
Inductive action : Type :=
| Say (msg : string)                         (* this.log(...) *)
| SetCap (capability : string) (v : value)   (* this.setCapabilityValue(...) *)
| Ask (x : item)                             (* this.enQueue(...) *)
| Active.                                    (* this.carLastActive = Date.now() *)

(** What it returns: [true], or the error it caught; [setDestination],
    which catches nothing, ends in a rejected promise instead. *)
Inductive reply : Type :=
| Accepted
| Refused (e : string)
| Raised (e : string).

(** The calls the capability listeners and the flow cards make. *)
Inductive call : Type :=
| AcOnOff (acOn : value) (source : string)
| DefrostOnOff (defrost : value) (source : string)
| ChargingOnOff (charge : value) (source : string)
| Lock (locked : value) (source : string)
| SetTargetTemp (temp : value) (source : string)
| SetChargeTargets (targets : value) (source : string)
| SetDestination (destination : value) (source : string)
| RefreshStatus (refresh : value) (source : string).

Definition asks (l : list action) : list item :=
  omap (fun a => match a with Ask x => Some x | _ => None end) l.

Section Controls.

Variable parse_number : value → option Q.
Variable format : value → string.
Variable getCapabilityValue : string → value.
Variable hasCapability : string → bool.
(** [this.isEV] *)
Variable isEV : bool.
(** [await geo.search(searchParam).catch(...)]: the place found on the
    network, [undefined] when the search fails. *)
Variable geoSearch : value → value.
(** [JSON.stringify], for the log. *)
Variable stringify : value → string.

Definition engineIsOn : string := "Control not possible; engine is on".
Definition notAnEV : string := "Control not possible; not an EV".

(** [this.setCapability(capability, value)] as an action. *)
Definition setCap (capability : string) (v : value) : list action :=
  map (fun '(c, v) => SetCap c v) (setCapability hasCapability capability v).

(** [getCapabilityValue('target_temperature') || 22] *)
Definition targetOr22 : value := vor (getCapabilityValue "target_temperature") (VNum 22).

Definition acOnOff (acOn : value) (source : string) : list action * reply :=
  if truthy (getCapabilityValue "engine") then ([], Refused engineIsOn)
  else if truthy acOn then
    ([Say ("A/C on via " ++ source);
      Ask (Item "start" (VObj [("temperature", targetOr22)]))], Accepted)
  else
    ([Say ("A/C off via " ++ source)] ++ setCap "defrost" (VBool false)
     ++ [Ask (Item "stop" (VObj []))], Accepted)%list.

Definition defrostOnOff (defrost : value) (source : string) : list action * reply :=
  if truthy (getCapabilityValue "engine") then ([], Refused engineIsOn)
  else if truthy defrost then
    let args := VObj [("defrost", VBool true); ("windscreenHeating", VBool true);
                      ("heatedFeatures", VBool true); ("heating1", VNum 1);
                      ("steerWheelHeat", VNum 1); ("sideBackWindowHeat", VNum 1);
                      ("temperature", targetOr22)] in
    ([Say ("defrost on via " ++ source); Ask (Item "start" args)], Accepted)
  else
    let args := VObj [("defrost", VBool false); ("windscreenHeating", VBool false);
                      ("heatedFeatures", VBool false); ("heating1", VNum 0);
                      ("steerWheelHeat", VNum 0); ("sideBackWindowHeat", VNum 0)] in
    ([Say ("defrost off via " ++ source); Ask (Item "stop" args)]
     ++ setCap "climate_control" (VBool false)
     ++ [Ask (Item "stop" args)], Accepted)%list.

Definition chargingOnOff (charge : value) (source : string) : list action * reply :=
  if negb isEV then ([], Refused notAnEV)
  else if truthy charge then
    ([Say ("charging on via " ++ source); Ask (Item "startCharge" VUndefined)], Accepted)
  else
    ([Say ("charging off via " ++ source); Ask (Item "stopCharge" VUndefined)], Accepted).

Definition lock (locked : value) (source : string) : list action * reply :=
  if truthy locked then
    ([Say ("locking doors via " ++ source); Ask (Item "lock" VUndefined)], Accepted)
  else
    ([Say ("unlocking doors via " ++ source); Ask (Item "unlock" VUndefined)], Accepted).

Definition setTargetTemp (temp : value) (source : string) : list action * reply :=
  if truthy (getCapabilityValue "engine") then ([], Refused engineIsOn)
  else if negb (truthy (getCapabilityValue "climate_control"))
  then ([], Refused "Climate control not on")
  else
    ([Say ("Temperature set by " ++ source ++ " to " ++ to_string format temp);
      Ask (Item "start" (VObj [("temperature", vor temp (VNum 22))]))], Accepted).

(** The parameter default [{ fast: 100, slow: 80 }] stands in for
    [undefined] only; [targets.slow] on [null] raises, which the method
    catches and returns. *)
Definition setChargeTargets (targets : value) (source : string) : list action * reply :=
  let targets :=
    match targets with
    | VUndefined => VObj [("fast", VNum 100); ("slow", VNum 80)]
    | _ => targets
    end in
  if negb isEV then ([], Refused notAnEV)
  else
    match get targets "slow", get targets "fast" with
    | Ok slow, Ok fast =>
        ([Say ("Charge target is set by " ++ source ++ " to slow:"
               ++ to_string format slow ++ " fast:" ++ to_string format fast);
          Ask (Item "setChargeTargets"
                 (VObj [("fast", Number parse_number fast);
                        ("slow", Number parse_number slow)]))], Accepted)
    | Throw e, _ | _, Throw e => ([], Refused e)
    end.

(** [setDestination(destination, source)] (lines 817-844). *)
Definition setDestination (destination : value) (source : string) : list action * reply :=
  let say := Say ("Destination set by " ++ source ++ " to " ++ stringify destination) in
  let searchParam :=
    if truthy destination && truthy (oget destination "latitude")
       && truthy (oget destination "longitude")
    then VStr (to_string format (oget destination "latitude") ++ ","
               ++ to_string format (oget destination "longitude"))
    else destination in
  let dest := geoSearch searchParam in
  if negb (truthy dest) then ([say], Raised "failed to find location")
  else
    let read : res (value * value * value) :=
      extratags ← get dest "extratags";
      phone ← get extratags "phone";
      address ← get dest "address";
      postcode ← get address "postcode";
      namedetails ← get dest "namedetails";
      name ← get namedetails "name";
      Ok (phone, postcode, name) in
    match read with
    | Throw e => ([say], Raised e)
    | Ok (phone, postcode, name) =>
        let args :=
          VArr [VObj [("phone", vor phone (VStr EmptyString));
                      ("waypointID", VNum 0);
                      ("lang", VNum 1);
                      ("src", VStr "HOMEY");
                      ("coord", VObj [("lat", Number parse_number (oget dest "lat"));
                                      ("lon", Number parse_number (oget dest "lon"));
                                      ("type", VNum 0)]);
                      ("addr", oget dest "display_name");
                      ("zip", vor postcode (VStr EmptyString));
                      ("placeid", oget dest "display_name");
                      ("name", vor name (oget dest "display_name"))]] in
        ([say; Ask (Item "setNavigation" args)], Accepted)
    end.

Definition refreshStatus (refresh : value) (source : string) : list action * reply :=
  if truthy refresh then
    (setCap "refresh_status" (VBool true)
     ++ [Say ("Forcing status refresh via " ++ source)]
     ++ (if String.eqb source "app" || String.eqb source "cloud" then [Active] else [])
     ++ [Ask (Item "doPoll" (VObj [("forceOnce", VBool true); ("logPoll", VBool false)]))],
     Accepted)%list
  else ([], Accepted).

Definition perform (c : call) : list action * reply :=
  match c with
  | AcOnOff acOn source => acOnOff acOn source
  | DefrostOnOff defrost source => defrostOnOff defrost source
  | ChargingOnOff charge source => chargingOnOff charge source
  | Lock locked source => lock locked source
  | SetTargetTemp temp source => setTargetTemp temp source
  | SetChargeTargets targets source => setChargeTargets targets source
  | SetDestination destination source => setDestination destination source
  | RefreshStatus refresh source => refreshStatus refresh source
  end.

(** The listeners of [startListeners] on single capabilities. *)
Definition capabilityListener (capability : string) (v : value) : option call :=
  if String.eqb capability "locked" then Some (Lock v "app")
  else if String.eqb capability "defrost" then Some (DefrostOnOff v "app")
  else if String.eqb capability "climate_control" then Some (AcOnOff v "app")
  else if String.eqb capability "target_temperature" then Some (SetTargetTemp v "app")
  else if String.eqb capability "refresh_status" then Some (RefreshStatus v "app")
  else if String.eqb capability "charge" then Some (ChargingOnOff v "app")
  else None.

(** The listener on [charge_target_slow] and [charge_target_fast]. *)
Definition chargeTargetListener (values : obj) : call :=
  let slow := vor (Number parse_number (field values "charge_target_slow"))
                  (Number parse_number (getCapabilityValue "charge_target_slow")) in
  let fast := vor (Number parse_number (field values "charge_target_fast"))
                  (Number parse_number (getCapabilityValue "charge_target_fast")) in
  SetChargeTargets (VObj [("slow", slow); ("fast", fast)]) "app".

End Controls.

(** The action cards of [registerFlowListeners] in [app.js]. *)
Definition runListener (card : string) (args : obj) : option call :=
  if String.eqb card "force_refresh" then Some (RefreshStatus (VBool true) "flow")
  else if String.eqb card "charge_off" then Some (ChargingOnOff (VBool false) "flow")
  else if String.eqb card "charge_on" then Some (ChargingOnOff (VBool true) "flow")
  else if String.eqb card "ac_off" then Some (AcOnOff (VBool false) "flow")
  else if String.eqb card "ac_on" then Some (AcOnOff (VBool true) "flow")
  else if String.eqb card "defrost_off" then Some (DefrostOnOff (VBool false) "flow")
  else if String.eqb card "defrost_on" then Some (DefrostOnOff (VBool true) "flow")
  else if String.eqb card "set_target_temp"
  then Some (SetTargetTemp (field args "temp") "flow")
  else if String.eqb card "set_charge_targets"
  then Some (SetChargeTargets (VObj args) "flow")
  else if String.eqb card "set_destination"
  then Some (SetDestination (field args "destination") "flow")
  else None.

(* ===================================================================== *)
(** * The driver: engine types and their capabilities; [migrate]         *)
(* ===================================================================== *)

(** [this.capabilitiesMap[engine]] of the driver, for its four own keys. *)
Definition capabilitiesMap (engine : string) : option (list string) :=
  if String.eqb engine "Full EV ccuCCS2" then
    Some ["target_temperature"; "charge_target_slow"; "charge_target_fast";
          "refresh_status"; "locked"; "defrost"; "climate_control"; "last_refresh";
          "engine"; "closed_locked"; "location"; "meter_distance"; "measure_speed";
          "measure_range"; "ev_charging_state"; "measure_power.charge";
          "meter_power.fuel_economy"; "charge"; "measure_odo"; "alarm_tire_pressure";
          "alarm_bat"; "measure_battery"; "measure_battery.12V"; "latitude"; "longitude"]
  else if String.eqb engine "Full EV" then
    Some ["target_temperature"; "charge_target_slow"; "charge_target_fast";
          "refresh_status"; "locked"; "defrost"; "climate_control"; "last_refresh";
          "engine"; "closed_locked"; "location"; "meter_distance"; "measure_speed";
          "measure_range"; "ev_charging_state"; "charge"; "measure_odo";
          "alarm_tire_pressure"; "alarm_bat"; "measure_battery"; "measure_battery.12V";
          "latitude"; "longitude"]
  else if String.eqb engine "PHEV" then
    Some ["target_temperature"; "refresh_status"; "locked"; "defrost"; "climate_control";
          "last_refresh"; "engine"; "closed_locked"; "location"; "meter_distance";
          "measure_speed"; "measure_range"; "ev_charging_state"; "charge"; "measure_odo";
          "alarm_tire_pressure"; "alarm_bat"; "measure_battery"; "measure_battery.12V";
          "latitude"; "longitude"]
  else if String.eqb engine "HEV/ICE" then
    Some ["target_temperature"; "refresh_status"; "locked"; "defrost"; "climate_control";
          "last_refresh"; "engine"; "closed_locked"; "location"; "meter_distance";
          "measure_speed"; "measure_range"; "measure_odo"; "alarm_tire_pressure";
          "alarm_bat"; "measure_battery.12V"; "latitude"; "longitude"]
  else None.

(** [isPEV] and [isICE] of [list_devices]; [status.evStatus] raises on a
    status that is [undefined] or [null]. *)
Definition isPEV (status : value) : res bool :=
  evStatus ← get status "evStatus";
  Ok (truthy evStatus
      || truthy (ochain status ["Green"; "ChargingInformation"; "ConnectorFastening"])).

Definition isICE (status : value) : res bool :=
  dte ← get status "dte";
  fuelLevel ← get status "fuelLevel";
  Ok (truthy dte || truthy fuelLevel
      || truthy (ochain status ["evStatus"; "drvDistance"; "0"; "rangeByFuel";
                                "gasModeRange"; "value"])
      || truthy (ochain status ["Drivetrain"; "InternalCombustionEngine"])).

(** The [engine] setting [list_devices] gives a vehicle. *)
Definition engineOf (status vehicle : value) : res string :=
  pev ← isPEV status;
  ice ← isICE status;
  let engine := "HEV/ICE" in
  let engine := if pev && ice then "PHEV" else engine in
  let engine := if pev && negb ice then "Full EV" else engine in
  let engine :=
    if pev && negb ice
       && truthy (ochain vehicle ["vehicleConfig"; "ccuCCS2ProtocolSupport"])
    then "Full EV ccuCCS2" else engine in
  Ok engine.

(** What [migrate] does to the capabilities of the device. *)
Inductive change : Type :=
| Unavailable                               (* setUnavailable(migrating) *)
| Removed (capability : string)             (* removeCapability *)
| Added (capability : string)               (* addCapability *)
| Restored (capability : string) (v : value).  (* setCapability(newCap, state[newCap]) *)

(** Homey's list of capabilities: a removal takes the name out, an
    addition puts it at the end. *)
Definition removeCapability (c : string) (caps : list string) : list string :=
  filter (λ c', c' ≠ c) caps.

Definition addCapability (c : string) (caps : list string) : list string :=
  (caps ++ [c])%list.

(** The device during [migrate]: [aborted] once an exception has reached
    the [catch] of [migrate]. *)
Record migration : Type := Migration {
  capabilities : list string;
  changes : list change;
  aborted : bool;
}.

(** One turn of the loop of [migrate] (lines 68-90); [state] is
    [this[sym]], the capability values kept from before.  Every removal
    and addition is taken to be carried out by Homey. *)
Definition migrateAt (correctCaps : list string) (state : value)
    (m : migration) (index : nat) : migration :=
  if aborted m then m
  else
    let caps := capabilities m in
    let newCap := correctCaps !! index in
    if decide (caps !! index = newCap) then m
    else
      let gone := drop index caps in
      let caps := fold_left (fun cs c => removeCapability c cs) gone caps in
      let ch := (changes m ++ [Unavailable] ++ map Removed gone)%list in
      match newCap with
      | None => Migration caps ch false
      | Some c =>
          let caps := addCapability c caps in
          match get state c with
          | Throw _ => Migration caps (ch ++ [Added c]) true
          | Ok v =>
              Migration caps
                (ch ++ [Added c]
                 ++ if strict_eq v VUndefined then [] else [Restored c v])%list
                false
          end
      end.

(** [migrate()]: [index] runs from 0 up to and including
    [correctCaps.length]. *)
Definition migrate (correctCaps : list string) (state : value) (caps : list string)
    : migration :=
  fold_left (migrateAt correctCaps state) (seq 0 (S (length correctCaps)))
    (Migration caps [] false).

(* ===================================================================== *)
(** * Sample devices and payloads                                        *)
(* ===================================================================== *)

Definition lockCmd : item := Item "lock" VUndefined.
Definition unlockCmd : item := Item "unlock" VUndefined.
Definition startCmd : item := Item "start" (VObj [("temperature", VNum 22)]).

(** A vehicle as the client hands it over once logged in. *)
Definition aVehicle : value :=
  VObj [("vehicleConfig", VObj [("vin", VStr "KNA00000000000001")])].

(** The first command of a logged-in device: [enQueue] starts [runQueue],
    which takes the command at once and is now waiting for the vehicle
    client (line 180). *)
Definition inFlight : device :=
  with_lastCommand (Some "start")
    (deQueue (with_queueRunning true (with_busy true
       (enQueue startCmd (initial aVehicle true)).1))).1.

(** Ten commands are queued while that call is under way, and the
    consumer then takes the first of them. *)
Definition nineLeft : device :=
  (replay (repeat (Enq lockCmd) 10 ++ [Deq]) inFlight).1.1.

(** Ten commands queued while that call is under way, none taken yet. *)
Definition tenQueued : device :=
  (replay (repeat (Enq lockCmd) 10) inFlight).1.1.

(** One and two commands queued while that call is under way. *)
Definition oneQueued : device :=
  (replay [Enq lockCmd] inFlight).1.1.

Definition twoQueued : device :=
  (replay [Enq lockCmd; Enq unlockCmd] inFlight).1.1.

(** The same two commands after the session is gone: a later [ready]
    event found no vehicle with the configured VIN and left
    [this.vehicle] undefined. *)
Definition loggedOut : device := ready VUndefined twoQueued.

(** The remote side turns every call down with a plain error. *)
Definition hangUp : value := VObj [("message", VStr "socket hang up")].
Definition failing : remote := Remote (Rejected hangUp) true (Rejected hangUp) 0.

(** The remote side turns every call down with [Error('')], an error
    without a text. *)
Definition noText : value := VObj [("message", VStr EmptyString)].
Definition failingMute : remote := Remote (Rejected noText) true (Rejected noText) 0.

(** Whether a call on the vehicle client shows up in a trace. *)
Definition isCall (e : event) : bool :=
  match e with
  | Call _ _ => true
  | _ => false
  end.

(** A host for running the normalizer on the samples: texts are not
    parsed as numbers, numbers print as their integer part, home is at
    (52, 5), no capability has a value yet, every distance is 12.34 and
    the address lookup fails. *)
Module Host.
Definition parse_number (_ : value) : option Q := None.
Definition format (v : value) : string :=
  match v with
  | VNum q => pretty (Qfloor q)
  | _ => EmptyString
  end.
Definition settings : obj :=
  [("lat", VNum 52); ("lon", VNum 5);
   ("batteryAlarmLevel", VNum 50); ("EVbatteryAlarmLevel", VNum 20)].
Definition getCapabilityValue (_ : string) : value := VNull.
Definition geoDistance (_ _ _ _ : value) : res value := Ok (VNum (1234 # 100)).
Definition getCarLocString (_ : obj) : value := VUndefined.
Definition getTempFromCode (code : value) : res value := Ok code.
End Host.

(** The effective status object of [mapStatus]: [status.vehicleStatus] for
    the old full shape, [status] itself otherwise (the variable [sts]
    after line 545). *)
Definition stsOf (status : value) : obj :=
  if truthy (field (spread status) "vehicleStatus")
  then spread (prop status "vehicleStatus")
  else spread status.

(** Old simple status: locked, trunk and hood closed, front left door open. *)
Definition doorOpenStatus : value :=
  VObj [("time", VStr "20250702120000");
        ("doorLock", VBool true);
        ("trunkOpen", VBool false);
        ("hoodOpen", VBool false);
        ("doorOpen", VObj [("frontLeft", VNum 1); ("frontRight", VNum 0);
                           ("backLeft", VNum 0); ("backRight", VNum 0)])].

(** Old simple status without the [doorOpen] map. *)
Definition noDoorOpenStatus : value :=
  VObj [("time", VStr "20250702120000");
        ("doorLock", VBool true);
        ("trunkOpen", VBool false);
        ("hoodOpen", VBool false)].

(** Old simple status with the climate control on and no [airTemp]. *)
Definition noAirTempStatus : value :=
  VObj [("time", VStr "20250702120000");
        ("airCtrlOn", VBool true);
        ("doorLock", VBool false)].

(** New type status with a fuel system that reports no [DTE]. *)
Definition noDTEStatus : value :=
  VObj [("Date", VStr "20250702120000.000");
        ("Drivetrain", VObj [("Odometer", VNum 12345);
                             ("FuelSystem", VObj [("AverageFuelEconomy", VObj [])])])].

(** Old full status of a car driving at [speed], connector code [plug],
    charging flag [charging]. *)
Definition oldFullStatus (speed plug : Q) (charging : bool) : value :=
  VObj [("vehicleStatus",
         VObj [("time", VStr "20250702120000");
               ("doorLock", VBool true);
               ("doorOpen", VObj [("frontLeft", VNum 0)]);
               ("evStatus", VObj [("batteryCharge", VBool charging);
                                  ("batteryPlugin", VNum plug);
                                  ("batteryStatus", VNum 80)])]);
        ("vehicleLocation",
         VObj [("coord", VObj [("lat", VNum 52); ("lon", VNum 5)]);
               ("speed", VObj [("value", VNum speed)])]);
        ("odometer", VObj [("value", VNum 12345)])].

(** New type status, same car. *)
Definition newStatus (speed plug : Q) (charging : bool) : value :=
  VObj [("Date", VStr "20250702120000.000");
        ("Drivetrain", VObj [("Odometer", VNum 12345);
                             ("FuelSystem", VObj [("DTE", VObj [("Total", VNum 300)])])]);
        ("Location", VObj [("GeoCoord", VObj [("Latitude", VNum 52); ("Longitude", VNum 5)]);
                           ("Speed", VObj [("Value", VNum speed)])]);
        ("Green",
         VObj [("ChargingInformation",
                VObj [("Charging", VObj [("RemainTime", if charging then VNum 90 else VNum 0)]);
                      ("ConnectorFastening", VObj [("State", VNum plug)]);
                      ("TargetSoC", VObj [("Standard", VNum 80); ("Quick", VNum 80)])]);
               ("BatteryManagement", VObj [("BatteryRemain", VObj [("Ratio", VNum 80)])])])].

(** The decoding table of the charging phase, as the specification lists
    it: connector codes 1 and 2 with the charging flag set are charging,
    1 and 2 without it are plugged in and idle, 0 is unplugged. *)
Definition phaseTable (code : Z) (charging : bool) : option string :=
  match code, charging with
  | 1%Z, true | 2%Z, true => Some "plugged_in_charging"
  | 1%Z, false | 2%Z, false => Some "plugged_in"
  | 0%Z, _ => Some "plugged_out"
  | _, _ => None
  end.

(** A canonical record of a car driving at 50 with the engine on, and of
    a car standing still one degree north of where it was seen before. *)
Definition driving : obj :=
  [("measure_speed", VNum 50); ("latitude", VNum 52); ("longitude", VNum 5);
   ("engine", VBool true)].

Definition relocated : obj :=
  [("measure_speed", VNum 0); ("latitude", VNum 53); ("longitude", VNum 5);
   ("engine", VBool false)].

Definition seenBefore : obj :=
  [("latitude", VNum 52); ("longitude", VNum 5)].

(** The remote side carries every call out. *)
Definition resolving : remote := Remote (Resolved false) true (Resolved false) 0.

(** The device once the one queued command has been carried out. *)
Definition lockDone : device := (runQueue resolving oneQueued).1.

Definition pollCmd : item :=
  Item "doPoll" (VObj [("forceOnce", VBool false); ("logPoll", VBool false)]).

(** [lock] and a poll queued behind the running command. *)
Definition lockThenPoll : device :=
  (replay [Enq lockCmd; Enq pollCmd] inFlight).1.1.

(** A device whose consumer is stuck in a call, at full health. *)
Definition stuck : device := with_busy true inFlight.


(** A payload of no known shape. *)
Definition strangeStatus : value := VObj [("resCode", VStr "0000")].

(** New type status of a closed and locked car: trunk, hood and sunroof
    closed, the driver door closed and locked, no report on the other
    doors and on the windows; the climate control is off. *)
Definition closedStatus : value :=
  VObj [("Date", VStr "20250702120000.000");
        ("Location", VObj [("GeoCoord", VObj [("Latitude", VNum 52); ("Longitude", VNum 5)])]);
        ("Body", VObj [("Trunk", VObj [("Open", VNum 0)]);
                       ("Hood", VObj [("Open", VNum 0)]);
                       ("Sunroof", VObj [("Glass", VObj [("Open", VNum 0)])])]);
        ("Cabin", VObj [("Door", VObj [("Row1", VObj [("Driver",
                           VObj [("Open", VNum 0); ("Lock", VNum 0)])])]);
                        ("HVAC", VObj [("Row1", VObj [("Driver",
                           VObj [("Temperature", VObj [("Value", VStr "OFF")])])])])]);
        ("Electronics", VObj [("Battery", VObj [("Level", VNum 40)])])].

(** Old simple status of an unlocked car that reports a range of -1 and
    a 12V battery at 40 percent. *)
Definition sorentoStatus : value :=
  VObj [("time", VStr "20250702120000");
        ("doorLock", VBool false);
        ("dte", VObj [("value", VNum (-1))]);
        ("battery", VObj [("batSoc", VNum 40)])].

(** A car with the engine off, 0.001 degrees north of its park location. *)
Definition parkedElsewhere : obj :=
  [("measure_speed", VNum 0); ("latitude", VNum (52001 # 1000));
   ("longitude", VNum 5); ("engine", VBool false); ("address", VStr "Dam 1, Amsterdam")].

(** Settings of the poll timer: a forced refresh every 5 minutes, polls
    every minute while the car is in use and every 10 minutes otherwise. *)
Definition pollSettings : obj :=
  [("pollInterval", VNum 10); ("pollIntervalEngineOn", VNum 1);
   ("pollIntervalForced", VNum 5); ("batteryAlarmLevel", VNum 50)].

(** Capability values of a car last seen at the park location with a
    full 12 V battery. *)
Definition fullBattery (capability : string) : value :=
  if String.eqb capability "measure_battery.12V" then VNum 100
  else field seenBefore capability.

(** A device that holds the position capabilities only. *)
Definition positionOnly (capability : string) : bool :=
  String.eqb capability "latitude" || String.eqb capability "longitude".

(** Products and quotients as the host takes them on the numbers of
    these samples, which binary64 holds exactly. *)
Definition hostMul : value → value → value := js_mul Host.parse_number.
Definition hostDiv : value → value → value := js_div Host.parse_number.

(** A search on the network that finds nothing, and a host that prints a
    value as its text. *)
Definition nowhere (_ : value) : value := VUndefined.
Definition asText : value → string := to_string Host.format.

(** Normal poll mode, the car never seen active. *)
Definition normalMode : pollState := PollState (VNum 0) VUndefined.

(** Capability values of a parked car with the air conditioning on. *)
Definition climateOn (capability : string) : value :=
  if String.eqb capability "climate_control" then VBool true else VNull.

(** The capabilities of a device with a combustion engine, the ones an
    older version gave it, and the values kept from before. *)
Definition iceCaps : list string := default [] (capabilitiesMap "HEV/ICE").
Definition oldCaps : list string := ["target_temperature"; "locked"; "refresh_status"].
Definition keptState : value := VObj [("locked", VBool true)].

(** The status of an electric car, as the pairing sees it. *)
Definition evStatus : value := VObj [("evStatus", VObj [("batteryStatus", VNum 80)])].

(* ===================================================================== *)
(** * Facts about the queue                                              *)
(* ===================================================================== *)

Section QueueFacts.

Implicit Types (d : device) (x : item).

Lemma omap_agree {A B} (f g : A → option B) (l : list A) :
  (∀ a, a ∈ l → f a = g a) → omap f l = omap g l.
Proof.
  induction l as [|a l IH]; intros H; [done|]. cbn.
  rewrite (H a) by (left). rewrite IH; [done|].
  intros b Hb. apply H. by right.
Qed.

Lemma wf_initial v b : wf (initial v b).
Proof. split; cbn; [lia|]. intros i Hi. lia. Qed.

Lemma size_pending d : wf d → Z.of_nat (length (pending d)) = size d.
Proof.
  intros [Hb Hq]. unfold pending, size.
  assert (G : ∀ n h, (∀ i, (h ≤ i < h + Z.of_nat n)%Z → is_Some (queue d !! i)) →
              length (omap (λ i, queue d !! i) (seqZ h (Z.of_nat n))) = n).
  { induction n as [|n IH]; intros h Hs; [done|].
    rewrite seqZ_cons by lia. cbn.
    destruct (Hs h) as [y Hy]; [lia|]. rewrite Hy. cbn. f_equal.
    replace (Z.pred (Z.of_nat (S n))) with (Z.of_nat n) by lia.
    apply IH. intros i Hi. apply Hs. lia. }
  specialize (G (Z.to_nat (tail d - head d)) (head d)).
  rewrite Z2Nat.id in G by lia. rewrite G; [lia|].
  intros i Hi. apply Hq. lia.
Qed.

(** [enQueue] below the bound writes the slot [tail] and moves [tail]. *)
Lemma enQueue_accepted x d :
  disabled d = false → (tail d < 10)%Z →
  queue (enQueue x d).1 = <[tail d := x]> (queue d)
  ∧ head (enQueue x d).1 = head d
  ∧ tail (enQueue x d).1 = (tail d + 1)%Z
  ∧ trace (enQueue x d).1 = trace d.
Proof.
  intros Hd Ht. unfold enQueue. rewrite Hd.
  destruct (Z.leb_spec 10 (tail d)); [lia|].
  cbn. by destruct (queueRunning d).
Qed.

Lemma enQueue_pending x d :
  wf d → disabled d = false → (tail d < 10)%Z →
  pending (enQueue x d).1 = (pending d ++ [x])%list
  ∧ size (enQueue x d).1 = (size d + 1)%Z
  ∧ wf (enQueue x d).1.
Proof.
  intros [Hb Hq] Hd Ht.
  destruct (enQueue_accepted x d Hd Ht) as (Eq & Eh & Et & _).
  unfold pending, size, wf. rewrite Eq, Eh, Et. repeat split; try lia.
  - replace (tail d + 1 - head d)%Z with ((tail d - head d) + 1)%Z by lia.
    rewrite seqZ_app by lia. rewrite omap_app.
    replace (head d + (tail d - head d))%Z with (tail d) by lia.
    rewrite (seqZ_cons (tail d) 1) by lia. cbn. rewrite lookup_insert_eq. cbn.
    f_equal. apply omap_agree. intros i Hi.
    apply elem_of_seqZ in Hi. rewrite lookup_insert_ne; [done|lia].
  - intros i Hi. destruct (decide (i = tail d)) as [->|Hne].
    + rewrite lookup_insert_eq. eauto.
    + rewrite lookup_insert_ne by done. apply Hq. lia.
Qed.

(** [enQueue] at the bound only reports the overflow. *)
Lemma enQueue_overflow x d :
  disabled d = false → (10 ≤ tail d)%Z →
  enQueue x d = (emit (Error "queue overflow") d, false).
Proof.
  intros Hd Ht. unfold enQueue. rewrite Hd.
  destruct (Z.leb_spec 10 (tail d)); [done|lia].
Qed.

Lemma enQueue_rejected_pending x d :
  accepts d = false → pending (enQueue x d).1 = pending d.
Proof.
  unfold accepts, enQueue. intros Ha.
  destruct (disabled d); [done|].
  destruct (10 <=? tail d)%Z; [done|discriminate].
Qed.

Lemma enQueue_rejected_wf x d :
  accepts d = false → wf d → wf (enQueue x d).1.
Proof.
  unfold accepts, enQueue. intros Ha Hw.
  destruct (disabled d); [exact Hw|].
  destruct (10 <=? tail d)%Z; [exact Hw|discriminate].
Qed.

(** [deQueue] on an empty table. *)
Lemma deQueue_empty d : wf d → pending d = [] → deQueue d = (d, None).
Proof.
  intros Hw Hp. pose proof (size_pending d Hw) as Hs.
  rewrite Hp in Hs. cbn in Hs. unfold size in Hs.
  unfold deQueue. destruct (Z.leb_spec (tail d - head d) 0); [done|lia].
Qed.

(** [deQueue] hands out the oldest pending command and keeps the rest;
    only the slot table changes. *)
Lemma deQueue_pending d x rest :
  wf d → pending d = x :: rest →
  ∃ q h t, deQueue d = (with_slots q h t d, Some x)
           ∧ pending (with_slots q h t d) = rest
           ∧ wf (with_slots q h t d).
Proof.
  intros [Hb Hq] Hp.
  assert (Hlt : (head d < tail d)%Z).
  { destruct (Z_lt_le_dec (head d) (tail d)) as [|Hge]; [done|].
    unfold pending in Hp. rewrite seqZ_nil in Hp by lia. discriminate. }
  unfold pending in Hp. rewrite seqZ_cons in Hp by lia. cbn in Hp.
  destruct (Hq (head d)) as [y Hy]; [lia|]. rewrite Hy in Hp. cbn in Hp.
  injection Hp as -> Hrest.
  assert (Hkeep : omap (λ i, delete (head d) (queue d) !! i)
                    (seqZ (Z.succ (head d)) (Z.pred (tail d - head d))) = rest).
  { rewrite <- Hrest. apply omap_agree. intros i Hi.
    apply elem_of_seqZ in Hi. rewrite lookup_delete_ne; [done|lia]. }
  unfold deQueue. destruct (Z.leb_spec (tail d - head d) 0); [lia|].
  rewrite Hy. destruct (Z.eqb_spec (head d + 1) (tail d)) as [E|E].
  - do 3 eexists. split; [reflexivity|]. unfold pending, wf. cbn.
    repeat split; try lia.
    rewrite <- Hrest. replace (Z.pred (tail d - head d)) with 0%Z by lia. done.
  - do 3 eexists. split; [reflexivity|]. unfold pending, wf. cbn.
    repeat split; try lia.
    + rewrite <- Hkeep. f_equal. f_equal; lia.
    + intros i Hi. rewrite lookup_delete_ne by lia. apply Hq. lia.
Qed.

(** First in, first out: what has been handed out, followed by what is
    still pending, is what was pending followed by what was accepted. *)
Lemma replay_fifo ops :
  ∀ d, wf d →
    let '(d', acc, out) := replay ops d in
    (pending d ++ acc = out ++ pending d')%list ∧ wf d'.
Proof.
  induction ops as [|[x|] ops IH]; intros d Hw; cbn.
  - by rewrite app_nil_r.
  - destruct (accepts d) eqn:Ha.
    + unfold accepts in Ha. apply andb_true_iff in Ha as [Hd Ht].
      apply negb_true_iff in Hd. apply negb_true_iff, Z.leb_gt in Ht.
      destruct (enQueue_pending x d Hw Hd Ht) as (Ep & _ & Hw').
      specialize (IH _ Hw'). destruct (replay ops (enQueue x d).1) as [[d' acc] out].
      destruct IH as [IH ?]. split; [|done].
      rewrite Ep in IH. by rewrite <- IH, <- app_assoc.
    + pose proof (enQueue_rejected_pending x d Ha) as Ep.
      pose proof (enQueue_rejected_wf x d Ha Hw) as Hw'.
      specialize (IH _ Hw'). destruct (replay ops (enQueue x d).1) as [[d' acc] out].
      destruct IH as [IH ?]. split; [|done]. by rewrite <- Ep.
  - destruct (pending d) as [|x rest] eqn:Hp.
    + rewrite (deQueue_empty d Hw Hp). specialize (IH _ Hw).
      destruct (replay ops d) as [[d' acc] out]. by rewrite Hp in IH.
    + destruct (deQueue_pending d x rest Hw Hp) as (q & h & t & E & Hp1 & Hw1).
      rewrite E. specialize (IH _ Hw1).
      destruct (replay ops (with_slots q h t d)) as [[d' acc] out].
      destruct IH as [IH ?]. split; [|done]. cbn. rewrite <- IH, Hp1. done.
Qed.

End QueueFacts.

Lemma restarts_snoc (t : list event) (e : event) :
  restarts (t ++ [e])
  = (restarts t + match e with SetUnavailable => 1 | _ => 0 end)%nat.
Proof.
  unfold restarts. rewrite List.filter_app, length_app. by destruct e.
Qed.

(** Reads the fields of a device through the updates made to it. *)
Ltac fields :=
  unfold succeeded, caught, flushQueue;
  cbn [fst snd emit with_slots with_queueRunning with_busy with_restarting
         with_watchDogCounter with_lastCommand with_vehicle
         disabled queue head tail queueRunning busy restarting watchDogCounter
         vehicle loginOnRetry lastCommand fixChargerStateTime trace];
  rewrite ?restarts_snoc, ?Nat.add_0_r.

Section RunQueueFacts.

Implicit Types (d : device) (x : item) (r : remote).

(** The state [runQueue] works on once it has taken the head command. *)
Lemma runQueue_head r d x rest :
  wf d → pending d = x :: rest →
  ∃ q h t,
    let d1 := with_slots q h t (with_queueRunning true (with_busy true d)) in
    pending d1 = rest ∧ wf d1 ∧
    runQueue r d =
      if noSession d then
        (caught "Ignoring queued command; not logged in"
           (with_watchDogCounter (watchDogCounter d - 2) d1), false)
      else
        match execute x r (with_lastCommand (Some (command x)) d1) with
        | inl d2 => (emit (Wait (itemWait (command x))) d2, true)
        | inr (d2, e) => (caught e d2, false)
        end.
Proof.
  intros Hw Hp.
  destruct (deQueue_pending (with_queueRunning true (with_busy true d)) x rest)
    as (q & h & t & E & Hp1 & Hw1); [exact Hw|exact Hp|].
  exists q, h, t. cbn zeta. split; [exact Hp1|]. split; [exact Hw1|].
  unfold runQueue. rewrite E. reflexivity.
Qed.

Lemma pending_same_slots d d' :
  queue d' = queue d → head d' = head d → tail d' = tail d → pending d' = pending d.
Proof. intros Eq Eh Et. unfold pending. by rewrite Eq, Eh, Et. Qed.

Lemma wf_same_slots d d' :
  queue d' = queue d → head d' = head d → tail d' = tail d → wf d → wf d'.
Proof. intros Eq Eh Et Hw. unfold wf. by rewrite Eq, Eh, Et. Qed.

(** [enQueue] touches the slot table, [queueRunning] and the trace only,
    and it adds the command or nothing. *)
Lemma enQueue_keeps x d :
  disabled (enQueue x d).1 = disabled d
  ∧ restarting (enQueue x d).1 = restarting d
  ∧ vehicle (enQueue x d).1 = vehicle d
  ∧ loginOnRetry (enQueue x d).1 = loginOnRetry d
  ∧ lastCommand (enQueue x d).1 = lastCommand d
  ∧ fixChargerStateTime (enQueue x d).1 = fixChargerStateTime d
  ∧ watchDogCounter (enQueue x d).1 = watchDogCounter d
  ∧ busy (enQueue x d).1 = busy d
  ∧ restarts (trace (enQueue x d).1) = restarts (trace d)
  ∧ (queueRunning d = true → queueRunning (enQueue x d).1 = true).
Proof.
  unfold enQueue.
  destruct (disabled d) eqn:Ed;
    [|destruct (10 <=? tail d)%Z; [|cbn zeta; destruct (negb _) eqn:Eq]];
    fields; rewrite ?Ed; repeat split; try done;
    intros E; by rewrite E in Eq.
Qed.

Lemma enQueue_grows x d :
  wf d →
  wf (enQueue x d).1
  ∧ ∃ items, pending (enQueue x d).1 = (pending d ++ items)%list
             ∧ (items = [] ∨ items = [x]).
Proof.
  intros Hw. destruct (accepts d) eqn:Ha.
  - unfold accepts in Ha. apply andb_true_iff in Ha as [Hd Hlt].
    apply negb_true_iff in Hd. apply negb_true_iff, Z.leb_gt in Hlt.
    destruct (enQueue_pending x d Hw Hd Hlt) as (Ep & _ & Hw').
    split; [exact Hw'|]. exists [x]. split; [exact Ep|by right].
  - split; [by apply enQueue_rejected_wf|].
    exists []. rewrite app_nil_r. split; [|by left].
    by apply enQueue_rejected_pending.
Qed.

(** A text in the place of the error message decides the retry by
    [retryable]. *)
Lemma wantsRetry_text (error : value) (s : string) :
  errorText error = Ok (VStr s) → wantsRetry error = Ok (retryable s).
Proof.
  intros E. unfold wantsRetry. rewrite E. cbn [mbind res_bind truthy msgIncludes].
  unfold retryable. destruct (String.eqb s EmptyString); cbn [negb andb]; [done|].
  by destruct (includes s (resCode "4002")).
Qed.

(** An error without a text: the test of line 189 raises. *)
Lemma wantsRetry_textless (error msg : value) :
  errorText error = Ok msg → truthy msg = true →
  (∀ s, msg ≠ VStr s) → (∀ l, msg ≠ VArr l) →
  wantsRetry error = Throw TypeError.
Proof.
  intros E Ht Hs Hl. unfold wantsRetry. rewrite E. cbn [mbind res_bind].
  rewrite Ht. cbn [negb].
  destruct msg; try done; [by destruct (Hs s)|by destruct (Hl l)].
Qed.

Lemma spec_through x r d d0 b d' :
  queue d0 = queue d ∧ head d0 = head d ∧ tail d0 = tail d →
  keptFields d d0 →
  queue d' = queue (called x b d0) ∧ head d' = head (called x b d0)
  ∧ tail d' = tail (called x b d0) →
  keptFields (called x b d0) d' →
  (b = true →
   first r = Resolved true
   ∨ (∃ error, first r = Rejected error) ∧ retry r = Resolved true) →
  polledSlots x r d d' ∧ keptFields d d'.
Proof.
  intros (Eq & Eh & Et) (K1 & K2 & K3 & K4 & K5 & K6 & K7) (Eq' & Eh' & Et')
    (L1 & L2 & L3 & L4 & L5 & L6 & L7) Hb.
  unfold called, startPolling in *.
  destruct b; cbn [andb] in *;
    [destruct (String.eqb_spec (command x) "doPoll") as [Hcmd|Hcmd]|].
  - destruct (enQueue_keeps firstPoll (emit (Log "Start polling") (emit ClearInterval d0)))
      as (H1 & H2 & H3 & H4 & H5 & H6 & _ & _ & H9 & _).
    split.
    + exists true, (emit (Log "Start polling") (emit ClearInterval d0)).
      cbv zeta. repeat split; try done. by apply Hb.
    + unfold keptFields.
      rewrite L1, L2, L3, L4, L5, L6, L7, H1, H2, H3, H4, H5, H6, H9.
      fields. by rewrite K1, K2, K3, K4, K5, K6, K7.
  - split.
    + exists false, d0. cbv zeta. repeat split; try done.
    + unfold keptFields. by rewrite L1, L2, L3, L4, L5, L6, L7, K1, K2, K3, K4, K5, K6, K7.
  - split.
    + exists false, d0. cbv zeta. repeat split; try done.
    + unfold keptFields. by rewrite L1, L2, L3, L4, L5, L6, L7, K1, K2, K3, K4, K5, K6, K7.
Qed.

(** Closes a leaf of [execute]: the device [d0] the call was made on and
    whether the call changed the poll mode; [plain] for a leaf without a
    call that resolved. *)
Ltac leaf x r d d0 b :=
  apply (spec_through x r d d0 b);
  [ repeat split; reflexivity
  | unfold keptFields; fields; repeat split; reflexivity
  | generalize (called x b d0); intros c; repeat split; reflexivity
  | generalize (called x b d0); intros c; unfold keptFields; fields;
    repeat split; reflexivity
  | ].

Ltac plain x r d :=
  apply (spec_through x r d d false);
  [ repeat split; reflexivity
  | unfold keptFields; repeat split; reflexivity
  | unfold called; cbn [andb]; repeat split; reflexivity
  | unfold called; cbn [andb]; unfold keptFields; fields; repeat split; reflexivity
  | discriminate ].

Lemma execute_spec x r d :
  match execute x r d with
  | inl d' | inr (d', _) => polledSlots x r d d' ∧ keptFields d d'
  end.
Proof.
  unfold execute. cbn zeta.
  destruct (first r) as [b|error] eqn:Ef.
  - leaf x r d (emit (Call (command x) (args x)) d) b.
    intros ->. by left.
  - destruct (wantsRetry error) as [[|]|e].
    + cbn [loginOnRetry emit].
      destruct (loginOnRetry d) eqn:El; [destruct (login r) eqn:Eg|]; cbn [andb negb].
      2:{ plain x r d. }
      all: destruct (retry r) as [b|error'] eqn:Er.
      2,4: plain x r d.
      all: match goal with
           | |- context [called _ _ ?d0] => leaf x r d d0 b
           end.
      all: intros ->; right; split; [by eexists|done].
    + plain x r d.
    + plain x r d.
Qed.

(** The pending commands once [execute] is through: the ones there were,
    in order, and behind them at most the first poll of [startPolling]. *)
Lemma execute_pending x r d :
  wf d →
  match execute x r d with
  | inl d' | inr (d', _) =>
      wf d'
      ∧ ∃ items, pending d' = (pending d ++ items)%list
                 ∧ (items = []
                    ∨ items = [firstPoll] ∧ command x = "doPoll"
                      ∧ (first r = Resolved true
                         ∨ (∃ error, first r = Rejected error)
                           ∧ retry r = Resolved true))
  end.
Proof.
  intros Hw. pose proof (execute_spec x r d) as H.
  assert (G : ∀ d' : device,
            polledSlots x r d d' →
            wf d'
            ∧ ∃ items, pending d' = (pending d ++ items)%list
                       ∧ (items = []
                          ∨ items = [firstPoll] ∧ command x = "doPoll"
                            ∧ (first r = Resolved true
                               ∨ (∃ error, first r = Rejected error)
                                 ∧ retry r = Resolved true))).
  { intros d' (polled & dm & Eq & Eh & Et & (Eq' & Eh' & Et') & Hpoll).
    assert (Hwm : wf dm) by (by apply (wf_same_slots d)).
    assert (Hpm : pending dm = pending d) by (by apply pending_same_slots).
    destruct polled.
    - destruct (enQueue_grows firstPoll dm Hwm) as (Hw' & items & Ep & Hitems).
      split; [by apply (wf_same_slots (enQueue firstPoll dm).1)|].
      exists items. rewrite (pending_same_slots _ d' Eq' Eh' Et'), Ep, Hpm.
      split; [done|]. destruct Hitems as [->| ->]; [by left|right].
      split; [done|]. by apply Hpoll.
    - split; [by apply (wf_same_slots dm)|].
      exists []. rewrite app_nil_r, (pending_same_slots _ d' Eq' Eh' Et'), Hpm.
      split; [done|by left]. }
  destruct (execute x r d) as [d'|[d' e]]; apply G, H.
Qed.

(** The health counter after [execute]. *)
Lemma execute_resolved x r d b :
  first r = Resolved b →
  ∃ d', execute x r d = inl d' ∧ watchDogCounter d' = 6%Z.
Proof. intros E. unfold execute. rewrite E. by eexists. Qed.

Lemma execute_plain_failure x r d error :
  first r = Rejected error → wantsRetry error = Ok false →
  ∃ d', execute x r d = inl d'
        ∧ watchDogCounter d' = (watchDogCounter d - 1)%Z.
Proof. intros E Hm. unfold execute. rewrite E, Hm. by eexists. Qed.

Lemma execute_retry_worked x r d error b :
  first r = Rejected error → wantsRetry error = Ok true →
  loginOnRetry d = false ∨ login r = true → retry r = Resolved b →
  ∃ d', execute x r d = inl d' ∧ watchDogCounter d' = 6%Z.
Proof.
  intros E Hm Hl Hr. unfold execute. rewrite E, Hm, Hr. cbn.
  destruct Hl as [-> | ->].
  - by eexists.
  - rewrite andb_false_r. destruct (loginOnRetry d); by eexists.
Qed.

Lemma execute_textless x r d error :
  first r = Rejected error → wantsRetry error = Throw TypeError →
  execute x r d = inr (emit (Call (command x) (args x)) d, TypeError).
Proof. intros E Hm. unfold execute. by rewrite E, Hm. Qed.

(** [execute] stops the loop in two cases only: an error without a text,
    and a login that fails before the retry. *)
Lemma execute_continues x r d error :
  first r = Rejected error → (∃ t, wantsRetry error = Ok t) →
  loginOnRetry d = false ∨ login r = true →
  ∃ d', execute x r d = inl d'.
Proof.
  intros E [t Ht] Hl. unfold execute. rewrite E, Ht.
  destruct t; [|by eexists].
  cbn. destruct Hl as [-> | ->].
  - cbn. destruct (retry r); by eexists.
  - rewrite andb_false_r. destruct (loginOnRetry d), (retry r); by eexists.
Qed.

Lemma enQueue_restarting x d : restarting (enQueue x d).1 = restarting d.
Proof.
  unfold enQueue. destruct (disabled d); [done|].
  destruct (10 <=? tail d)%Z; [done|]. cbn. by destruct (queueRunning d).
Qed.

Lemma wf_sample (d : device) (n : nat) :
  head d = 0%Z → tail d = Z.of_nat n →
  forallb (λ i, bool_decide (is_Some (queue d !! i))) (seqZ 0 (Z.of_nat n)) = true →
  wf d.
Proof.
  intros Hh Ht Hall. split; [lia|]. intros i Hi.
  rewrite forallb_forall in Hall. specialize (Hall i).
  rewrite bool_decide_eq_true in Hall. apply Hall.
  apply list_elem_of_In, elem_of_seqZ. lia.
Qed.

End RunQueueFacts.

(* ===================================================================== *)
(** * The claims about the queue                                         *)
(* ===================================================================== *)

(** The health counter ([watchDogCounter]) after a run of [runQueue]
    that takes a command: down by 2 without a vehicle session; down by 1
    when the call fails with an error whose text carries neither retry
    code (4002, 4004); 6 when the call succeeds, at once or in the single
    retry. *)
Lemma health_counter (r : remote) (d : device) (x : item) (rest : list item) :
  wf d → pending d = x :: rest →
  (noSession d = true →
     watchDogCounter (runQueue r d).1 = (watchDogCounter d - 2)%Z)
  ∧ (noSession d = false → ∀ error s, first r = Rejected error →
     errorText error = Ok (VStr s) → retryable s = false →
     watchDogCounter (runQueue r d).1 = (watchDogCounter d - 1)%Z)
  ∧ (noSession d = false → ∀ b, first r = Resolved b →
     watchDogCounter (runQueue r d).1 = 6%Z)
  ∧ (noSession d = false → ∀ error s b, first r = Rejected error →
     errorText error = Ok (VStr s) → retryable s = true →
     loginOnRetry d = false ∨ login r = true → retry r = Resolved b →
     watchDogCounter (runQueue r d).1 = 6%Z).
Proof.
  intros Hw Hp.
  destruct (runQueue_head r d x rest Hw Hp) as (q & h & t & _ & _ & E).
  cbn zeta in E. rewrite E. repeat split.
  - intros ->. reflexivity.
  - intros -> error s Hf Ht Hm.
    destruct (execute_plain_failure x r
                (with_lastCommand (Some (command x))
                   (with_slots q h t (with_queueRunning true (with_busy true d))))
                error Hf) as (d' & -> & Hwd); [|exact Hwd].
    by rewrite (wantsRetry_text _ _ Ht), Hm.
  - intros -> b Hf.
    destruct (execute_resolved x r
                (with_lastCommand (Some (command x))
                   (with_slots q h t (with_queueRunning true (with_busy true d))))
                b Hf) as (d' & -> & Hwd).
    exact Hwd.
  - intros -> error s b Hf Ht Hm Hl Hr.
    destruct (execute_retry_worked x r
                (with_lastCommand (Some (command x))
                   (with_slots q h t (with_queueRunning true (with_busy true d))))
                error b Hf) as (d' & -> & Hwd); [|exact Hl|exact Hr|exact Hwd].
    by rewrite (wantsRetry_text _ _ Ht), Hm.
Qed.

(** C1.  The code misses the claim on a command that fails with an error
    without a text.  When the value in the place of the message ([error.body
    || error.message || error]) is truthy and neither a text nor an array,
    [msg.includes] is no function: the [.catch] handler raises before it
    takes 1 off the health counter, the counter stays as it was, and the
    exception stops the consumption loop with [queueRunning] and [busy]
    cleared.  No retry code is in play, so the claim has the counter go
    down by exactly 1. *)
Theorem C1_textless_failure_keeps_counter
    (r : remote) (d : device) (x : item) (rest : list item) (error msg : value) :
  wf d → pending d = x :: rest → noSession d = false →
  first r = Rejected error →
  errorText error = Ok msg → truthy msg = true →
  (∀ s, msg ≠ VStr s) → (∀ l, msg ≠ VArr l) →
  watchDogCounter (runQueue r d).1 = watchDogCounter d
  ∧ (runQueue r d).2 = false
  ∧ queueRunning (runQueue r d).1 = false
  ∧ busy (runQueue r d).1 = false
  ∧ pending (runQueue r d).1 = rest
  ∧ trace (runQueue r d).1
    = (trace d ++ [Call (command x) (args x); Error TypeError])%list.
Proof.
  intros Hw Hp Hs Hf Ht Htruthy Hstr Harr.
  destruct (runQueue_head r d x rest Hw Hp) as (q & h & t & Hp1 & _ & E).
  cbn zeta in E. rewrite E, Hs. clear E.
  rewrite (execute_textless x r _ error Hf
             (wantsRetry_textless error msg Ht Htruthy Hstr Harr)).
  fields. repeat split; [exact Hp1|by rewrite <- app_assoc].
Qed.

(** One queued command, a session, and a call rejected with [Error('')]:
    the counter stays at 6, where a call rejected with a text that
    carries no retry code takes it to 5. *)
Lemma C1_textless_failure_keeps_counter_witness :
  wf oneQueued ∧ pending oneQueued = [lockCmd]
  ∧ noSession oneQueued = false
  ∧ first failingMute = Rejected noText
  ∧ errorText noText = Ok noText ∧ truthy noText = true
  ∧ watchDogCounter oneQueued = 6%Z
  ∧ watchDogCounter (runQueue failingMute oneQueued).1 = 6%Z
  ∧ (runQueue failingMute oneQueued).2 = false
  ∧ watchDogCounter (runQueue failing oneQueued).1 = 5%Z.
Proof.
  assert (Hw : wf oneQueued).
  { apply (wf_sample _ 1); reflexivity. }
  assert (Hp : pending oneQueued = [lockCmd]) by reflexivity.
  assert (Hs : ∀ s, noText ≠ VStr s) by discriminate.
  assert (Hl : ∀ l, noText ≠ VArr l) by discriminate.
  split; [exact Hw|]. split; [exact Hp|]. split; [reflexivity|].
  split; [reflexivity|]. split; [reflexivity|]. split; [reflexivity|].
  split; [reflexivity|].
  pose proof (C1_textless_failure_keeps_counter failingMute oneQueued lockCmd [] noText
                noText Hw Hp eq_refl eq_refl eq_refl eq_refl Hs Hl) as (H1 & H2 & _).
  split; [exact H1|]. split; [exact H2|]. reflexivity.
Defined.

(** C2, as stated, fails: [enQueue] bounds the index [tail], not the size
    [tail - head].  With nine commands pending behind [head = 1] the device
    is not disabled and the size is below 10, yet an enqueue is dropped as
    an overflow and the size stays 9. *)
Lemma C2_counterexample :
  wf nineLeft
  ∧ disabled nineLeft = false
  ∧ head nineLeft = 1%Z ∧ tail nineLeft = 10%Z
  ∧ size nineLeft = 9%Z
  ∧ size (enQueue unlockCmd nineLeft).1 = 9%Z
  ∧ pending (enQueue unlockCmd nineLeft).1 = pending nineLeft
  ∧ trace (enQueue unlockCmd nineLeft).1 = [Error "queue overflow"].
Proof.
  split; [|by vm_compute].
  split; [vm_compute; split; discriminate|].
  intros i Hi. change (head nineLeft) with 1%Z in Hi. change (tail nineLeft) with 10%Z in Hi.
  assert (Hall : forallb (λ i, bool_decide (is_Some (queue nineLeft !! i))) (seqZ 1 9) = true)
    by reflexivity.
  rewrite forallb_forall in Hall. specialize (Hall i).
  rewrite bool_decide_eq_true in Hall. apply Hall.
  apply list_elem_of_In, elem_of_seqZ. lia.
Qed.

(** C2 (amended).  For every sequence of enqueue and dequeue operations on
    a well-formed queue, the commands handed out by [deQueue] followed by
    the commands still pending are the commands that were pending followed
    by the accepted ones, in order (FIFO).  While the index [tail] is below
    10 an enqueue on a device that is not disabled appends the command and
    the size grows by 1; once [tail] has reached 10 (in particular at size
    10) an enqueue leaves contents and size as they are, reports
    "queue overflow" and returns normally. *)
Theorem C2_fifo_and_tail_bound (ops : list op) (x : item) (d : device) :
  wf d →
  (pending d ++ (replay ops d).1.2 = (replay ops d).2 ++ pending (replay ops d).1.1)%list
  ∧ (disabled d = false → (tail d < 10)%Z →
       pending (enQueue x d).1 = (pending d ++ [x])%list
       ∧ size (enQueue x d).1 = (size d + 1)%Z)
  ∧ (disabled d = false → (10 ≤ tail d)%Z →
       enQueue x d = (emit (Error "queue overflow") d, false))
  ∧ (disabled d = false → size d = 10%Z →
       pending (enQueue x d).1 = pending d
       ∧ size (enQueue x d).1 = 10%Z
       ∧ trace (enQueue x d).1 = (trace d ++ [Error "queue overflow"])%list).
Proof.
  intros Hw. repeat split.
  - pose proof (replay_fifo ops d Hw) as H.
    destruct (replay ops d) as [[d' acc] out]. apply H.
  - by apply enQueue_pending.
  - by apply enQueue_pending.
  - intros Hd Ht. by apply enQueue_overflow.
  - rewrite enQueue_overflow; [done|done|]. destruct Hw as [? _]. unfold size in *. lia.
  - rewrite enQueue_overflow; [done|done|]. destruct Hw as [? _]. unfold size in *. lia.
  - rewrite enQueue_overflow; [done|done|]. destruct Hw as [? _]. unfold size in *. lia.
Qed.

(** Ten commands queued behind [head = 0]: they leave in order, and an
    eleventh is dropped. *)
Lemma C2_fifo_and_tail_bound_witness :
  wf tenQueued
  ∧ (replay [Deq; Enq unlockCmd; Deq] tenQueued).2 = [lockCmd; lockCmd]
  ∧ size tenQueued = 10%Z
  ∧ size (enQueue unlockCmd tenQueued).1 = 10%Z.
Proof.
  assert (Hw : wf tenQueued) by (apply (wf_sample _ 10); reflexivity).
  split; [exact Hw|].
  pose proof (C2_fifo_and_tail_bound [Deq; Enq unlockCmd; Deq] unlockCmd tenQueued Hw)
    as (Hfifo & _ & _ & Hfull).
  split; [reflexivity|]. split; [reflexivity|].
  exact (proj1 (proj2 (Hfull eq_refl eq_refl))).
Defined.

(** C3, as stated, fails: with two commands queued and no vehicle session
    the consumption loop comes to rest after the first command.  The
    second command is still pending, no call reached the vehicle client,
    and the loop is no longer running. *)
Lemma C3_counterexample :
  pending loggedOut = [lockCmd; unlockCmd]
  ∧ noSession loggedOut = true
  ∧ ∃ d', runLoop 5 (λ _, failing) loggedOut = Some d'
          ∧ pending d' = [unlockCmd]
          ∧ List.filter isCall (trace d') = []
          ∧ queueRunning d' = false
          ∧ watchDogCounter d' = 4%Z.
Proof.
  split; [reflexivity|]. split; [reflexivity|].
  eexists. split; [vm_compute; reflexivity|]. by vm_compute.
Qed.

(** C3 (amended).  With at least two commands pending: when the head
    command is taken without a vehicle session it is dropped with the
    health counter down by 2, nothing is called or retried, and the
    consumption loop stops with [queueRunning] and [busy] cleared, the
    other commands staying queued in order; when there is a session, a
    command that fails with an error that carries a text does not stop
    the loop (short of a failing login before the retry): [runQueue] is
    invoked again with the other commands still queued in order, and
    nothing behind them but the first poll of [startPolling] when the
    command was a poll whose retry changed the poll mode.  [runQueue]
    never starts a restart; the poll timer starts one exactly when the
    health counter is at or below 0. *)
Theorem C3_failure_is_local (r : remote) (d : device) (x y : item) (rest : list item) :
  wf d → pending d = x :: y :: rest →
  (noSession d = true →
     (runQueue r d).2 = false
     ∧ watchDogCounter (runQueue r d).1 = (watchDogCounter d - 2)%Z
     ∧ pending (runQueue r d).1 = y :: rest
     ∧ queueRunning (runQueue r d).1 = false
     ∧ busy (runQueue r d).1 = false
     ∧ trace (runQueue r d).1
       = (trace d ++ [Error "Ignoring queued command; not logged in"])%list)
  ∧ (noSession d = false →
     ∀ error s, first r = Rejected error → errorText error = Ok (VStr s) →
     loginOnRetry d = false ∨ login r = true →
     (runQueue r d).2 = true
     ∧ ∃ items, pending (runQueue r d).1 = (y :: rest ++ items)%list
                ∧ (items = []
                   ∨ items = [firstPoll] ∧ command x = "doPoll"
                     ∧ retry r = Resolved true))
  ∧ restarting (runQueue r d).1 = restarting d
  ∧ (restarting d = false →
     (restarting (pollTick d).1 = true ↔ (watchDogCounter d ≤ 0)%Z)).
Proof.
  intros Hw Hp.
  destruct (runQueue_head r d x (y :: rest) Hw Hp) as (q & h & t & Hp1 & Hw1 & E).
  cbn zeta in E. rewrite E. clear E.
  split; [intros ->; repeat split; try done; exact Hp1|].
  split.
  { intros -> error s Hf Ht Hl.
    set (d1 := with_lastCommand (Some (command x))
                 (with_slots q h t (with_queueRunning true (with_busy true d)))).
    destruct (execute_continues x r d1 error Hf) as (d' & Ee);
      [exists (retryable s); by apply wantsRetry_text|exact Hl|].
    pose proof (execute_pending x r d1 Hw1) as Hpend. fold d1. rewrite Ee in Hpend |- *.
    destruct Hpend as (_ & items & Ep & Hitems).
    cbn [fst snd]. split; [done|]. exists items.
    rewrite (pending_same_slots d' (emit (Wait (itemWait (command x))) d'))
      by reflexivity.
    rewrite Ep. change (pending d1) with
      (pending (with_slots q h t (with_queueRunning true (with_busy true d)))).
    rewrite Hp1. split; [done|].
    destruct Hitems as [->|(-> & Hcmd & [Hr|[_ Hr]])]; [by left| |by right].
    rewrite Hf in Hr. discriminate Hr. }
  split.
  { destruct (noSession d); [done|].
    pose proof (execute_spec x r
                  (with_lastCommand (Some (command x))
                     (with_slots q h t (with_queueRunning true (with_busy true d)))))
      as Hspec.
    destruct (execute x r _) as [d'|[d' e]];
      destruct Hspec as (_ & _ & Hr & _); fields; exact Hr. }
  intros Hr. unfold pollTick.
  destruct (Z.leb_spec (watchDogCounter d) 0) as [Hle|Hgt].
  - unfold restartDevice. cbn. rewrite Hr. done.
  - split; [|lia]. intros H. exfalso.
    destruct (busy d); cbn in H; [congruence|].
    rewrite enQueue_restarting in H. congruence.
Qed.

(** Two queued commands, without and with a session. *)
Lemma C3_failure_is_local_witness :
  wf loggedOut ∧ pending loggedOut = [lockCmd; unlockCmd]
  ∧ noSession loggedOut = true
  ∧ (runQueue failing loggedOut).2 = false
  ∧ pending (runQueue failing loggedOut).1 = [unlockCmd]
  ∧ wf twoQueued ∧ pending twoQueued = [lockCmd; unlockCmd]
  ∧ noSession twoQueued = false
  ∧ first failing = Rejected hangUp
  ∧ errorText hangUp = Ok (VStr "socket hang up")
  ∧ (runQueue failing twoQueued).2 = true
  ∧ pending (runQueue failing twoQueued).1 = [unlockCmd].
Proof.
  assert (Hw : wf loggedOut) by (apply (wf_sample _ 2); reflexivity).
  assert (Hw2 : wf twoQueued) by (apply (wf_sample _ 2); reflexivity).
  pose proof (C3_failure_is_local failing loggedOut lockCmd unlockCmd [] Hw eq_refl)
    as (Ha & _).
  pose proof (C3_failure_is_local failing twoQueued lockCmd unlockCmd [] Hw2 eq_refl)
    as (_ & Hb & _).
  specialize (Ha eq_refl).
  specialize (Hb eq_refl hangUp "socket hang up" eq_refl eq_refl (or_intror eq_refl)).
  split; [exact Hw|]. split; [reflexivity|]. split; [reflexivity|].
  split; [exact (proj1 Ha)|]. split; [exact (proj1 (proj2 (proj2 Ha)))|].
  split; [exact Hw2|]. split; [reflexivity|]. split; [reflexivity|].
  split; [reflexivity|]. split; [reflexivity|].
  split; [exact (proj1 Hb)|reflexivity].
Defined.

(* ===================================================================== *)
(** * Facts about the normalizer                                         *)
(* ===================================================================== *)

Lemma field_assign (o : obj) (k k' : string) (v : value) :
  field (assign o k v) k' = if String.eqb k k' then v else field o k'.
Proof.
  induction o as [|[k0 v0] o IH]; cbn.
  - done.
  - destruct (String.eqb_spec k0 k) as [->|Hne]; cbn.
    + destruct (String.eqb k k'); done.
    + rewrite IH. destruct (String.eqb_spec k0 k') as [->|Hne'].
      * destruct (String.eqb_spec k k'); [congruence|done].
      * done.
Qed.

Lemma bind_Ok {A B} (f : A → res B) (m : res A) (b : B) :
  m ≫= f = Ok b → ∃ a, m = Ok a ∧ f a = Ok b.
Proof. destruct m as [a|e]; [|discriminate]. intros H. by exists a. Qed.

Lemma Ok_inj {A} (a b : A) : Ok a = Ok b → a = b.
Proof. congruence. Qed.

Ltac returned H :=
  cbv zeta in H;
  repeat match type of H with
    | mbind _ _ = Ok _ =>
        apply bind_Ok in H;
        let a := fresh "a" in
        let E := fresh "E" in
        destruct H as (a & E & H); cbv beta zeta in H
    end;
  try match type of H with
    | Ok _ = Ok _ => apply Ok_inj in H
    end.

Ltac read_back := repeat (rewrite field_assign; cbn [String.eqb Ascii.eqb Bool.eqb]).

Section NormalizerFacts.

Variable parse_number : value → option Q.
Variable format : value → string.
Variable settings : obj.
Variable getCapabilityValue : string → value.
Variable geoDistance : value → value → value → value → res value.
Variable getCarLocString : obj → value.
Variable getTempFromCode : value → res value.

Abbreviation mapOld' :=
  (mapOld parse_number format settings getCapabilityValue getTempFromCode).
Abbreviation locate' :=
  (locate parse_number format settings geoDistance getCarLocString).

Lemma locate_speed map lat lon speed m :
  locate' map lat lon speed = Ok m →
  field m "measure_speed" = clampSpeed parse_number format speed.
Proof.
  unfold locate. intros H. returned H. subst m. by read_back.
Qed.

Lemma mapOld_result sts map m :
  mapOld' sts map = Ok m →
  field m "ev_charging_state"
  = VStr (evChargingState
            (recode parse_number format
               (ochain (VObj sts) ["evStatus"; "batteryPlugin"])
               (ochain (VObj sts) ["evStatus"; "batteryCharge"])))
  ∧ field m "measure_speed" = field map "measure_speed".
Proof.
  unfold mapOld. intros H. returned H. subst m. split; [by read_back|].
  read_back.
  destruct (truthy (ochain (VObj sts) ["evStatus"; "reservChargeInfos"; "targetSOClist"])).
  - returned E1. subst. by read_back.
  - returned E1. subst. by read_back.
Qed.

Abbreviation mapStatus' :=
  (mapStatus parse_number format settings getCapabilityValue geoDistance
     getCarLocString getTempFromCode).
Abbreviation mapNew' :=
  (mapNew parse_number format settings getCapabilityValue geoDistance getCarLocString).
Abbreviation mapOldFull' :=
  (mapOldFull parse_number format settings geoDistance getCarLocString).

Lemma mapNew_result sts map m :
  mapNew' sts map = Ok m →
  field m "ev_charging_state"
  = VStr (evChargingState
            (recode parse_number format
               (ochain (VObj sts) ["Green"; "ChargingInformation"; "ConnectorFastening"; "State"])
               (VBool (truthy (ochain (VObj sts)
                                 ["Green"; "ChargingInformation"; "Charging"; "RemainTime"])))))
  ∧ field m "measure_speed"
    = clampSpeed parse_number format (ochain (VObj sts) ["Location"; "Speed"; "Value"]).
Proof.
  unfold mapNew. intros H. returned H. subst m. split; [by read_back|].
  read_back. eapply locate_speed. eassumption.
Qed.

Lemma mapStatus_branches status m :
  mapStatus' status = Ok m →
  truthy status = true →
  ∃ m0 m1,
    (if truthy (field (spread status) "vehicleStatus")
     then mapOldFull' (spread status) [] = Ok m0 else m0 = [])
    ∧ (if truthy (field (stsOf status) "time")
       then mapOld' (stsOf status) m0 = Ok m1 else m1 = m0)
    ∧ (if truthy (field (stsOf status) "Date")
       then mapNew' (stsOf status) m1 = Ok m else m = m1).
Proof.
  unfold mapStatus, stsOf. intros H Ht. rewrite Ht in H. cbn [negb] in H.
  destruct (truthy (field (spread status) "vehicleStatus")).
  - returned H. returned E. subst a. cbn [fst snd] in H. cbv beta iota in H.
    returned H. subst m. exists a0, a. repeat split.
    + exact E0.
    + destruct (truthy (field _ "time")); [done|]. by apply Ok_inj in E.
    + destruct (truthy (field _ "Date")); [done|]. by apply Ok_inj in E1.
  - cbn [mbind res_bind] in H. returned H. subst m. exists [], a. repeat split.
    + destruct (truthy (field _ "time")); [done|]. by apply Ok_inj in E.
    + destruct (truthy (field _ "Date")); [done|]. by apply Ok_inj in E0.
Qed.

Lemma mapStatus_absent status : truthy status = false → mapStatus' status = Ok [].
Proof. intros H. unfold mapStatus. by rewrite H. Qed.

(** The reduce over the door names starts from [true] and can only
    stay there. *)
Lemma reduce_doors doorOpen (doors : list string) :
  fold_left (λ closedAccu door, vor closedAccu (vnot (prop doorOpen door)))
    doors (VBool true) = VBool true.
Proof. induction doors as [|door doors IH]; [done|]. exact IH. Qed.

Lemma closedLockedOld_ignores_doors sts :
  truthy (field sts "doorLock") = true →
  truthy (field sts "trunkOpen") = false →
  truthy (field sts "hoodOpen") = false →
  nullish (field sts "doorOpen") = false →
  closedLockedOld sts = Ok (VBool true).
Proof.
  intros Hl Ht Hh Hd. unfold closedLockedOld. rewrite Hl, Ht, Hh. cbn [negb].
  unfold keys. destruct (field sts "doorOpen"); try discriminate Hd;
    cbn [mbind res_bind]; by rewrite reduce_doors.
Qed.

End NormalizerFacts.

Section NormalizerClaims.

Variable parse_number : value → option Q.
Variable format : value → string.
Variable settings : obj.
Variable getCapabilityValue : string → value.
Variable geoDistance : value → value → value → value → res value.
Variable getCarLocString : obj → value.
Variable getTempFromCode : value → res value.

Abbreviation mapStatus' :=
  (mapStatus parse_number format settings getCapabilityValue geoDistance
     getCarLocString getTempFromCode).

Lemma clampSpeed_number (q : Q) :
  ((255 < q)%Q → clampSpeed parse_number format (VNum q) = VNum 0)
  ∧ (¬ (255 < q)%Q → clampSpeed parse_number format (VNum q) = VNum q).
Proof.
  unfold clampSpeed, js_gt. cbn [is_stringy andb to_number]. unfold Qgtb.
  split; intros H.
  - apply Qgt_alt in H. by rewrite H.
  - destruct (q ?= 255)%Q eqn:E; try done.
    exfalso. apply H. by apply Qgt_alt.
Qed.

Lemma phaseTable_codes code charging phase :
  phaseTable code charging = Some phase →
  (code = 0%Z ∧ phase = "plugged_out")
  ∨ ((code = 1%Z ∨ code = 2%Z) ∧ charging = true ∧ phase = "plugged_in_charging")
  ∨ ((code = 1%Z ∨ code = 2%Z) ∧ charging = false ∧ phase = "plugged_in").
Proof.
  intros H. destruct code as [|[p|p|]|]; try destruct p; destruct charging;
    cbn in H; try discriminate; injection H as <-; auto 10.
Qed.

Lemma phase_of_code code charging phase (flag : value) :
  phaseTable code charging = Some phase →
  truthy flag = charging →
  evChargingState (recode parse_number format (VNum (inject_Z code)) flag) = phase.
Proof.
  intros H Hf. unfold recode. rewrite Hf.
  destruct (phaseTable_codes _ _ _ H)
    as [[-> ->]|[[[-> | ->] [-> ->]]|[[-> | ->] [-> ->]]]]; reflexivity.
Qed.

(** C6.  For a connector code among 0..4 and a charging flag, the
    charging phase [mapStatus] reports follows the decoding table: codes
    1 and 2 with the flag set give plugged_in_charging, codes 1 and 2
    without it give plugged_in (the code is first raised by 2), code 0
    gives plugged_out; the old branch (connector [evStatus.batteryPlugin],
    flag [evStatus.batteryCharge]) and the new branch (connector
    [ConnectorFastening.State], flag [Charging.RemainTime]) agree. *)
Theorem C6_charging_phase_table (status : value) (m : obj)
    (code : Z) (charging : bool) (phase : string) :
  phaseTable code charging = Some phase →
  truthy status = true →
  mapStatus' status = Ok m →
  (truthy (field (stsOf status) "time") = true →
   truthy (field (stsOf status) "Date") = false →
   ochain (VObj (stsOf status)) ["evStatus"; "batteryPlugin"] = VNum (inject_Z code) →
   truthy (ochain (VObj (stsOf status)) ["evStatus"; "batteryCharge"]) = charging →
   field m "ev_charging_state" = VStr phase)
  ∧ (truthy (field (stsOf status) "Date") = true →
     ochain (VObj (stsOf status))
       ["Green"; "ChargingInformation"; "ConnectorFastening"; "State"]
     = VNum (inject_Z code) →
     truthy (ochain (VObj (stsOf status))
               ["Green"; "ChargingInformation"; "Charging"; "RemainTime"]) = charging →
     field m "ev_charging_state" = VStr phase)
  ∧ (code ≠ 0%Z → ∀ flag, truthy flag = false →
     recode parse_number format (VNum (inject_Z code)) flag
     = VNum (inject_Z code + 2)).
Proof.
  intros Hp Ht Hm.
  destruct (mapStatus_branches _ _ _ _ _ _ _ _ _ Hm Ht) as (m0 & m1 & _ & Hold & Hnew).
  split; [|split].
  - intros Htime HDate Hplug Hflag. rewrite Htime in Hold. rewrite HDate in Hnew.
    subst m. apply mapOld_result in Hold as [-> _].
    rewrite Hplug. f_equal. by eapply phase_of_code.
  - intros HDate Hplug Hflag. rewrite HDate in Hnew.
    apply mapNew_result in Hnew as [-> _].
    rewrite Hplug. f_equal. by eapply phase_of_code.
  - intros Hc flag Hflag. unfold recode. rewrite Hflag.
    destruct code; [done| |]; reflexivity.
Qed.

(** C10.  In the old full branch and in the new branch a reported speed
    above 255 becomes a [measure_speed] of 0, and any other reported
    speed is handed on as it is. *)
Theorem C10_speed_above_255_is_zero (status : value) (m : obj) (q : Q) :
  truthy status = true →
  mapStatus' status = Ok m →
  (truthy (field (spread status) "vehicleStatus") = true →
   truthy (field (stsOf status) "Date") = false →
   ochain (VObj (spread status)) ["vehicleLocation"; "speed"; "value"] = VNum q →
   ((255 < q)%Q → field m "measure_speed" = VNum 0)
   ∧ (¬ (255 < q)%Q → field m "measure_speed" = VNum q))
  ∧ (truthy (field (stsOf status) "Date") = true →
     ochain (VObj (stsOf status)) ["Location"; "Speed"; "Value"] = VNum q →
     ((255 < q)%Q → field m "measure_speed" = VNum 0)
     ∧ (¬ (255 < q)%Q → field m "measure_speed" = VNum q)).
Proof.
  intros Ht Hm.
  destruct (mapStatus_branches _ _ _ _ _ _ _ _ _ Hm Ht) as (m0 & m1 & Hfull & Hold & Hnew).
  split.
  - intros Hvs HDate Hspeed. rewrite Hvs in Hfull. rewrite HDate in Hnew. subst m.
    assert (E1 : field m1 "measure_speed" = field m0 "measure_speed").
    { destruct (truthy (field (stsOf status) "time")); [|by subst].
      by apply mapOld_result in Hold as [_ ->]. }
    unfold mapOldFull in Hfull. apply locate_speed in Hfull.
    rewrite E1, Hfull, Hspeed. apply clampSpeed_number.
  - intros HDate Hspeed. rewrite HDate in Hnew.
    apply mapNew_result in Hnew as [_ ->].
    rewrite Hspeed. apply clampSpeed_number.
Qed.

(** C5.  The old branch reports [closed_locked] for a locked car whose
    front left door is open: the reduce over [doorOpen] starts from
    [true] and combines with [||], so no door can turn it to [false]. *)
Theorem C5_open_door_reported_closed :
  ochain doorOpenStatus ["doorOpen"; "frontLeft"] = VNum 1
  ∧ ∃ m, mapStatus' doorOpenStatus = Ok m
         ∧ field m "locked" = VBool true
         ∧ field m "closed_locked" = VBool true.
Proof.
  split; [reflexivity|].
  eexists. split; [reflexivity|]. split; reflexivity.
Qed.

(** C9.  An absent status gives the empty object, but [mapStatus] is
    not total on payloads of the three shapes: an old status without
    [doorOpen], an old status with the climate control on and without
    [airTemp], and a new status whose fuel system has no [DTE] all end
    in an exception. *)
Theorem C9_missing_sub_fields_raise :
  mapStatus' VUndefined = Ok []
  ∧ mapStatus' noDoorOpenStatus = Throw TypeError
  ∧ mapStatus' noAirTempStatus = Throw TypeError
  ∧ ∃ e, mapStatus' noDTEStatus = Throw e.
Proof.
  split; [reflexivity|]. split; [reflexivity|]. split; [reflexivity|].
  change (mapStatus' noDTEStatus)
    with (mapNew parse_number format settings getCapabilityValue geoDistance
            getCarLocString (spread noDTEStatus) [] ≫= λ map, Ok map).
  unfold mapNew. cbv zeta.
  destruct (locate parse_number format settings geoDistance getCarLocString
              (assign [] "measure_odo"
                 (ochain (VObj (spread noDTEStatus)) ["Drivetrain"; "Odometer"]))
              (ochain (VObj (spread noDTEStatus)) ["Location"; "GeoCoord"; "Latitude"])
              (ochain (VObj (spread noDTEStatus)) ["Location"; "GeoCoord"; "Longitude"])
              (ochain (VObj (spread noDTEStatus)) ["Location"; "Speed"; "Value"]))
    as [m|e]; cbn [mbind res_bind]; [|by eexists].
  eexists. reflexivity.
Qed.

End NormalizerClaims.

Section ClassifierFacts.

Variable parse_number : value → option Q.
Variable format : value → string.

Lemma gt_numbers (x y : Q) :
  js_gt parse_number format (VNum x) (VNum y) = true ↔ (y < x)%Q.
Proof.
  unfold js_gt. cbn [is_stringy andb to_number]. unfold Qgtb.
  change (y < x)%Q with (x > y)%Q. rewrite Qgt_alt.
  destruct (x ?= y)%Q; split; intros H; done.
Qed.

Lemma abs_sub_numbers (x y : Q) :
  Math_abs parse_number (js_sub parse_number (VNum x) (VNum y)) = VNum (Qabs (x - y)).
Proof. reflexivity. Qed.

(** A value never lies farther than a positive threshold from itself. *)
Lemma no_displacement (v : value) (c : Q) :
  (0 < c)%Q →
  js_gt parse_number format
    (Math_abs parse_number (js_sub parse_number v v)) (VNum c) = false.
Proof.
  intros Hc. unfold js_sub. destruct (to_number parse_number v) as [x|] eqn:E.
  - unfold Math_abs. cbn [to_number]. apply not_true_is_false. intros H.
    apply gt_numbers in H.
    assert (Hz : (Qabs (x - x) == 0)%Q).
    { unfold Qminus. rewrite Qplus_opp_r. reflexivity. }
    rewrite Hz in H. apply (Qlt_irrefl 0). by apply Qlt_trans with c.
  - reflexivity.
Qed.

End ClassifierFacts.

(** C4.  When the mapped odometer is falsy and the previous record holds
    a number, the repair stores the spread of that number, which is the
    empty object, not the number. *)
Theorem C4_repair_stores_empty_object (lastStatus stsMapped : obj) (q : Q) :
  truthy (field stsMapped "measure_odo") = false →
  field lastStatus "measure_odo" = VNum q →
  field (repairOdo (VObj lastStatus) stsMapped) "measure_odo" = VObj [].
Proof.
  intros Hodo Hlast. unfold repairOdo. rewrite Hodo. cbn [negb].
  rewrite field_assign, String.eqb_refl.
  unfold oget. cbn [spread]. by rewrite Hlast.
Qed.

(** Previous odometer 12345, polled odometer 0. *)
Lemma C4_repair_stores_empty_object_witness :
  truthy (field [("measure_odo", VNum 0); ("latitude", VNum 52)] "measure_odo") = false
  ∧ field [("measure_odo", VNum 12345)] "measure_odo" = VNum 12345
  ∧ field (repairOdo (VObj [("measure_odo", VNum 12345)])
             [("measure_odo", VNum 0); ("latitude", VNum 52)]) "measure_odo"
    = VObj [].
Proof.
  split; [reflexivity|]. split; [reflexivity|].
  apply (C4_repair_stores_empty_object
           [("measure_odo", VNum 12345)]
           [("measure_odo", VNum 0); ("latitude", VNum 52)] 12345);
    reflexivity.
Defined.

(** C7, as stated, fails: the speed is present (0), the previous
    coordinates exist and the car is one degree of latitude away from
    them, yet [isMoving] answers [false]. *)
Lemma C7_counterexample :
  field relocated "measure_speed" = VNum 0
  ∧ field seenBefore "latitude" = VNum 52
  ∧ field seenBefore "longitude" = VNum 5
  ∧ js_gt Host.parse_number Host.format
      (Math_abs Host.parse_number
         (js_sub Host.parse_number (field relocated "latitude") (field seenBefore "latitude")))
      (VNum (1 # 10000)) = true
  ∧ isMoving Host.parse_number Host.format (field seenBefore) relocated = false.
Proof. repeat split; reflexivity. Qed.

(** C7 (amended).  [isMoving] answers [false] when the current speed is
    falsy (absent or 0) or the previous latitude is falsy (absent or 0,
    which covers previous coordinates (0, 0)); otherwise, on numeric
    readings, it answers [true] exactly when the speed is positive or the
    latitude or the longitude lies more than 0.0001 degrees from the
    previous one. *)
Theorem C7_isMoving_needs_speed
    (parse_number : value → option Q) (format : value → string)
    (getCapabilityValue : string → value) (info : obj) :
  (truthy (field info "measure_speed") = false
   ∨ truthy (getCapabilityValue "latitude") = false →
   isMoving parse_number format getCapabilityValue info = false)
  ∧ (∀ s la lo pla plo : Q,
       field info "measure_speed" = VNum s →
       field info "latitude" = VNum la →
       field info "longitude" = VNum lo →
       getCapabilityValue "latitude" = VNum pla →
       getCapabilityValue "longitude" = VNum plo →
       ¬ (s == 0)%Q → ¬ (pla == 0)%Q →
       (isMoving parse_number format getCapabilityValue info = true
        ↔ (0 < s)%Q ∨ (1 # 10000 < Qabs (la - pla))%Q
          ∨ (1 # 10000 < Qabs (lo - plo))%Q)).
Proof.
  unfold isMoving. split.
  - intros [H|H]; rewrite H; [done|]. by rewrite orb_true_r.
  - intros s la lo pla plo Hs Hla Hlo Hpla Hplo Hs0 Hp0.
    rewrite Hs, Hla, Hlo, Hpla, Hplo. cbn [truthy].
    rewrite !abs_sub_numbers.
    assert (E1 : Qeq_bool s 0 = false).
    { apply not_true_is_false. intros H. by apply Qeq_bool_iff in H. }
    assert (E2 : Qeq_bool pla 0 = false).
    { apply not_true_is_false. intros H. by apply Qeq_bool_iff in H. }
    rewrite E1, E2. cbn [negb orb].
    rewrite !orb_true_iff, !gt_numbers. tauto.
Qed.

(** The relocated car: at speed 0 it is not moving, at speed -1 (a reading
    that is neither 0 nor positive) the displacement decides. *)
Lemma C7_isMoving_needs_speed_witness :
  truthy (field relocated "measure_speed") = false
  ∧ isMoving Host.parse_number Host.format (field seenBefore) relocated = false
  ∧ isMoving Host.parse_number Host.format (field seenBefore)
      (assign relocated "measure_speed" (VNum (-1))) = true.
Proof.
  split; [reflexivity|]. split.
  - apply (proj1 (C7_isMoving_needs_speed Host.parse_number Host.format
                    (field seenBefore) relocated)).
    left. reflexivity.
  - apply (proj2 (C7_isMoving_needs_speed Host.parse_number Host.format
                    (field seenBefore) (assign relocated "measure_speed" (VNum (-1))))
             (-1)%Q 53%Q 5%Q 52%Q 5%Q eq_refl eq_refl eq_refl eq_refl eq_refl).
    + discriminate.
    + discriminate.
    + right. left. reflexivity.
Defined.

(** C8, as stated, fails: a record of a car driving at 50, classified
    against itself, is reported as moving. *)
Lemma C8_counterexample :
  isMoving Host.parse_number Host.format (field driving) driving = true
  ∧ isParking Host.parse_number Host.format driving driving = false.
Proof. split; reflexivity. Qed.

(** C8 (amended).  A record classified against itself (its own
    coordinates as previous location and as park location) is never
    reported as newly parked, and is reported as moving exactly when its
    own speed and latitude are truthy and the speed is above 0: the
    position never contributes. *)
Theorem C8_no_self_displacement
    (parse_number : value → option Q) (format : value → string) (info : obj) :
  isParking parse_number format info info = false
  ∧ isMoving parse_number format (field info) info
    = truthy (field info "measure_speed")
      && truthy (field info "latitude")
      && js_gt parse_number format (field info "measure_speed") (VNum 0).
Proof.
  split.
  - unfold isParking. rewrite !no_displacement by reflexivity.
    by destruct (truthy (field info "engine")).
  - unfold isMoving. rewrite !no_displacement by reflexivity.
    destruct (truthy (field info "measure_speed")),
      (truthy (field info "latitude")); cbn; try done.
    by rewrite orb_false_r.
Qed.

(** The table at (1, false) on an old full status and at (2, true) on a
    new status. *)
Lemma C6_charging_phase_table_witness :
  phaseTable 1 false = Some "plugged_in"
  ∧ (∃ m, mapStatus Host.parse_number Host.format Host.settings Host.getCapabilityValue
            Host.geoDistance Host.getCarLocString Host.getTempFromCode
            (oldFullStatus 50 1 false) = Ok m
          ∧ field m "ev_charging_state" = VStr "plugged_in")
  ∧ phaseTable 2 true = Some "plugged_in_charging"
  ∧ (∃ m, mapStatus Host.parse_number Host.format Host.settings Host.getCapabilityValue
            Host.geoDistance Host.getCarLocString Host.getTempFromCode
            (newStatus 50 2 true) = Ok m
          ∧ field m "ev_charging_state" = VStr "plugged_in_charging").
Proof.
  split; [reflexivity|]. split.
  { eexists. split; [vm_compute; reflexivity|].
    apply (proj1 (C6_charging_phase_table Host.parse_number Host.format Host.settings
             Host.getCapabilityValue Host.geoDistance Host.getCarLocString
             Host.getTempFromCode (oldFullStatus 50 1 false) _ 1 false "plugged_in"
             eq_refl eq_refl eq_refl)); reflexivity. }
  split; [reflexivity|].
  eexists. split; [vm_compute; reflexivity|].
  apply (proj1 (proj2 (C6_charging_phase_table Host.parse_number Host.format Host.settings
           Host.getCapabilityValue Host.geoDistance Host.getCarLocString
           Host.getTempFromCode (newStatus 50 2 true) _ 2 true "plugged_in_charging"
           eq_refl eq_refl eq_refl))); reflexivity.
Defined.

(** Speed 300 on an old full status, speed 100 on a new status. *)
Lemma C10_speed_above_255_is_zero_witness :
  (255 < 300)%Q
  ∧ (∃ m, mapStatus Host.parse_number Host.format Host.settings Host.getCapabilityValue
            Host.geoDistance Host.getCarLocString Host.getTempFromCode
            (oldFullStatus 300 1 false) = Ok m
          ∧ field m "measure_speed" = VNum 0)
  ∧ ¬ (255 < 100)%Q
  ∧ (∃ m, mapStatus Host.parse_number Host.format Host.settings Host.getCapabilityValue
            Host.geoDistance Host.getCarLocString Host.getTempFromCode
            (newStatus 100 2 true) = Ok m
          ∧ field m "measure_speed" = VNum 100).
Proof.
  split; [reflexivity|]. split.
  { eexists. split; [vm_compute; reflexivity|].
    apply (proj1 (C10_speed_above_255_is_zero Host.parse_number Host.format Host.settings
             Host.getCapabilityValue Host.geoDistance Host.getCarLocString
             Host.getTempFromCode (oldFullStatus 300 1 false) _ 300
             eq_refl eq_refl) eq_refl eq_refl eq_refl). reflexivity. }
  split; [discriminate|].
  eexists. split; [vm_compute; reflexivity|].
  apply (proj2 (C10_speed_above_255_is_zero Host.parse_number Host.format Host.settings
           Host.getCapabilityValue Host.geoDistance Host.getCarLocString
           Host.getTempFromCode (newStatus 100 2 true) _ 100
           eq_refl eq_refl) eq_refl eq_refl). discriminate.
Defined.

(* ===================================================================== *)
(** * Further facts about the queue and the life of a device             *)
(* ===================================================================== *)

Section LifeFacts.

Implicit Types (d : device) (x : item) (r : remote).

(** [inv] only looks at the slot table. *)
Lemma inv_same_slots d d' :
  queue d' = queue d → head d' = head d → tail d' = tail d → inv d → inv d'.
Proof.
  intros Eq Eh Et ([Hb Hq] & Ht & Hz). unfold inv, wf.
  rewrite Eq, Eh, Et. done.
Qed.

Lemma inv_initial v b : inv (initial v b).
Proof. split; [apply wf_initial|]. cbn. split; [lia|done]. Qed.

Lemma inv_empty_slots d : inv (with_slots ∅ 0 0 d).
Proof.
  split; [split; cbn; [lia|intros i Hi; lia]|]. cbn. split; [lia|done].
Qed.

Lemma inv_enQueue x d : inv d → inv (enQueue x d).1.
Proof.
  intros (Hw & Ht & Hz).
  destruct (accepts d) eqn:Ha.
  - unfold accepts in Ha. apply andb_true_iff in Ha as [Hd Hlt].
    apply negb_true_iff in Hd. apply negb_true_iff, Z.leb_gt in Hlt.
    destruct (enQueue_pending x d Hw Hd Hlt) as (_ & _ & Hw').
    destruct (enQueue_accepted x d Hd Hlt) as (_ & Eh & Et & _).
    split; [exact Hw'|]. rewrite Eh, Et. destruct Hw as [Hb _]. split; lia.
  - unfold inv. split; [by apply enQueue_rejected_wf|].
    unfold accepts, enQueue in *. destruct (disabled d); [done|].
    destruct (10 <=? tail d)%Z; [done|discriminate].
Qed.

Lemma inv_deQueue d : inv d → inv (deQueue d).1.
Proof.
  intros ([Hb Hq] & Ht & Hz). unfold deQueue.
  destruct (Z.leb_spec (tail d - head d) 0); [done|].
  destruct (Z.eqb_spec (head d + 1) (tail d)) as [E|E]; cbn.
  - split; [split; cbn; [lia|intros i Hi; lia]|]. cbn. split; [lia|done].
  - split; [split; cbn; [lia|]|cbn; split; lia].
    intros i Hi. rewrite lookup_delete_ne by lia. apply Hq. lia.
Qed.

Lemma inv_execute x r d :
  inv d →
  match execute x r d with
  | inl d' | inr (d', _) => inv d'
  end.
Proof.
  intros Hi. pose proof (execute_spec x r d) as H.
  assert (G : ∀ d' : device, polledSlots x r d d' → inv d').
  { intros d' (polled & dm & Eq & Eh & Et & (Eq' & Eh' & Et') & _).
    assert (Him : inv dm) by (by apply (inv_same_slots d)).
    destruct polled.
    - apply (inv_same_slots (enQueue firstPoll dm).1); [done..|]. by apply inv_enQueue.
    - by apply (inv_same_slots dm). }
  destruct (execute x r d) as [d'|[d' e]]; apply G, H.
Qed.

Lemma inv_runQueue r d : inv d → inv (runQueue r d).1.
Proof.
  intros Hi. unfold runQueue.
  pose proof (inv_deQueue (with_queueRunning true (with_busy true d))) as Hd.
  destruct (deQueue (with_queueRunning true (with_busy true d))) as [d1 [x|]].
  - cbn in Hd. specialize (Hd Hi). destruct (noSession d1).
    + eapply inv_same_slots; [..|exact Hd]; done.
    + assert (Hd' : inv (with_lastCommand (Some (command x)) d1))
        by (eapply inv_same_slots; [..|exact Hd]; done).
      pose proof (inv_execute x r _ Hd') as Hs.
      destruct (execute x r (with_lastCommand (Some (command x)) d1)) as [d2|[d2 e]];
        (eapply inv_same_slots; [..|exact Hs]); done.
  - cbn in Hd. specialize (Hd Hi). cbn zeta.
    match goal with
    | |- inv (if ?c then _ else _).1 => destruct c
    end.
    + apply inv_enQueue. eapply inv_same_slots; [..|exact Hd]; done.
    + eapply inv_same_slots; [..|exact Hd]; done.
Qed.

Lemma inv_flushQueue d : inv (flushQueue d).
Proof.
  eapply inv_same_slots; [..|exact (inv_empty_slots d)]; done.
Qed.

Lemma inv_restartDevice d : inv d → inv (restartDevice d).
Proof.
  intros Hi. unfold restartDevice. destruct (restarting d); [done|].
  eapply inv_same_slots; [..|exact (inv_empty_slots d)]; done.
Qed.

Lemma inv_pollTick d : inv d → inv (pollTick d).1.
Proof.
  intros Hi. unfold pollTick. destruct (watchDogCounter d <=? 0)%Z.
  - apply inv_restartDevice. eapply inv_same_slots; [..|exact Hi]; done.
  - destruct (busy d); [eapply inv_same_slots; [..|exact Hi]; done|].
    by apply inv_enQueue.
Qed.

Lemma inv_happen d h : inv d → inv (happen d h).
Proof.
  intros Hi. destruct h; cbn.
  - by apply inv_enQueue.
  - by apply inv_deQueue.
  - by apply inv_runQueue.
  - by apply inv_pollTick.
  - by apply inv_restartDevice.
  - apply inv_flushQueue.
  - unfold ready. destruct (vehicle d); try (eapply inv_same_slots; [..|exact Hi]; done).
    destruct (nullish found); [done|]. eapply inv_same_slots; [..|exact Hi]; done.
  - eapply inv_same_slots; [..|exact (inv_empty_slots d)]; done.
Qed.

(** X1.  Whatever happens to a device after [onInit] (commands queued,
    runs of the consumer, timer ticks, restarts, flushes, logins), the
    slot table stays well formed, [tail] never passes 10, an empty table
    is back at index 0, and at most 10 commands are pending. *)
Theorem X1_slot_table_invariant (hs : list happening) (v : value) (b : bool) :
  inv (history hs (initial v b))
  ∧ (length (pending (history hs (initial v b))) ≤ 10)%nat.
Proof.
  assert (H : inv (history hs (initial v b))).
  { unfold history. generalize (inv_initial v b). generalize (initial v b).
    induction hs as [|h hs IH]; intros d Hd; [done|].
    cbn. apply IH. by apply inv_happen. }
  split; [exact H|].
  destruct H as (Hw & Ht & _).
  pose proof (size_pending _ Hw) as Hs. unfold size in Hs.
  destruct Hw as [Hb _]. lia.
Qed.

Lemma enQueue_on_empty x d :
  inv d → disabled d = false → pending d = [] →
  pending (enQueue x d).1 = [x]
  ∧ (enQueue x d).2 = negb (queueRunning d)
  ∧ trace (enQueue x d).1 = trace d.
Proof.
  intros (Hw & Ht & Hz) Hd Hp.
  pose proof (size_pending d Hw) as Hs. rewrite Hp in Hs. unfold size in Hs. cbn in Hs.
  assert (Ht0 : tail d = 0%Z) by (apply Hz; lia).
  destruct (enQueue_pending x d Hw Hd) as (Ep & _); [lia|].
  rewrite Ep, Hp. split; [done|].
  unfold enQueue. rewrite Hd, Ht0. cbn. by destruct (queueRunning d).
Qed.

(** X2.  On a device in order, an overflow needs a pending command: with
    nothing pending and the device not disabled, [enQueue] always takes
    the command, which is then the one pending command, and starts the
    consumer unless it is running. *)
Theorem X2_empty_queue_accepts x d :
  inv d → disabled d = false → pending d = [] →
  pending (enQueue x d).1 = [x]
  ∧ (enQueue x d).2 = negb (queueRunning d)
  ∧ trace (enQueue x d).1 = trace d.
Proof. apply enQueue_on_empty. Qed.

(** A fresh device takes its first command. *)
Lemma X2_empty_queue_accepts_witness :
  inv (initial aVehicle false) ∧ disabled (initial aVehicle false) = false
  ∧ pending (initial aVehicle false) = []
  ∧ pending (enQueue lockCmd (initial aVehicle false)).1 = [lockCmd].
Proof.
  split; [apply inv_initial|]. split; [reflexivity|]. split; [reflexivity|].
  exact (proj1 (X2_empty_queue_accepts lockCmd (initial aVehicle false)
                  (inv_initial aVehicle false) eq_refl eq_refl)).
Defined.

(** The run of [runQueue] that finds nothing to take. *)
Lemma runQueue_drained r d :
  wf d → pending d = [] →
  runQueue r d =
    let d0 := with_busy false (with_queueRunning false
                (with_queueRunning true (with_busy true d))) in
    if wantsFollowUp (lastCommand d) && negb (cooling r d)
    then enQueue followUpPoll d0 else (d0, false).
Proof.
  intros Hw Hp. unfold runQueue.
  rewrite (deQueue_empty (with_queueRunning true (with_busy true d)) Hw Hp).
  cbn zeta. unfold wantsFollowUp, cooling, followUpPoll. cbn [lastCommand with_busy
    with_queueRunning fixChargerStateTime].
  destruct (lastCommand d) as [c|]; cbn [negb andb orb].
  - destruct (String.eqb c "doPoll"), (String.eqb c "stopCharge"),
      (fixChargerStateTime d) as [t|]; cbn [negb andb orb]; try done;
      by destruct (clock r - t <? 30 * 1000)%Z.
  - destruct (fixChargerStateTime d) as [t|]; cbn [negb andb orb]; [|done].
    by destruct (clock r - t <? 30 * 1000)%Z.
Qed.

(** X3.  When [runQueue] finds the queue drained on a device in order
    that is not disabled: if the last command was neither a poll nor
    [stopCharge] and the charger-fix window is not open, a poll with
    [forceOnce] is queued and the consumer is started on it; otherwise the
    consumer stops with [queueRunning] and [busy] cleared and nothing
    queued. *)
Theorem X3_follow_up_poll r d :
  inv d → pending d = [] → disabled d = false →
  (wantsFollowUp (lastCommand d) && negb (cooling r d) = true →
     (runQueue r d).2 = true
     ∧ pending (runQueue r d).1 = [followUpPoll]
     ∧ queueRunning (runQueue r d).1 = true)
  ∧ (wantsFollowUp (lastCommand d) && negb (cooling r d) = false →
     (runQueue r d).2 = false
     ∧ pending (runQueue r d).1 = []
     ∧ queueRunning (runQueue r d).1 = false
     ∧ busy (runQueue r d).1 = false
     ∧ trace (runQueue r d).1 = trace d).
Proof.
  intros Hi Hp Hd. pose proof Hi as (Hw & _).
  rewrite (runQueue_drained r d Hw Hp). cbn zeta.
  set (d0 := with_busy false (with_queueRunning false
               (with_queueRunning true (with_busy true d)))).
  assert (Hi0 : inv d0) by (eapply inv_same_slots; [..|exact Hi]; done).
  split; intros ->.
  - destruct (enQueue_on_empty followUpPoll d0 Hi0 Hd Hp) as (Ep & Es & _).
    split; [exact Es|]. split; [exact Ep|].
    unfold enQueue. cbn [disabled d0 with_busy with_queueRunning]. rewrite Hd.
    destruct (10 <=? tail d0)%Z eqn:E.
    + exfalso. unfold enQueue in Ep. cbn [disabled d0 with_busy with_queueRunning] in Ep.
      rewrite Hd in Ep. fold d0 in Ep. rewrite E in Ep. cbn in Ep.
      change (pending d = [followUpPoll]) in Ep. congruence.
    + reflexivity.
  - repeat split. exact Hp.
Qed.

Lemma inv_sample (d : device) (n : nat) :
  head d = 0%Z → tail d = Z.of_nat n → (0 < n ≤ 10)%nat →
  forallb (λ i, bool_decide (is_Some (queue d !! i))) (seqZ 0 (Z.of_nat n)) = true →
  inv d.
Proof.
  intros Hh Ht Hn Hall. split; [by apply (wf_sample d n)|]. split; lia.
Qed.

(** After [lock] the drained queue gets its poll; after that poll it
    gets none. *)
Lemma X3_follow_up_poll_witness :
  inv lockDone ∧ pending lockDone = [] ∧ disabled lockDone = false
  ∧ lastCommand lockDone = Some "lock"
  ∧ pending (runQueue resolving lockDone).1 = [followUpPoll]
  ∧ lastCommand (history [DoRunQueue resolving; DoRunQueue resolving] lockDone)
    = Some "doPoll"
  ∧ (runQueue resolving
       (history [DoRunQueue resolving; DoRunQueue resolving] lockDone)).2 = false.
Proof.
  assert (Hi : inv lockDone).
  { apply inv_runQueue, (inv_sample _ 1); [reflexivity|reflexivity|lia|reflexivity]. }
  split; [exact Hi|]. split; [reflexivity|]. split; [reflexivity|].
  split; [reflexivity|].
  split.
  { exact (proj1 (proj2 (proj1 (X3_follow_up_poll resolving lockDone Hi eq_refl eq_refl)
                           eq_refl))). }
  split; [reflexivity|].
  assert (Hi2 : inv (history [DoRunQueue resolving; DoRunQueue resolving] lockDone)).
  { cbn. by do 2 apply inv_runQueue. }
  exact (proj1 (proj2 (X3_follow_up_poll resolving _ Hi2 eq_refl eq_refl) eq_refl)).
Defined.

Lemma runLoop_more (n m : nat) (rs : nat → remote) d d' :
  runLoop n rs d = Some d' → runLoop (n + m) rs d = Some d'.
Proof.
  revert rs d. induction n as [|n IH]; intros rs d H; [discriminate|].
  cbn in *. destruct (runQueue (rs O) d) as [d1 again].
  destruct again; [by apply IH|done].
Qed.

(** The flags once [runQueue] says it is not invoked again. *)
Lemma runQueue_rest r d :
  (runQueue r d).2 = false →
  queueRunning (runQueue r d).1 = false ∧ busy (runQueue r d).1 = false.
Proof.
  unfold runQueue.
  destruct (deQueue (with_queueRunning true (with_busy true d))) as [d1 [x|]].
  - destruct (noSession d1); [done|].
    destruct (execute x r (with_lastCommand (Some (command x)) d1)) as [d2|[d2 e]];
      [discriminate|done].
  - cbn zeta.
    match goal with |- context [if ?c then _ else _] => destruct c end; [|done].
    unfold enQueue. cbn [disabled with_busy with_queueRunning tail].
    destruct (disabled d1); [done|].
    destruct (10 <=? tail d1)%Z; [done|]. cbn. discriminate.
Qed.

(** What a run of [runQueue] on a pending command leaves behind: the
    other commands, and behind them at most the first poll of
    [startPolling]. *)
Lemma runQueue_taken r d x rest :
  inv d → pending d = x :: rest →
  inv (runQueue r d).1
  ∧ (∃ items, pending (runQueue r d).1 = (rest ++ items)%list
              ∧ (items = []
                 ∨ items = [firstPoll] ∧ command x = "doPoll" ∧ rearms r = true))
  ∧ ((runQueue r d).2 = true → lastCommand (runQueue r d).1 = Some (command x)).
Proof.
  intros Hi Hp. split; [by apply inv_runQueue|].
  destruct Hi as (Hw & _).
  destruct (runQueue_head r d x rest Hw Hp) as (q & h & t & Hp1 & Hw1 & E).
  cbn zeta in E. rewrite E. clear E.
  destruct (noSession d).
  { split; [|discriminate]. exists []. rewrite app_nil_r. split; [exact Hp1|by left]. }
  set (d1 := with_lastCommand (Some (command x))
               (with_slots q h t (with_queueRunning true (with_busy true d)))).
  pose proof (execute_pending x r d1 Hw1) as Hpend.
  pose proof (execute_spec x r d1) as Hspec.
  assert (G : ∀ d' : device,
            (∃ items, pending d' = (pending d1 ++ items)%list
                      ∧ (items = []
                         ∨ items = [firstPoll] ∧ command x = "doPoll"
                           ∧ (first r = Resolved true
                              ∨ (∃ error, first r = Rejected error)
                                ∧ retry r = Resolved true))) →
            ∃ items, pending d' = (rest ++ items)%list
                     ∧ (items = []
                        ∨ items = [firstPoll] ∧ command x = "doPoll" ∧ rearms r = true)).
  { intros d' (items & Ep & Hitems). exists items.
    rewrite Ep. change (pending d1) with
      (pending (with_slots q h t (with_queueRunning true (with_busy true d)))).
    rewrite Hp1. split; [done|].
    destruct Hitems as [->|(-> & Hcmd & Hr)]; [by left|right].
    split; [done|]. split; [done|]. unfold rearms.
    destruct Hr as [-> | [[error ->] ->]]; done. }
  destruct (execute x r d1) as [d2|[d2 e]];
    destruct Hpend as (_ & Hitems); destruct Hspec as (_ & _ & _ & _ & _ & Hl & _);
    cbn [fst snd].
  - split; [|intros _; fields; exact Hl].
    rewrite (pending_same_slots d2 (emit (Wait (itemWait (command x))) d2))
      by reflexivity.
    by apply G.
  - split; [|discriminate].
    rewrite (pending_same_slots d2 (caught e d2)) by reflexivity.
    by apply G.
Qed.

(** The run of [runQueue] that finds nothing to take either stops the
    loop or queues the follow-up poll. *)
Lemma runQueue_drained_cases r d :
  inv d → pending d = [] →
  ((runQueue r d).2 = false ∧ pending (runQueue r d).1 = [])
  ∨ ((runQueue r d).2 = true ∧ pending (runQueue r d).1 = [followUpPoll]).
Proof.
  intros Hi Hp. pose proof Hi as (Hw & _).
  rewrite (runQueue_drained r d Hw Hp). cbn zeta.
  set (d0 := with_busy false (with_queueRunning false
               (with_queueRunning true (with_busy true d)))).
  destruct (wantsFollowUp (lastCommand d) && negb (cooling r d)); [|by left].
  destruct (accepts d0) eqn:Ha.
  - unfold accepts in Ha. apply andb_true_iff in Ha as [Hd Hlt].
    apply negb_true_iff in Hd. apply negb_true_iff, Z.leb_gt in Hlt.
    destruct (enQueue_pending followUpPoll d0 Hw Hd Hlt) as (Ep & _).
    right. split.
    + unfold enQueue. rewrite Hd. apply Z.leb_gt in Hlt. by rewrite Hlt.
    + rewrite Ep. change (pending d0) with (pending d). by rewrite Hp.
  - left. unfold accepts, enQueue in *.
    destruct (disabled d0); [by split|].
    destruct (10 <=? tail d0)%Z; [by split|discriminate].
Qed.

Lemma modeChanges_shift (rs : nat → remote) (k : nat) :
  (∀ n, modeChanges rs n ≤ k)%nat →
  (∀ n, modeChanges (λ i, rs (S i)) n ≤ k - (if rearms (rs 0%nat) then 1 else 0))%nat
  ∧ (rearms (rs 0%nat) = true → 1 ≤ k)%nat.
Proof.
  intros H. split.
  - intros n. specialize (H (S n)). cbn [modeChanges] in H.
    destruct (rearms (rs 0%nat)); lia.
  - intros E. specialize (H 1%nat). cbn [modeChanges] in H. rewrite E in H. lia.
Qed.

(** A queue of polls comes to rest without a follow-up poll. *)
Lemma runLoop_polls (N : nat) :
  ∀ (rs : nat → remote) d (k : nat),
    (length (pending d) + k ≤ N)%nat →
    inv d →
    Forall (λ x, command x = "doPoll") (pending d) →
    pending d ≠ [] ∨ lastCommand d = Some "doPoll" →
    (∀ n, modeChanges rs n ≤ k)%nat →
    ∃ d', runLoop (N + 1) rs d = Some d' ∧ queueRunning d' = false ∧ busy d' = false.
Proof.
  induction N as [|N IH]; intros rs d k Hlen Hi Hall Hlast Hk.
  - destruct (pending d) as [|x rest] eqn:Hp; [|cbn in Hlen; lia].
    destruct Hlast as [?|Hlast]; [done|].
    pose proof Hi as (Hw & _). cbn [Nat.add runLoop].
    rewrite (runQueue_drained _ d Hw Hp). cbn zeta. rewrite Hlast. cbn.
    eexists. by repeat split.
  - replace (S N + 1)%nat with (S (N + 1)) by lia. cbn [runLoop].
    pose proof (runQueue_rest (rs 0%nat) d) as Hrest.
    destruct (pending d) as [|x rest] eqn:Hp.
    + destruct Hlast as [?|Hlast]; [done|].
      pose proof Hi as (Hw & _).
      rewrite (runQueue_drained _ d Hw Hp) in Hrest |- *. cbn zeta in Hrest |- *.
      rewrite Hlast in Hrest |- *. cbn in Hrest |- *.
      eexists. by repeat split.
    + destruct (runQueue_taken (rs 0%nat) d x rest Hi Hp) as (Hi1 & (items & Ep & Hitems) & Hl).
      destruct (runQueue (rs 0%nat) d) as [d1 again]. cbn [fst snd] in *.
      destruct again; [|destruct (Hrest eq_refl); by exists d1].
      destruct (modeChanges_shift rs k Hk) as [Hk' Hone].
      apply Forall_cons in Hall as [Hx Hall].
      apply (IH _ d1 (k - (if rearms (rs 0%nat) then 1 else 0))%nat).
      * rewrite Ep, length_app. cbn [length] in Hlen.
        destruct Hitems as [->|(-> & _ & Hr)]; cbn [length].
        -- destruct (rearms (rs 0%nat)); lia.
        -- specialize (Hone Hr). rewrite Hr. lia.
      * exact Hi1.
      * rewrite Ep. apply Forall_app. split; [exact Hall|].
        destruct Hitems as [->|(-> & _)]; [done|]. by apply Forall_cons.
      * right. rewrite (Hl eq_refl). by rewrite Hx.
      * exact Hk'.
Qed.

Lemma runLoop_any (N : nat) :
  ∀ (rs : nat → remote) d (k : nat),
    (length (pending d) + k ≤ N)%nat →
    inv d →
    (∀ n, modeChanges rs n ≤ k)%nat →
    ∃ d', runLoop (N + 3) rs d = Some d' ∧ queueRunning d' = false ∧ busy d' = false.
Proof.
  assert (Hdrained : ∀ (M : nat) (rs : nat → remote) d (k : nat),
            (k ≤ M)%nat → inv d → pending d = [] →
            (∀ n, modeChanges rs n ≤ k)%nat →
            ∃ d', runLoop (M + 3) rs d = Some d'
                  ∧ queueRunning d' = false ∧ busy d' = false).
  { intros M rs d k HM Hi Hp Hk.
    replace (M + 3)%nat with (S (M + 2)) by lia. cbn [runLoop].
    pose proof (runQueue_rest (rs 0%nat) d) as Hrest.
    pose proof (inv_runQueue (rs 0%nat) d Hi) as Hi1.
    destruct (runQueue_drained_cases (rs 0%nat) d Hi Hp) as [[Ea Ep]|[Ea Ep]];
      destruct (runQueue (rs 0%nat) d) as [d1 again]; cbn [fst snd] in *; subst again.
    - destruct (Hrest eq_refl). by exists d1.
    - destruct (modeChanges_shift rs k Hk) as [Hk' _].
      destruct (runLoop_polls (M + 1) (λ i, rs (S i)) d1
                  (k - (if rearms (rs 0%nat) then 1 else 0))%nat)
        as (d' & E & Hq & Hb).
      + rewrite Ep. cbn [length]. lia.
      + exact Hi1.
      + rewrite Ep. by apply Forall_cons.
      + left. by rewrite Ep.
      + exact Hk'.
      + exists d'. replace (M + 2)%nat with (M + 1 + 1)%nat by lia. by repeat split. }
  induction N as [|N IH]; intros rs d k Hlen Hi Hk.
  - destruct (pending d) as [|x rest] eqn:Hp; [|cbn in Hlen; lia].
    apply (Hdrained 0%nat rs d k); [lia|done|done|done].
  - destruct (pending d) as [|x rest] eqn:Hp.
    + apply (Hdrained (S N) rs d k); [cbn in Hlen; lia|done|done|done].
    + replace (S N + 3)%nat with (S (N + 3)) by lia. cbn [runLoop].
      pose proof (runQueue_rest (rs 0%nat) d) as Hrest.
      destruct (runQueue_taken (rs 0%nat) d x rest Hi Hp) as (Hi1 & (items & Ep & Hitems) & _).
      destruct (runQueue (rs 0%nat) d) as [d1 again]. cbn [fst snd] in *.
      destruct again; [|destruct (Hrest eq_refl); by exists d1].
      destruct (modeChanges_shift rs k Hk) as [Hk' Hone].
      apply (IH _ d1 (k - (if rearms (rs 0%nat) then 1 else 0))%nat); [|exact Hi1|exact Hk'].
      rewrite Ep, length_app. cbn [length] in Hlen.
      destruct Hitems as [->|(-> & _ & Hr)]; cbn [length].
      * destruct (rearms (rs 0%nat)); lia.
      * specialize (Hone Hr). rewrite Hr. lia.
Qed.

(** X4.  The consumption loop comes to rest once the polls stop changing
    the poll mode: from a device in order with [n] commands pending, when
    at most [k] of the runs that follow see a call resolve with the poll
    mode changed, [runQueue] re-invokes itself at most [n + k + 2] times,
    whatever else the remote side answers, and then leaves [queueRunning]
    and [busy] cleared. *)
Theorem X4_loop_comes_to_rest (rs : nat → remote) d (k : nat) :
  inv d →
  (∀ n, modeChanges rs n ≤ k)%nat →
  ∃ d', runLoop (length (pending d) + k + 3) rs d = Some d'
        ∧ queueRunning d' = false ∧ busy d' = false.
Proof. intros Hi Hk. by apply (runLoop_any _ rs d k). Qed.

(** Two commands and a remote side that turns everything down. *)
Lemma X4_loop_comes_to_rest_witness :
  inv twoQueued
  ∧ (∀ n, modeChanges (λ _, failing) n ≤ 0)%nat
  ∧ ∃ d', runLoop 5 (λ _, failing) twoQueued = Some d'
          ∧ queueRunning d' = false ∧ busy d' = false.
Proof.
  assert (Hi : inv twoQueued).
  { apply (inv_sample _ 2); [reflexivity|reflexivity|lia|reflexivity]. }
  assert (Hk : ∀ n, (modeChanges (λ _, failing) n ≤ 0)%nat).
  { intros n. induction n as [|n IH]; [cbn; lia|exact IH]. }
  split; [exact Hi|]. split; [exact Hk|].
  exact (X4_loop_comes_to_rest (λ _, failing) twoQueued 0 Hi Hk).
Defined.

Lemma calls_app (t1 t2 : list event) : calls (t1 ++ t2) = (calls t1 ++ calls t2)%list.
Proof. unfold calls. apply omap_app. Qed.

(** A run of [runQueue] whose call is carried out and leaves the poll
    mode alone. *)
Lemma runQueue_resolved r d x rest :
  inv d → pending d = x :: rest → noSession d = false → first r = Resolved false →
  (runQueue r d).2 = true
  ∧ inv (runQueue r d).1
  ∧ pending (runQueue r d).1 = rest
  ∧ noSession (runQueue r d).1 = false
  ∧ disabled (runQueue r d).1 = disabled d
  ∧ fixChargerStateTime (runQueue r d).1 = fixChargerStateTime d
  ∧ lastCommand (runQueue r d).1 = Some (command x)
  ∧ calls (trace (runQueue r d).1) = (calls (trace d) ++ [x])%list
  ∧ watchDogCounter (runQueue r d).1 = 6%Z.
Proof.
  intros Hi Hp Hs Hf.
  pose proof (inv_runQueue r d Hi) as Hi1.
  split; [|split; [exact Hi1|]];
    destruct Hi as (Hw & _);
    destruct (runQueue_head r d x rest Hw Hp) as (q & h & t & Hp1 & _ & E);
    cbn zeta in E; rewrite E; clear E; rewrite Hs; unfold execute; rewrite Hf;
    unfold called; cbn [andb]; [done|].
  split; [exact Hp1|]. fields. repeat split; try done.
  rewrite !calls_app. cbn. rewrite !app_nil_r. by destruct x.
Qed.

(** X5.  With a session, a remote side that carries every call out and
    polls that leave the poll mode alone, the consumption loop runs the
    pending commands once each, in the order they were queued, adds one
    poll when the last of them was neither a poll nor [stopCharge], and
    stops with an empty queue; the health counter is 6 once a command has
    run. *)
Theorem X5_commands_run_in_order (rs : nat → remote) d :
  inv d → noSession d = false → disabled d = false →
  fixChargerStateTime d = None →
  (∀ n, first (rs n) = Resolved false) →
  ∃ d', runLoop (length (pending d) + 3) rs d = Some d'
        ∧ pending d' = []
        ∧ calls (trace d')
          = (calls (trace d) ++ pending d
             ++ if wantsFollowUp (lastOf (pending d) (lastCommand d))
                then [followUpPoll] else [])%list
        ∧ (pending d ≠ [] ∨ watchDogCounter d = 6%Z → watchDogCounter d' = 6%Z).
Proof.
  remember (pending d) as items eqn:Hp. symmetry in Hp.
  revert rs d Hp. induction items as [|x rest IH]; intros rs d Hp Hi Hs Hd Hfix Hrs.
  - cbn [length Nat.add lastOf fold_left app].
    pose proof Hi as (Hw & _). cbn [runLoop].
    rewrite (runQueue_drained _ d Hw Hp). cbn zeta.
    unfold cooling. rewrite Hfix. cbn [negb]. rewrite andb_true_r.
    set (d0 := with_busy false (with_queueRunning false
                 (with_queueRunning true (with_busy true d)))).
    assert (Hi0 : inv d0) by (eapply inv_same_slots; [..|exact Hi]; done).
    destruct (wantsFollowUp (lastCommand d)) eqn:Ew.
    + destruct (enQueue_on_empty followUpPoll d0 Hi0 Hd Hp) as (Ep & Es & Et).
      pose proof (inv_enQueue followUpPoll d0 Hi0) as Hi1.
      assert (Hk : noSession (enQueue followUpPoll d0).1 = false
                   ∧ disabled (enQueue followUpPoll d0).1 = false
                   ∧ fixChargerStateTime (enQueue followUpPoll d0).1 = None).
      { unfold enQueue. cbn [disabled d0 with_busy with_queueRunning]. rewrite Hd.
        destruct (10 <=? tail d0)%Z; cbn; done. }
      destruct Hk as (Hs1 & Hd1 & Hf1).
      destruct (enQueue followUpPoll d0) as [d1 started]. cbn in *. subst started.
      destruct (runQueue_resolved (rs 1%nat) d1 followUpPoll [] Hi1 Ep Hs1 (Hrs 1%nat))
        as (Ea & Hi2 & Hp2 & _ & _ & Hf2 & Hl2 & Hc2 & Hwd2).
      destruct (runQueue (rs 1%nat) d1) as [d2 again]. cbn in *. subst again.
      destruct Hi2 as (Hw2 & _).
      rewrite (runQueue_drained _ d2 Hw2 Hp2). cbn zeta. rewrite Hl2. cbn.
      eexists. split; [reflexivity|]. split; [exact Hp2|].
      cbn [trace watchDogCounter with_busy with_queueRunning].
      split; [by rewrite Hc2, Et|]. intros _. exact Hwd2.
    + eexists. split; [reflexivity|]. split; [exact Hp|]. split; [by rewrite app_nil_r|].
      intros [H|H]; [done|exact H].
  - cbn [length Nat.add runLoop].
    destruct (runQueue_resolved (rs 0%nat) d x rest Hi Hp Hs (Hrs 0%nat))
      as (Ea & Hi1 & Hp1 & Hs1 & Hd1 & Hf1 & Hl1 & Hc1 & Hwd1).
    destruct (runQueue (rs 0%nat) d) as [d1 again]. cbn in *. subst again.
    rewrite Hd in Hd1. rewrite Hfix in Hf1.
    destruct (IH (λ n, rs (S n)) d1 Hp1 Hi1 Hs1 Hd1 Hf1 (λ n, Hrs (S n)))
      as (d' & E & Hp' & Hc' & Hwd').
    exists d'. split; [exact E|]. split; [exact Hp'|]. split.
    + rewrite Hc', Hc1, Hl1, <- app_assoc. done.
    + intros _. apply Hwd'. by right.
Qed.

(** [lock] and a poll are queued: both run, in that order, and no further
    poll is added. *)
Lemma X5_commands_run_in_order_witness :
  inv lockThenPoll ∧ noSession lockThenPoll = false
  ∧ disabled lockThenPoll = false ∧ fixChargerStateTime lockThenPoll = None
  ∧ ∃ d', runLoop 5 (λ _, resolving) lockThenPoll = Some d'
          ∧ pending d' = []
          ∧ calls (trace d') = [lockCmd; pollCmd]
          ∧ watchDogCounter d' = 6%Z.
Proof.
  assert (Hi : inv lockThenPoll).
  { apply (inv_sample _ 2); [reflexivity|reflexivity|lia|reflexivity]. }
  split; [exact Hi|]. do 3 (split; [reflexivity|]).
  destruct (X5_commands_run_in_order (λ _, resolving) lockThenPoll Hi
              eq_refl eq_refl eq_refl (λ _, eq_refl)) as (d' & E & Hp & Hc & Hwd).
  exists d'. split; [exact E|]. split; [exact Hp|]. split; [exact Hc|].
  apply Hwd. left. discriminate.
Defined.









Lemma ticks_more (n m : nat) d : ticks (n + m) d = ticks m (ticks n d).
Proof. revert d. induction n as [|n IH]; intros d; [done|]. cbn. apply IH. Qed.

(** Ticks that find the consumer busy only cost health. *)
Lemma ticks_skipped (k : nat) d :
  busy d = true → (Z.of_nat k ≤ watchDogCounter d)%Z →
  busy (ticks k d) = true
  ∧ watchDogCounter (ticks k d) = (watchDogCounter d - Z.of_nat k)%Z
  ∧ restarting (ticks k d) = restarting d
  ∧ queue (ticks k d) = queue d ∧ head (ticks k d) = head d
  ∧ tail (ticks k d) = tail d
  ∧ queueRunning (ticks k d) = queueRunning d.
Proof.
  revert d. induction k as [|k IH]; intros d Hb Hk.
  - cbn. repeat split; try done. lia.
  - cbn [ticks].
    assert (E : (pollTick d).1
                = emit (Log "skipping a poll")
                    (with_watchDogCounter (watchDogCounter d - 1) d)).
    { unfold pollTick. destruct (Z.leb_spec (watchDogCounter d) 0); [lia|].
      by rewrite Hb. }
    rewrite E.
    match goal with
    | |- context [ticks k ?e] =>
        destruct (IH e) as (H1 & H2 & H3 & H4 & H5 & H6 & H7);
          [exact Hb|cbn; lia|]
    end.
    rewrite H1, H2, H3, H4, H5, H6, H7. cbn. repeat split; try done. lia.
Qed.

(** X7.  A consumer that stays busy is restarted by the watchdog: with
    the health counter at [n], the next [n] ticks of the poll timer each
    skip the poll, take 1 off the counter and leave the queue alone, and
    the tick after them starts the restart, which flushes the queue. *)
Theorem X7_stuck_consumer_is_restarted d :
  busy d = true → restarting d = false → (0 ≤ watchDogCounter d)%Z →
  let n := Z.to_nat (watchDogCounter d) in
  (∀ k, (k ≤ n)%nat →
     restarting (ticks k d) = false
     ∧ pending (ticks k d) = pending d
     ∧ watchDogCounter (ticks k d) = (watchDogCounter d - Z.of_nat k)%Z)
  ∧ restarting (ticks (S n) d) = true
  ∧ pending (ticks (S n) d) = []
  ∧ queueRunning (ticks (S n) d) = false.
Proof.
  intros Hb Hr Hwd n. split.
  - intros k Hk.
    destruct (ticks_skipped k d Hb) as (_ & H2 & H3 & H4 & H5 & H6 & _); [lia|].
    unfold pending. rewrite H2, H3, H4, H5, H6. done.
  - replace (S n) with (n + 1)%nat by lia. rewrite ticks_more.
    destruct (ticks_skipped n d Hb) as (_ & H2 & H3 & _); [lia|].
    cbn [ticks]. unfold pollTick.
    destruct (Z.leb_spec (watchDogCounter (ticks n d)) 0); [|lia].
    cbn [fst]. unfold restartDevice. cbn [restarting emit]. rewrite H3, Hr.
    done.
Qed.

(** At full health: six skipped polls, then the restart. *)
Lemma X7_stuck_consumer_is_restarted_witness :
  busy stuck = true ∧ restarting stuck = false ∧ watchDogCounter stuck = 6%Z
  ∧ restarting (ticks 6 stuck) = false
  ∧ watchDogCounter (ticks 6 stuck) = 0%Z
  ∧ restarting (ticks 7 stuck) = true.
Proof.
  do 3 (split; [reflexivity|]).
  pose proof (X7_stuck_consumer_is_restarted stuck eq_refl eq_refl) as H.
  cbn zeta in H. destruct H as (Hk & Hr & _); [discriminate|].
  destruct (Hk 6%nat) as (H1 & _ & H3); [change (6 ≤ 6)%nat; lia|].
  split; [exact H1|]. split; [exact H3|exact Hr].
Defined.

End LifeFacts.

(* ===================================================================== *)
(** * Further facts about the normalizer                                 *)
(* ===================================================================== *)

Section MoreNormalizerFacts.

Variable parse_number : value → option Q.
Variable format : value → string.
Variable settings : obj.
Variable getCapabilityValue : string → value.
Variable geoDistance : value → value → value → value → res value.
Variable getCarLocString : obj → value.
Variable getTempFromCode : value → res value.

Abbreviation mapStatus'' :=
  (mapStatus parse_number format settings getCapabilityValue geoDistance
     getCarLocString getTempFromCode).
Abbreviation mapOld'' :=
  (mapOld parse_number format settings getCapabilityValue getTempFromCode).
Abbreviation mapNew'' :=
  (mapNew parse_number format settings getCapabilityValue geoDistance getCarLocString).

(** What the new branch writes into the fields derived from doors,
    windows, climate and batteries. *)
Lemma mapNew_fields sts map m :
  mapNew'' sts map = Ok m →
  let s := VObj sts in
  field m "closed_locked"
  = VBool (every_zero "Open" (filter_Boolean (doorsOf sts))
           && every_zero "Lock" (filter_Boolean (doorsOf sts))
           && every_zero "Open" (filter_Boolean (windowsOf sts))
           && eq_num (ochain s ["Body"; "Trunk"; "Open"]) 0
           && eq_num (ochain s ["Body"; "Hood"; "Open"]) 0
           && eq_num (ochain s ["Body"; "Sunroof"; "Glass"; "Open"]) 0)
  ∧ field m "locked" = VBool (every_zero "Lock" (filter_Boolean (doorsOf sts)))
  ∧ field m "Date" = field sts "Date"
  ∧ field m "alarm_bat"
    = VBool (js_lt parse_number format (field m "measure_battery.12V")
               (field settings "batteryAlarmLevel")
             || js_lt parse_number format (field m "measure_battery")
                  (field settings "EVbatteryAlarmLevel"))
  ∧ (let targetTemp :=
       match ochain s ["Cabin"; "HVAC"; "Row1"; "Driver"; "Temperature"; "Value"] with
       | VStr t => match Number parse_number (VStr t) with
                   | VNaN => VStr t
                   | n => n
                   end
       | t => t
       end in
     field m "climate_control" = VBool (negb (eq_str targetTemp "OFF"))
     ∧ field m "target_temperature"
       = if eq_str targetTemp "OFF" then getCapabilityValue "target_temperature"
         else targetTemp).
Proof.
  unfold mapNew. intros H. returned H. subst m. cbv zeta.
  repeat split; read_back; try done;
    by destruct (ochain (VObj sts)
                   ["Cabin"; "HVAC"; "Row1"; "Driver"; "Temperature"; "Value"]).
Qed.

(** What the old branch writes, and the two steps of it that can raise. *)
Lemma mapOld_fields sts map m :
  mapOld'' sts map = Ok m →
  (if truthy (field sts "airCtrlOn")
   then code ← get (field sts "airTemp") "value"; getTempFromCode code
   else Ok (getCapabilityValue "target_temperature"))
  = Ok (field m "target_temperature")
  ∧ closedLockedOld sts = Ok (field m "closed_locked")
  ∧ field m "climate_control" = field sts "airCtrlOn"
  ∧ field m "locked" = field sts "doorLock"
  ∧ field m "Date" = field sts "time"
  ∧ field m "measure_range"
    = (let range :=
         vor (ochain (VObj sts) ["evStatus"; "drvDistance"; "0"; "rangeByFuel";
                                 "totalAvailableRange"; "value"])
             (ochain (VObj sts) ["dte"; "value"]) in
       match range with
       | VUndefined => VNull
       | _ => if js_lt parse_number format range (VNum 0) then VNull else range
       end)
  ∧ field m "alarm_bat"
    = VBool (js_lt parse_number format (field m "measure_battery.12V")
               (field settings "batteryAlarmLevel")
             || js_lt parse_number format (field m "measure_battery")
                  (field settings "EVbatteryAlarmLevel")).
Proof.
  unfold mapOld. intros H. returned H. subst m. cbv zeta.
  rewrite E, E0.
  destruct (truthy (ochain (VObj sts) ["evStatus"; "reservChargeInfos"; "targetSOClist"]));
    returned E1; subst a1; repeat split; by read_back.
Qed.

(** The old branch without charge targets returns exactly when its two
    plain property reads go well. *)
Lemma mapOld_returns sts map :
  truthy (ochain (VObj sts) ["evStatus"; "reservChargeInfos"; "targetSOClist"]) = false →
  returned_ok (mapOld'' sts map)
  ↔ (truthy (field sts "airCtrlOn") = true →
       nullish (field sts "airTemp") = false
       ∧ returned_ok (getTempFromCode (prop (field sts "airTemp") "value")))
    ∧ (truthy (field sts "doorLock") = true →
       truthy (field sts "trunkOpen") = false →
       truthy (field sts "hoodOpen") = false →
       nullish (field sts "doorOpen") = false).
Proof.
  intros Hl. unfold mapOld. cbv zeta. rewrite Hl.
  unfold closedLockedOld, keys, get, prop.
  destruct (truthy (field sts "airCtrlOn")).
  - destruct (field sts "airTemp") eqn:Ea; cbn [mbind res_bind nullish];
      try (split; [done|intros [H _]; by destruct (H eq_refl)]);
      (destruct (getTempFromCode _) as [temp|e]; cbn [mbind res_bind returned_ok];
       [|split; [done|intros [H _]; by destruct (H eq_refl)]]);
      (destruct (truthy (field sts "doorLock")); cbn [negb mbind res_bind returned_ok];
       [|split; [intros _; split; [done|discriminate]|done]]);
      (destruct (truthy (field sts "trunkOpen")); cbn [mbind res_bind returned_ok];
       [split; [intros _; split; [done|discriminate]|done]|]);
      (destruct (truthy (field sts "hoodOpen")); cbn [mbind res_bind returned_ok];
       [split; [intros _; split; [done|discriminate]|done]|]);
      (destruct (field sts "doorOpen"); cbn [mbind res_bind returned_ok nullish];
       split; try done; try (intros _; split; done);
       intros [_ H]; by specialize (H eq_refl eq_refl eq_refl)).
  - cbn [mbind res_bind].
    destruct (truthy (field sts "doorLock")); cbn [negb mbind res_bind returned_ok];
      [|split; [intros _; split; discriminate|done]].
    destruct (truthy (field sts "trunkOpen")); cbn [mbind res_bind returned_ok];
      [split; [intros _; split; discriminate|done]|].
    destruct (truthy (field sts "hoodOpen")); cbn [mbind res_bind returned_ok];
      [split; [intros _; split; discriminate|done]|].
    destruct (field sts "doorOpen"); cbn [mbind res_bind returned_ok nullish];
      split; try done; try (intros _; split; [discriminate|done]);
      intros [_ H]; by specialize (H eq_refl eq_refl eq_refl).
Qed.

Lemma VBool_inj (a b : bool) : VBool a = VBool b → a = b.
Proof. congruence. Qed.

Lemma every_zero_filter (k : string) (l : list value) :
  every_zero k (filter_Boolean l) = true
  ↔ ∀ d, In d l → truthy d = true → eq_num (prop d k) 0 = true.
Proof.
  unfold every_zero, filter_Boolean. rewrite forallb_forall. split.
  - intros H d Hd Ht. apply H. apply filter_In. done.
  - intros H d Hd. apply filter_In in Hd as [Hd Ht]. by apply H.
Qed.

(** X8.  A payload of none of the three shapes (no [vehicleStatus], no
    [time], no [Date]) is mapped to the empty record, without an error. *)
Theorem X8_unknown_shape_gives_empty_record (status : value) :
  truthy status = true →
  truthy (field (spread status) "vehicleStatus") = false →
  truthy (field (spread status) "time") = false →
  truthy (field (spread status) "Date") = false →
  mapStatus'' status = Ok [].
Proof.
  intros Ht Hv Htime HDate. unfold mapStatus. rewrite Ht, Hv. cbn [negb mbind res_bind].
  by rewrite Htime, HDate.
Qed.

(** X9.  For a new type status [mapStatus] reports [closed_locked]
    exactly when trunk, hood and sunroof glass each report [Open === 0]
    and every door and window object that is present reports [Open === 0],
    the doors also [Lock === 0]: a missing trunk, hood or sunroof report
    keeps it [false], a missing door or window does not. *)
Theorem X9_new_closed_locked (status : value) (m : obj) :
  truthy status = true →
  mapStatus'' status = Ok m →
  truthy (field (stsOf status) "Date") = true →
  let sts := stsOf status in
  (field m "closed_locked" = VBool true ∨ field m "closed_locked" = VBool false)
  ∧ (field m "closed_locked" = VBool true
     ↔ eq_num (ochain (VObj sts) ["Body"; "Trunk"; "Open"]) 0 = true
       ∧ eq_num (ochain (VObj sts) ["Body"; "Hood"; "Open"]) 0 = true
       ∧ eq_num (ochain (VObj sts) ["Body"; "Sunroof"; "Glass"; "Open"]) 0 = true
       ∧ (∀ d, In d (doorsOf sts) → truthy d = true →
            eq_num (prop d "Open") 0 = true ∧ eq_num (prop d "Lock") 0 = true)
       ∧ (∀ w, In w (windowsOf sts) → truthy w = true →
            eq_num (prop w "Open") 0 = true)).
Proof.
  intros Ht Hm HDate sts.
  destruct (mapStatus_branches _ _ _ _ _ _ _ _ _ Hm Ht) as (m0 & m1 & _ & _ & Hnew).
  rewrite HDate in Hnew. apply mapNew_fields in Hnew as (Hc & _).
  fold sts in Hc. rewrite Hc. split.
  - match goal with |- VBool ?b = _ ∨ _ => destruct b end; auto.
  - split.
    + intros H. apply VBool_inj in H.
      apply andb_true_iff in H as [H Hs]. apply andb_true_iff in H as [H Hh].
      apply andb_true_iff in H as [H Htr]. apply andb_true_iff in H as [H Hw].
      apply andb_true_iff in H as [Ho Hl].
      pose proof (proj1 (every_zero_filter _ _) Ho) as Ho'.
      pose proof (proj1 (every_zero_filter _ _) Hl) as Hl'.
      pose proof (proj1 (every_zero_filter _ _) Hw) as Hw'.
      repeat split; auto.
    + intros (H1 & H2 & H3 & H4 & H5). f_equal.
      repeat (apply andb_true_iff; split); try done;
        apply every_zero_filter; intros d Hd Hdt;
        first [apply H4; done | apply H5; done].
Qed.

(** X10.  For an old type status (no [Date]) the reported [measure_range]
    is never [undefined] and never a negative number: [null] stands in
    for both. *)
Theorem X10_old_range_never_negative (status : value) (m : obj) :
  truthy status = true →
  mapStatus'' status = Ok m →
  truthy (field (stsOf status) "time") = true →
  truthy (field (stsOf status) "Date") = false →
  field m "measure_range" ≠ VUndefined
  ∧ ∀ q, field m "measure_range" = VNum q → (0 <= q)%Q.
Proof.
  intros Ht Hm Htime HDate.
  destruct (mapStatus_branches _ _ _ _ _ _ _ _ _ Hm Ht) as (m0 & m1 & _ & Hold & Hnew).
  rewrite Htime in Hold. rewrite HDate in Hnew. subst m1.
  apply mapOld_fields in Hold as (_ & _ & _ & _ & _ & Hr & _).
  rewrite Hr. cbv zeta.
  set (range := vor _ _). split.
  - destruct range; try done; by destruct (js_lt _ _ _ _).
  - intros q Hq.
    assert (Hrange : range = VNum q ∧ js_lt parse_number format (VNum q) (VNum 0) = false).
    { destruct range; try discriminate Hq;
        destruct (js_lt parse_number format _ (VNum 0)) eqn:E;
        try discriminate Hq; injection Hq as ->; done. }
    destruct Hrange as [_ Hlt]. apply Qnot_lt_le. intros Hneg.
    unfold js_lt in Hlt. apply (gt_numbers parse_number format 0 q) in Hneg. congruence.
Qed.

Lemma mapStatus_old_simple (status : value) :
  truthy status = true →
  truthy (field (spread status) "vehicleStatus") = false →
  truthy (field (spread status) "time") = true →
  truthy (field (spread status) "Date") = false →
  mapStatus'' status = (map ← mapOld'' (spread status) []; Ok map).
Proof.
  intros Ht Hv Htime HDate. unfold mapStatus. rewrite Ht, Hv. cbn [negb mbind res_bind].
  rewrite Htime, HDate. by destruct (mapOld'' (spread status) []).
Qed.

(** X11.  [mapStatus] on an old simple status without charge targets
    returns exactly when (1) the climate control is off, or [airTemp] is
    there and its code converts, and (2) the car is unlocked, or trunk or
    hood is open, or the [doorOpen] map is there.  Every other such
    payload ends in an exception. *)
Theorem X11_old_simple_returns (status : value) :
  truthy status = true →
  truthy (field (spread status) "vehicleStatus") = false →
  truthy (field (spread status) "time") = true →
  truthy (field (spread status) "Date") = false →
  truthy (ochain (VObj (spread status))
            ["evStatus"; "reservChargeInfos"; "targetSOClist"]) = false →
  returned_ok (mapStatus'' status)
  ↔ (truthy (field (spread status) "airCtrlOn") = true →
       nullish (field (spread status) "airTemp") = false
       ∧ returned_ok (getTempFromCode (prop (field (spread status) "airTemp") "value")))
    ∧ (truthy (field (spread status) "doorLock") = true →
       truthy (field (spread status) "trunkOpen") = false →
       truthy (field (spread status) "hoodOpen") = false →
       nullish (field (spread status) "doorOpen") = false).
Proof.
  intros Ht Hv Htime HDate Hl.
  rewrite (mapStatus_old_simple status Ht Hv Htime HDate).
  rewrite <- (mapOld_returns (spread status) [] Hl).
  by destruct (mapOld'' (spread status) []).
Qed.

(** X12.  The target temperature is only taken from the car while the
    climate control is on.  Old status: with [airCtrlOn] falsy the stored
    capability value is kept.  New status: the text "OFF" reports the
    climate control off and keeps the stored value; a text that reads as
    a number is handed on as that number, with the climate control on. *)
Theorem X12_target_temperature (status : value) (m : obj) :
  truthy status = true →
  mapStatus'' status = Ok m →
  (truthy (field (stsOf status) "time") = true →
   truthy (field (stsOf status) "Date") = false →
   truthy (field (stsOf status) "airCtrlOn") = false →
   field m "target_temperature" = getCapabilityValue "target_temperature")
  ∧ (truthy (field (stsOf status) "Date") = true →
     parse_number (VStr "OFF") = None →
     ochain (VObj (stsOf status)) ["Cabin"; "HVAC"; "Row1"; "Driver"; "Temperature"; "Value"]
     = VStr "OFF" →
     field m "climate_control" = VBool false
     ∧ field m "target_temperature" = getCapabilityValue "target_temperature")
  ∧ (truthy (field (stsOf status) "Date") = true →
     ∀ t q,
       ochain (VObj (stsOf status)) ["Cabin"; "HVAC"; "Row1"; "Driver"; "Temperature"; "Value"]
       = VStr t →
       parse_number (VStr t) = Some q →
       field m "climate_control" = VBool true
       ∧ field m "target_temperature" = VNum q).
Proof.
  intros Ht Hm.
  destruct (mapStatus_branches _ _ _ _ _ _ _ _ _ Hm Ht) as (m0 & m1 & _ & Hold & Hnew).
  split; [|split].
  - intros Htime HDate Hac. rewrite Htime in Hold. rewrite HDate in Hnew. subst m1.
    apply mapOld_fields in Hold as (Htemp & _). rewrite Hac in Htemp. congruence.
  - intros HDate Hoff Hv. rewrite HDate in Hnew.
    apply mapNew_fields in Hnew as (_ & _ & _ & _ & Hcl & Htt).
    cbv zeta in Hcl, Htt. rewrite Hv in Hcl, Htt.
    unfold Number in Hcl, Htt. cbn [to_number] in Hcl, Htt. rewrite Hoff in Hcl, Htt.
    done.
  - intros HDate t q Hv Hq. rewrite HDate in Hnew.
    apply mapNew_fields in Hnew as (_ & _ & _ & _ & Hcl & Htt).
    cbv zeta in Hcl, Htt. rewrite Hv in Hcl, Htt.
    unfold Number in Hcl, Htt. cbn [to_number] in Hcl, Htt. rewrite Hq in Hcl, Htt.
    done.
Qed.

(** X13.  In a record [mapStatus] returns for an old status (no [Date])
    or a new one, [alarm_bat] is computed from the battery levels of that
    same record: with numeric alarm levels it is [true] exactly when the
    reported 12V level is below the 12V alarm level or the reported
    traction battery level is below the EV alarm level; a level that is
    not reported raises no alarm. *)
Theorem X13_alarm_bat (status : value) (m : obj) (level evLevel : Q) :
  truthy status = true →
  mapStatus'' status = Ok m →
  truthy (field (stsOf status) "time") = true
  ∨ truthy (field (stsOf status) "Date") = true →
  field settings "batteryAlarmLevel" = VNum level →
  field settings "EVbatteryAlarmLevel" = VNum evLevel →
  (field m "measure_battery.12V" = VUndefined ∨ ∃ b, field m "measure_battery.12V" = VNum b) →
  (field m "measure_battery" = VUndefined ∨ ∃ e, field m "measure_battery" = VNum e) →
  (field m "alarm_bat" = VBool true
   ↔ (∃ b, field m "measure_battery.12V" = VNum b ∧ (b < level)%Q)
     ∨ (∃ e, field m "measure_battery" = VNum e ∧ (e < evLevel)%Q))
  ∧ (field m "alarm_bat" = VBool true ∨ field m "alarm_bat" = VBool false).
Proof.
  intros Ht Hm Hshape Hlevel Hev H12 Hbat.
  assert (Ha : field m "alarm_bat"
               = VBool (js_lt parse_number format (field m "measure_battery.12V")
                          (field settings "batteryAlarmLevel")
                        || js_lt parse_number format (field m "measure_battery")
                             (field settings "EVbatteryAlarmLevel"))).
  { destruct (mapStatus_branches _ _ _ _ _ _ _ _ _ Hm Ht) as (m0 & m1 & _ & Hold & Hnew).
    destruct (truthy (field (stsOf status) "Date")).
    - by apply mapNew_fields in Hnew as (_ & _ & _ & Hal & _).
    - subst m1. destruct Hshape as [Htime|]; [|discriminate]. rewrite Htime in Hold.
      by apply mapOld_fields in Hold as (_ & _ & _ & _ & _ & _ & Hal). }
  rewrite Ha, Hlevel, Hev. split.
  2:{ match goal with |- VBool ?b = _ ∨ _ => destruct b end; auto. }
  assert (Hlt : ∀ v l, (v = VUndefined ∨ ∃ x, v = VNum x) →
                  (js_lt parse_number format v (VNum l) = true
                   ↔ ∃ x, v = VNum x ∧ (x < l)%Q)).
  { intros v l [-> | [x ->]].
    - split; [discriminate|]. intros (x & Hx & _). discriminate.
    - unfold js_lt. rewrite gt_numbers. split.
      + intros Hx. by exists x.
      + intros (y & Hy & Hlt). by injection Hy as ->. }
  split.
  - intros H. apply VBool_inj, orb_true_iff in H as [H|H].
    + left. by apply Hlt.
    + right. by apply Hlt.
  - intros [H|H]; f_equal; apply orb_true_iff; [left|right]; by apply Hlt.
Qed.

End MoreNormalizerFacts.

Abbreviation hostMapStatus :=
  (mapStatus Host.parse_number Host.format Host.settings Host.getCapabilityValue
     Host.geoDistance Host.getCarLocString Host.getTempFromCode).

(** A payload that only carries a result code. *)
Lemma X8_unknown_shape_gives_empty_record_witness :
  truthy strangeStatus = true ∧ hostMapStatus strangeStatus = Ok [].
Proof.
  split; [reflexivity|].
  apply X8_unknown_shape_gives_empty_record; reflexivity.
Defined.

(** The closed car: three doors and all windows are not reported. *)
Lemma X9_new_closed_locked_witness :
  truthy closedStatus = true
  ∧ ∃ m, hostMapStatus closedStatus = Ok m ∧ field m "closed_locked" = VBool true.
Proof.
  split; [reflexivity|].
  eexists. split; [vm_compute; reflexivity|].
  apply (proj2 (X9_new_closed_locked Host.parse_number Host.format Host.settings
                  Host.getCapabilityValue Host.geoDistance Host.getCarLocString
                  Host.getTempFromCode closedStatus _ eq_refl eq_refl eq_refl)).
  split; [reflexivity|]. split; [reflexivity|]. split; [reflexivity|]. split.
  - intros d [<-|[<-|[<-|[<-|[]]]]] Hd; try discriminate Hd. split; reflexivity.
  - intros w [<-|[<-|[<-|[<-|[]]]]] Hw; discriminate Hw.
Defined.

(** A reported range of -1 becomes [null]. *)
Lemma X10_old_range_never_negative_witness :
  truthy sorentoStatus = true
  ∧ ochain sorentoStatus ["dte"; "value"] = VNum (-1)
  ∧ ∃ m, hostMapStatus sorentoStatus = Ok m
         ∧ field m "measure_range" = VNull
         ∧ field m "measure_range" ≠ VUndefined.
Proof.
  split; [reflexivity|]. split; [reflexivity|].
  eexists. split; [vm_compute; reflexivity|]. split; [reflexivity|].
  exact (proj1 (X10_old_range_never_negative Host.parse_number Host.format Host.settings
                  Host.getCapabilityValue Host.geoDistance Host.getCarLocString
                  Host.getTempFromCode sorentoStatus _ eq_refl eq_refl eq_refl eq_refl)).
Defined.

(** An unlocked car with the climate control off: nothing can raise. *)
Lemma X11_old_simple_returns_witness :
  truthy sorentoStatus = true
  ∧ truthy (field (spread sorentoStatus) "airCtrlOn") = false
  ∧ truthy (field (spread sorentoStatus) "doorLock") = false
  ∧ returned_ok (hostMapStatus sorentoStatus).
Proof.
  split; [reflexivity|]. split; [reflexivity|]. split; [reflexivity|].
  apply (proj2 (X11_old_simple_returns Host.parse_number Host.format Host.settings
                  Host.getCapabilityValue Host.geoDistance Host.getCarLocString
                  Host.getTempFromCode sorentoStatus
                  eq_refl eq_refl eq_refl eq_refl eq_refl)).
  split; intros H; discriminate H.
Defined.

(** The closed car reports "OFF": the stored value (none yet) is kept. *)
Lemma X12_target_temperature_witness :
  truthy closedStatus = true
  ∧ Host.parse_number (VStr "OFF") = None
  ∧ ∃ m, hostMapStatus closedStatus = Ok m
         ∧ field m "climate_control" = VBool false
         ∧ field m "target_temperature" = Host.getCapabilityValue "target_temperature".
Proof.
  split; [reflexivity|]. split; [reflexivity|].
  eexists. split; [vm_compute; reflexivity|].
  exact (proj1 (proj2 (X12_target_temperature Host.parse_number Host.format Host.settings
                         Host.getCapabilityValue Host.geoDistance Host.getCarLocString
                         Host.getTempFromCode closedStatus _ eq_refl eq_refl))
           eq_refl eq_refl eq_refl).
Defined.

(** A 12V battery at 40 percent with the alarm level at 50. *)
Lemma X13_alarm_bat_witness :
  truthy sorentoStatus = true
  ∧ field Host.settings "batteryAlarmLevel" = VNum 50
  ∧ ∃ m, hostMapStatus sorentoStatus = Ok m
         ∧ field m "measure_battery.12V" = VNum 40
         ∧ field m "alarm_bat" = VBool true.
Proof.
  split; [reflexivity|]. split; [reflexivity|].
  eexists. split; [vm_compute; reflexivity|]. split; [reflexivity|].
  apply (proj1 (X13_alarm_bat Host.parse_number Host.format Host.settings
                  Host.getCapabilityValue Host.geoDistance Host.getCarLocString
                  Host.getTempFromCode sorentoStatus _ 50 20 eq_refl eq_refl
                  (or_introl eq_refl) eq_refl eq_refl
                  (or_intror (ex_intro _ 40%Q eq_refl)) (or_introl eq_refl))).
  left. exists 40%Q. split; reflexivity.
Defined.

(* ===================================================================== *)
(** * Further facts about the classifier and the odometer repair         *)
(* ===================================================================== *)

(** X14.  [isParking] answers [false] whenever the engine is reported on,
    wherever the car is; with the engine off and numeric coordinates it
    answers [true] exactly when the latitude or the longitude lies more
    than 0.0003 degrees from the stored park location. *)
Theorem X14_isParking_needs_engine_off
    (parse_number : value → option Q) (format : value → string)
    (parkLocation info : obj) :
  (truthy (field info "engine") = true →
   isParking parse_number format parkLocation info = false)
  ∧ (∀ la lo pla plo : Q,
       truthy (field info "engine") = false →
       field info "latitude" = VNum la →
       field info "longitude" = VNum lo →
       field parkLocation "latitude" = VNum pla →
       field parkLocation "longitude" = VNum plo →
       (isParking parse_number format parkLocation info = true
        ↔ (3 # 10000 < Qabs (la - pla))%Q ∨ (3 # 10000 < Qabs (lo - plo))%Q)).
Proof.
  unfold isParking. split.
  - intros ->. reflexivity.
  - intros la lo pla plo -> -> -> -> ->. cbn [negb andb].
    rewrite !abs_sub_numbers, orb_true_iff, !gt_numbers. tauto.
Qed.

(** A car 0.001 degrees from its park location, engine off. *)
Lemma X14_isParking_needs_engine_off_witness :
  truthy (field parkedElsewhere "engine") = false
  ∧ isParking Host.parse_number Host.format seenBefore parkedElsewhere = true
  ∧ isParking Host.parse_number Host.format seenBefore
      (assign parkedElsewhere "engine" (VBool true)) = false.
Proof.
  split; [reflexivity|]. split.
  - apply (proj2 (X14_isParking_needs_engine_off Host.parse_number Host.format
                    seenBefore parkedElsewhere)
             (52001 # 1000)%Q 5%Q 52%Q 5%Q eq_refl eq_refl eq_refl eq_refl eq_refl).
    left. reflexivity.
  - apply (proj1 (X14_isParking_needs_engine_off Host.parse_number Host.format
                    seenBefore (assign parkedElsewhere "engine" (VBool true)))).
    reflexivity.
Defined.

(** X15.  The odometer repair of [doPoll] writes no field but
    [measure_odo], leaves a truthy odometer alone, and always leaves a
    truthy [measure_odo] behind, so that repairing once more, against any
    previous status, changes nothing. *)
Theorem X15_repair_frame (lastStatus lastStatus' : value) (stsMapped : obj) :
  (∀ k, k ≠ "measure_odo" →
     field (repairOdo lastStatus stsMapped) k = field stsMapped k)
  ∧ (truthy (field stsMapped "measure_odo") = true →
     repairOdo lastStatus stsMapped = stsMapped)
  ∧ truthy (field (repairOdo lastStatus stsMapped) "measure_odo") = true
  ∧ repairOdo lastStatus' (repairOdo lastStatus stsMapped)
    = repairOdo lastStatus stsMapped.
Proof.
  assert (Ht : truthy (field (repairOdo lastStatus stsMapped) "measure_odo") = true).
  { unfold repairOdo. destruct (truthy (field stsMapped "measure_odo")) eqn:E; [exact E|].
    cbn [negb]. by rewrite field_assign, String.eqb_refl. }
  split; [|split; [|split; [exact Ht|]]].
  - intros k Hk. unfold repairOdo.
    destruct (truthy (field stsMapped "measure_odo")); [done|]. cbn [negb].
    rewrite field_assign. destruct (String.eqb_spec "measure_odo" k); [congruence|done].
  - intros H. unfold repairOdo. by rewrite H.
  - unfold repairOdo at 1. by rewrite Ht.
Qed.

(** The repair on a first poll whose odometer is 0: the other fields stay. *)
Lemma X15_repair_frame_witness :
  "latitude" ≠ "measure_odo"
  ∧ field (repairOdo VUndefined [("measure_odo", VNum 0); ("latitude", VNum 52)]) "latitude"
    = VNum 52
  ∧ truthy (field [("measure_odo", VNum 7)] "measure_odo") = true
  ∧ repairOdo VUndefined [("measure_odo", VNum 7)] = [("measure_odo", VNum 7)].
Proof.
  split; [discriminate|]. split.
  - apply (proj1 (X15_repair_frame VUndefined VUndefined
                    [("measure_odo", VNum 0); ("latitude", VNum 52)])).
    discriminate.
  - split; [reflexivity|].
    apply (proj1 (proj2 (X15_repair_frame VUndefined VUndefined [("measure_odo", VNum 7)]))).
    reflexivity.
Defined.

(* ===================================================================== *)
(** * Facts about polling                                                *)
(* ===================================================================== *)

Section PollingFacts.

Variable parse_number : value → option Q.
Variable format : value → string.
Variable settings : obj.
Variable getCapabilityValue : string → value.
Variable hasCapability : string → bool.

(** X16.  [handleInfo] fires [has_parked] exactly when [isParking] says
    so; it then makes the record the new park location, stores it and
    hands its address to the trigger, and otherwise leaves the park
    location alone.  Handling the same record once more against the park
    location it left behind never fires [has_parked] again, whatever the
    capabilities and the clock then are. *)
Theorem X16_parked_fires_once
    (getCapabilityValue' : string → value) (hasCapability' : string → bool)
    (text text' : string) (parkLocation : obj) (lastRefresh now lastRefresh' now' : value)
    (info : obj) :
  let h := handleInfo parse_number format getCapabilityValue hasCapability
             text parkLocation lastRefresh now info in
  let h' := handleInfo parse_number format getCapabilityValue' hasCapability'
              text' (newParkLocation h) lastRefresh' now' info in
  (In "has_parked" (fired h) ↔ isParking parse_number format parkLocation info = true)
  ∧ (In "has_parked" (fired h) →
       newParkLocation h = info ∧ stored h = true
       ∧ field (tokens h) "address" = field info "address")
  ∧ (¬ In "has_parked" (fired h) →
       newParkLocation h = parkLocation ∧ stored h = false ∧ tokens h = [])
  ∧ ¬ In "has_parked" (fired h')
  ∧ newParkLocation h' = newParkLocation h.
Proof.
  cbv zeta.
  assert (Hf : ∀ gc hc t p lr n,
             In "has_parked"
               (fired (handleInfo parse_number format gc hc t p lr n info))
             ↔ isParking parse_number format p info = true).
  { intros gc hc t p lr n. unfold handleInfo. cbn [fired].
    rewrite !in_app_iff.
    destruct (isMoving _ _ _ _), (isParking _ _ _ _), (js_lt _ _ _ _);
      cbn; intuition congruence. }
  assert (Hself : isParking parse_number format info info = false).
  { unfold isParking. rewrite !no_displacement by reflexivity.
    by destruct (truthy (field info "engine")). }
  split; [apply Hf|]. split; [|split; [|split]].
  - intros H. apply Hf in H. unfold handleInfo.
    cbn [newParkLocation stored tokens]. rewrite H. cbn [spread].
    split; [done|]. split; [done|]. by read_back.
  - intros H. assert (E : isParking parse_number format parkLocation info = false).
    { apply not_true_is_false. intros E. by apply H, Hf. }
    unfold handleInfo. cbn [newParkLocation stored tokens]. by rewrite E.
  - intros H. apply Hf in H. revert H.
    unfold handleInfo at 1. cbn [newParkLocation].
    destruct (isParking parse_number format parkLocation info) eqn:E; cbn [spread].
    + by rewrite Hself.
    + by rewrite E.
  - unfold handleInfo at 1. cbn [newParkLocation].
    destruct (isParking parse_number format (newParkLocation _) info) eqn:E; [|done].
    exfalso. revert E. unfold handleInfo. cbn [newParkLocation].
    destruct (isParking parse_number format parkLocation info) eqn:E'; cbn [spread].
    + by rewrite Hself.
    + by rewrite E'.
Qed.

Lemma strict_eq_undefined (v : value) :
  strict_eq v VUndefined = true ↔ v = VUndefined.
Proof. destruct v; cbn; split; intros H; done. Qed.

Lemma setCapability_in (c c' : string) (v v' : value) :
  In (c', v') (setCapability hasCapability c v)
  ↔ c' = c ∧ v' = v ∧ hasCapability c = true ∧ v ≠ VUndefined.
Proof.
  unfold setCapability.
  destruct (hasCapability c); cbn [andb].
  - destruct (strict_eq v VUndefined) eqn:E; cbn [negb In].
    + apply strict_eq_undefined in E. split; [done|]. by intros (_ & _ & _ & H).
    + split.
      * intros [[= <- <-]|[]]. repeat split; try done.
        intros ->. by rewrite (proj2 (strict_eq_undefined _)) in E.
      * intros (-> & -> & _). by left.
  - cbn [In]. split; [done|]. by intros (_ & _ & H & _).
Qed.

(** X17.  [handleInfo] sets a capability only if the device has it and
    only to a value other than [undefined]; every entry of the record
    that passes both tests is set, and besides the entries of the record
    only [last_refresh] is set, to the text of the last refresh, once a
    refresh has been made. *)
Theorem X17_capability_writes_are_guarded
    (text : string) (parkLocation : obj) (lastRefresh now : value) (info : obj) :
  let h := handleInfo parse_number format getCapabilityValue hasCapability
             text parkLocation lastRefresh now info in
  (∀ c v, In (c, v) (written h) → hasCapability c = true ∧ v ≠ VUndefined)
  ∧ (∀ c v, In (c, v) info → hasCapability c = true → v ≠ VUndefined →
            In (c, v) (written h))
  ∧ (∀ c v, In (c, v) (written h) →
            In (c, v) info
            ∨ (c = "last_refresh" ∧ v = VStr text ∧ truthy lastRefresh = true)).
Proof.
  cbv zeta. unfold handleInfo. cbn [written].
  split; [|split].
  - intros c v H. apply in_app_iff in H as [H|H].
    + apply in_flat_map in H as [[c' v'] [_ H]].
      apply setCapability_in in H as (-> & -> & H1 & H2). by split.
    + destruct (truthy lastRefresh); [|done].
      apply setCapability_in in H as (-> & -> & H1 & H2). by split.
  - intros c v Hin Hc Hv. apply in_app_iff. left.
    apply in_flat_map. exists (c, v). split; [done|].
    by apply setCapability_in.
  - intros c v H. apply in_app_iff in H as [H|H].
    + left. apply in_flat_map in H as [[c' v'] [Hin H]].
      by apply setCapability_in in H as (-> & -> & _).
    + right. destruct (truthy lastRefresh); [|done].
      by apply setCapability_in in H as (-> & -> & _).
Qed.

Lemma lt_numbers (x y : Q) :
  js_lt parse_number format (VNum x) (VNum y) = true ↔ (x < y)%Q.
Proof. unfold js_lt. apply gt_numbers. Qed.

Section ForcedInterval.

Variable fmul : value → value → value.
Variable fdiv : value → value → value.

(** X18.  In engine-on poll mode the car is always asked for fresh data,
    whatever the 12 V battery reads.  Out of that mode it is asked only
    when the last 12 V reading lies above the alarm level and either the
    caller forces it or the forced interval has passed; with no last
    reading it is never asked, not even when the caller forces it. *)
Theorem X18_refresh_protects_battery
    (st : pollState) (args : obj) (now1 now2 lastRefresh lastStatus : value) :
  let r := refresh parse_number format settings getCapabilityValue fmul fdiv
             st args now1 now2 lastRefresh lastStatus in
  (truthy (pollMode st) = true → r = pollMode st)
  ∧ (truthy (pollMode st) = false →
       (truthy r = true ↔
          batSoCGood parse_number format settings lastStatus = true
          ∧ (truthy (argOr args "forceOnce" (VBool false)) = true
             ∨ truthy (forcePollInterval parse_number format settings getCapabilityValue
                         fmul fdiv now1 now2 lastRefresh) = true))
       ∧ (oget lastStatus "measure_battery.12V" = VUndefined → r = VBool false)).
Proof.
  cbv zeta. split.
  - intros E. unfold refresh, vor at 1. by rewrite E.
  - intros Em. split.
    + unfold refresh, vor at 1. rewrite Em. unfold vand at 1. cbn [truthy].
      destruct (batSoCGood parse_number format settings lastStatus).
      * unfold vor. destruct (truthy (argOr args "forceOnce" (VBool false))) eqn:E.
        -- rewrite E. split; [by auto|done].
        -- split; [by auto|]. by intros [_ [|]].
      * cbn [truthy]. split; [done|]. by intros [].
    + intros E. unfold refresh, vor at 1. rewrite Em.
      unfold batSoCGood. rewrite E. unfold js_gt.
      cbn [is_stringy andb to_number]. done.
Qed.

(** X19.  The forced interval never comes due before a first refresh
    has been recorded ([lastRefresh] still [undefined]), whatever the
    setting, the clock and the battery say, nor while the forced-interval
    setting is falsy.  Out of engine-on poll mode the car is then asked
    for fresh data exactly when the caller forces it and the last 12 V
    reading lies above the alarm level. *)
Theorem X19_forced_interval
    (st : pollState) (args : obj) (now1 now2 lastRefresh lastStatus : value) :
  let due := forcePollInterval parse_number format settings getCapabilityValue
               fmul fdiv now1 now2 lastRefresh in
  (truthy due = true →
   truthy (field settings "pollIntervalForced") = true ∧ lastRefresh ≠ VUndefined)
  ∧ (lastRefresh = VUndefined → truthy (pollMode st) = false →
     (truthy (refresh parse_number format settings getCapabilityValue fmul fdiv
                st args now1 now2 lastRefresh lastStatus) = true
      ↔ batSoCGood parse_number format settings lastStatus = true
        ∧ truthy (argOr args "forceOnce" (VBool false)) = true)).
Proof.
  cbv zeta.
  assert (Hnan : ∀ a now, js_lt parse_number format a
                            (js_sub parse_number now VUndefined) = false).
  { intros a now. unfold js_sub, js_lt, js_gt. cbn [to_number].
    destruct (to_number parse_number now); cbn [is_stringy andb to_number]; done. }
  assert (Hnan' : ∀ a now, js_gt parse_number format
                             (js_sub parse_number now VUndefined) a = false).
  { intros a now. unfold js_sub, js_gt. cbn [to_number].
    destruct (to_number parse_number now); cbn [is_stringy andb to_number]; done. }
  assert (Hdue : truthy (forcePollInterval parse_number format settings getCapabilityValue
                           fmul fdiv now1 now2 lastRefresh) = true →
                 truthy (field settings "pollIntervalForced") = true
                 ∧ lastRefresh ≠ VUndefined).
  { unfold forcePollInterval, vand.
    destruct (truthy (field settings "pollIntervalForced")) eqn:Ef.
    - intros H. split; [done|]. intros ->. rewrite Hnan in H. cbn [truthy] in H.
      discriminate H.
    - rewrite Ef. by rewrite Ef. }
  split; [exact Hdue|].
  intros -> Em. unfold refresh, vor at 1. rewrite Em. unfold vand at 1. cbn [truthy].
  destruct (batSoCGood parse_number format settings lastStatus); cbn [truthy].
  - unfold vor. destruct (truthy (argOr args "forceOnce" (VBool false))) eqn:E.
    + rewrite E. by split.
    + split; [|by intros [_ ?]]. intros H. by destruct (Hdue H) as [_ ?].
  - split; [done|by intros [? _]].
Qed.

End ForcedInterval.

Lemma engine_on_is_active (isEV : bool) (stsMapped : obj) :
  truthy (field stsMapped "engine") = true →
  truthy (carActive getCapabilityValue isEV stsMapped) = true.
Proof.
  intros H. unfold carActive. cbv zeta. unfold vor at 3. rewrite H.
  unfold vor at 2. rewrite H. unfold vor. by rewrite H.
Qed.

(** X20.  What a poll does to the poll mode: the timer is armed anew
    exactly when the mode changes between normal and engine-on, with the
    interval of the new mode; the mode is left alone otherwise, and never
    becomes engine-on without the engine-on interval being set.  The time
    of last activity moves to the clock exactly when the car is active.
    A car with its engine on, polled in normal mode with the engine-on
    interval set and less than three minutes between the two readings of
    the clock, goes to engine-on mode. *)
Theorem X20_poll_mode_changes
    (isEV : bool) (stsMapped : obj) (now1 now2 : value) (st : pollState) :
  let r := activity parse_number format settings getCapabilityValue
             isEV stsMapped now1 now2 st in
  (∀ i, r.2 = Some i →
        truthy (pollMode r.1) = negb (truthy (pollMode st))
        ∧ i = (if truthy (pollMode r.1)
               then field settings "pollIntervalEngineOn"
               else field settings "pollInterval"))
  ∧ (r.2 = None → pollMode r.1 = pollMode st)
  ∧ (truthy (field settings "pollIntervalEngineOn") = false →
     truthy (pollMode st) = false → truthy (pollMode r.1) = false)
  ∧ carLastActive r.1
    = (if truthy (carActive getCapabilityValue isEV stsMapped)
       then now1 else carLastActive st)
  ∧ (∀ n1 n2 : Q,
       now1 = VNum n1 → now2 = VNum n2 → (n2 - n1 < 180000)%Q →
       truthy (field stsMapped "engine") = true →
       truthy (field settings "pollIntervalEngineOn") = true →
       truthy (pollMode st) = false →
       r = (PollState (VNum 1) now1, Some (field settings "pollIntervalEngineOn"))).
Proof.
  cbv zeta. unfold activity.
  set (last := if truthy (carActive getCapabilityValue isEV stsMapped)
               then now1 else carLastActive st).
  split; [|split; [|split; [|split]]].
  - intros i.
    destruct (truthy (field settings "pollIntervalEngineOn")),
      (truthy (pollMode st)) eqn:Em,
      (js_lt parse_number format (js_sub parse_number now2 last) (VNum (3 * 60 * 1000)));
      cbn; rewrite ?Em; intros [= <-]; done.
  - destruct (truthy (field settings "pollIntervalEngineOn")),
      (truthy (pollMode st)) eqn:Em,
      (js_lt parse_number format (js_sub parse_number now2 last) (VNum (3 * 60 * 1000)));
      cbn; done.
  - intros -> Em. rewrite Em. by cbn.
  - by destruct (truthy (field settings "pollIntervalEngineOn")),
      (truthy (pollMode st)),
      (js_lt parse_number format (js_sub parse_number now2 last) (VNum (3 * 60 * 1000))).
  - intros n1 n2 -> -> Hlt He Hs Hm. subst last.
    rewrite (engine_on_is_active _ _ He), Hs, Hm. cbn [andb negb].
    assert (E : js_lt parse_number format
                  (js_sub parse_number (VNum n2) (VNum n1)) (VNum (3 * 60 * 1000)) = true).
    { change (js_sub parse_number (VNum n2) (VNum n1)) with (VNum (n2 - n1)).
      apply lt_numbers. eapply Qlt_le_trans; [exact Hlt|]. by vm_compute. }
    by rewrite E.
Qed.

End PollingFacts.

(** A car found parked away from the stored park location. *)
Lemma X16_parked_fires_once_witness :
  let h := handleInfo Host.parse_number Host.format fullBattery positionOnly
             "Jul 02 12:00" seenBefore (VNum 1000) (VNum 2000) parkedElsewhere in
  In "has_parked" (fired h)
  ∧ newParkLocation h = parkedElsewhere
  ∧ field (tokens h) "address" = VStr "Dam 1, Amsterdam".
Proof.
  cbv zeta.
  pose proof (X16_parked_fires_once Host.parse_number Host.format fullBattery positionOnly
                fullBattery positionOnly "Jul 02 12:00" "Jul 02 12:00" seenBefore
                (VNum 1000) (VNum 2000) (VNum 1000) (VNum 2000) parkedElsewhere)
    as (Hf & Hp & _).
  assert (H : In "has_parked"
                (fired (handleInfo Host.parse_number Host.format fullBattery positionOnly
                          "Jul 02 12:00" seenBefore (VNum 1000) (VNum 2000)
                          parkedElsewhere))).
  { apply Hf. reflexivity. }
  split; [exact H|]. destruct (Hp H) as (E1 & _ & E2). split; [exact E1|exact E2].
Defined.

(** The latitude of the record is written to a device that holds it. *)
Lemma X17_capability_writes_are_guarded_witness :
  In ("latitude", VNum (52001 # 1000)) parkedElsewhere
  ∧ positionOnly "latitude" = true
  ∧ In ("latitude", VNum (52001 # 1000))
       (written (handleInfo Host.parse_number Host.format fullBattery positionOnly
                   "Jul 02 12:00" seenBefore (VNum 1000) (VNum 2000) parkedElsewhere)).
Proof.
  split; [right; left; reflexivity|]. split; [reflexivity|].
  apply (proj1 (proj2 (X17_capability_writes_are_guarded Host.parse_number Host.format
                         fullBattery positionOnly "Jul 02 12:00" seenBefore
                         (VNum 1000) (VNum 2000) parkedElsewhere))).
  - right; left; reflexivity.
  - reflexivity.
  - discriminate.
Defined.

(** A forced poll on a device that has no last status yet. *)
Lemma X18_refresh_protects_battery_witness :
  truthy (pollMode normalMode) = false
  ∧ oget VUndefined "measure_battery.12V" = VUndefined
  ∧ refresh Host.parse_number Host.format pollSettings fullBattery hostMul hostDiv
      normalMode [("forceOnce", VBool true)] (VNum 2000) (VNum 2000) (VNum 1000)
      VUndefined
    = VBool false.
Proof.
  split; [reflexivity|]. split; [reflexivity|].
  apply (proj2 (X18_refresh_protects_battery Host.parse_number Host.format pollSettings
                  fullBattery hostMul hostDiv normalMode [("forceOnce", VBool true)]
                  (VNum 2000) (VNum 2000) (VNum 1000) VUndefined));
    reflexivity.
Defined.

(** A device that has not recorded a refresh yet, an hour into its life,
    with the forced interval at 5 minutes: not forced, and asked for fresh
    data when the caller forces it. *)
Lemma X19_forced_interval_witness :
  truthy (pollMode normalMode) = false
  ∧ truthy (forcePollInterval Host.parse_number Host.format pollSettings fullBattery
              hostMul hostDiv (VNum 3600000) (VNum 3600000) VUndefined) = false
  ∧ truthy (refresh Host.parse_number Host.format pollSettings fullBattery hostMul hostDiv
              normalMode [("forceOnce", VBool true)] (VNum 3600000) (VNum 3600000)
              VUndefined (VObj [("measure_battery.12V", VNum 80)])) = true.
Proof.
  pose proof (X19_forced_interval Host.parse_number Host.format pollSettings fullBattery
                hostMul hostDiv normalMode [("forceOnce", VBool true)]
                (VNum 3600000) (VNum 3600000) VUndefined
                (VObj [("measure_battery.12V", VNum 80)])) as [H1 H2].
  split; [reflexivity|]. split.
  - apply not_true_is_false. intros H. by destruct (H1 H) as [_ ?].
  - apply (H2 eq_refl eq_refl). split; reflexivity.
Defined.

(** A driving car polled in normal mode. *)
Lemma X20_poll_mode_changes_witness :
  (1001 - 1000 < 180000)%Q
  ∧ truthy (field driving "engine") = true
  ∧ truthy (field pollSettings "pollIntervalEngineOn") = true
  ∧ truthy (pollMode normalMode) = false
  ∧ activity Host.parse_number Host.format pollSettings fullBattery
      false driving (VNum 1000) (VNum 1001) normalMode
    = (PollState (VNum 1) (VNum 1000), Some (VNum 1)).
Proof.
  split; [reflexivity|]. split; [reflexivity|]. split; [reflexivity|].
  split; [reflexivity|].
  apply (proj2 (proj2 (proj2 (proj2
           (X20_poll_mode_changes Host.parse_number Host.format pollSettings fullBattery
              false driving (VNum 1000) (VNum 1001) normalMode))))
           1000%Q 1001%Q); reflexivity.
Defined.

(* ===================================================================== *)
(** * Facts about the controls                                           *)
(* ===================================================================== *)

Section ControlFacts.

Variable parse_number : value → option Q.
Variable format : value → string.
Variable getCapabilityValue : string → value.
Variable hasCapability : string → bool.
Variable isEV : bool.
Variable geoSearch : value → value.
Variable stringify : value → string.

Abbreviation performs :=
  (perform parse_number format getCapabilityValue hasCapability isEV geoSearch stringify).

Lemma setCap_cases (c : string) (v : value) :
  setCap hasCapability c v = [] ∨ setCap hasCapability c v = [SetCap c v].
Proof.
  unfold setCap, setCapability.
  destruct (hasCapability c && negb (strict_eq v VUndefined)); [by right|by left].
Qed.

Lemma or22_truthy (v : value) : truthy (vor v (VNum 22)) = true.
Proof. unfold vor. by destruct (truthy v) eqn:E. Qed.

(** Destructs the tests a control makes. *)
Ltac controls c :=
  destruct c as [v s|v s|v s|v s|v s|v s|v s|v s];
  cbn [perform];
  unfold acOnOff, defrostOnOff, chargingOnOff, lock, setTargetTemp, setChargeTargets,
    setDestination, refreshStatus;
  cbn zeta;
  try destruct (truthy (getCapabilityValue "engine")) eqn:Eengine;
  try destruct (truthy (getCapabilityValue "climate_control")) eqn:Eclimate;
  try destruct isEV eqn:Eev;
  try match goal with
      | |- context [negb (truthy (geoSearch ?p))] =>
          destruct (truthy (geoSearch p)) eqn:Edest;
          cbn [negb];
          try match goal with
              | |- context [match ?m with Ok _ => _ | Throw _ => _ end] =>
                  destruct m as [[[phone postcode] name]|e']
              end
      end;
  try destruct (truthy v) eqn:Ev;
  cbn [negb fst snd].

(** X21.  A command reaches the queue only past the guard of its kind:
    [start] and [stop] only while the [engine] capability is falsy, the
    charge commands only on a device that is an EV; and every command a
    control queues bears one of the nine names listed. *)
Theorem X21_controls_are_guarded (c : call) (x : item) :
  In (Ask x) (performs c).1 →
  (command x = "start" ∨ command x = "stop" →
   truthy (getCapabilityValue "engine") = false)
  ∧ (command x = "startCharge" ∨ command x = "stopCharge"
     ∨ command x = "setChargeTargets" → isEV = true)
  ∧ In (command x)
       ["start"; "stop"; "startCharge"; "stopCharge"; "lock"; "unlock";
        "setChargeTargets"; "setNavigation"; "doPoll"].
Proof.
  controls c; intros H.
  all: try (destruct H; fail).
  all: try (destruct (get _ "slow") as [slow|e]; [destruct (get _ "fast") as [fast|e]|];
            cbn [fst] in H).
  all: try (destruct H; fail).
  all: repeat match type of H with
         | In _ (_ ++ _)%list => apply in_app_iff in H as [H|H]
         | In _ (setCap _ ?c ?v) =>
             destruct (setCap_cases c v) as [E|E]; rewrite E in H
         | In _ (if ?b then _ else _) => destruct b
         | In _ (_ :: _) => destruct H as [H|H]
         | In _ [] => destruct H
         | _ = Ask _ => first [discriminate H | injection H as <-]
         end.
  all: cbn [command]; split; [|split]; try done; try (intros [|]; done);
    try (intros [|[|]]; done); cbn; tauto.
Qed.

(** Reads the actions of a control one by one. *)
Ltac actions H :=
  repeat match type of H with
    | In _ (_ ++ _)%list => apply in_app_iff in H as [H|H]
    | In _ (setCap _ ?c ?v) =>
        destruct (setCap_cases c v) as [E|E]; rewrite E in H
    | In _ (if ?b then _ else _) => destruct b
    | In _ (_ :: _) => destruct H as [H|H]
    | In _ [] => destruct H
    | _ = Ask _ => first [discriminate H | injection H as <-]
    end.

(** X22.  A [start] command never carries a falsy temperature: the
    controls send the target temperature of the device, or the one they
    were given, and 22 in its place when it is falsy. *)
Theorem X22_start_carries_a_temperature (c : call) (a : value) :
  In (Ask (Item "start" a)) (performs c).1 →
  truthy (oget a "temperature") = true
  ∧ ∃ t, oget a "temperature" = vor t (VNum 22)
         ∧ (t = getCapabilityValue "target_temperature"
            ∨ ∃ s, c = SetTargetTemp t s).
Proof.
  controls c; intros H.
  all: try (destruct H; fail).
  all: try (destruct (get _ "slow") as [slow|e]; [destruct (get _ "fast") as [fast|e]|];
            cbn [fst] in H).
  all: actions H.
  all: cbn [oget spread field String.eqb Ascii.eqb Bool.eqb];
    (split; [apply or22_truthy|]).
  all: first [ exists (getCapabilityValue "target_temperature"); split; [done|by left]
             | exists v; split; [done|]; right; by exists s ].
Qed.

(** X23.  A control that returns an error has done nothing: nothing is
    logged, set or queued.  No control queues more than two commands, and
    two are queued only by [defrostOnOff] switching off, which queues the
    same [stop] command twice. *)
Theorem X23_refused_controls_do_nothing (c : call) :
  (∀ e, (performs c).2 = Refused e → (performs c).1 = [])
  ∧ (length (asks (performs c).1) ≤ 2)%nat
  ∧ (length (asks (performs c).1) = 2%nat →
     ∃ v s x, c = DefrostOnOff v s ∧ truthy v = false
              ∧ asks (performs c).1 = [x; x] ∧ command x = "stop").
Proof.
  controls c.
  all: try (destruct (get _ "slow") as [slow|e']; [destruct (get _ "fast") as [fast|e']|];
            cbn [fst snd]).
  all: repeat match goal with
         | |- context [setCap _ ?c ?v] =>
             destruct (setCap_cases c v) as [E|E]; rewrite E; clear E
         | |- context [if ?b then [Active] else []] => destruct b
         end.
  all: cbn [asks omap app length list_omap]; (split; [done|]); split; try lia; try done.
  all: intros _; exists v, s; by eexists.
Qed.

(** X24.  A refresh forced by a flow card does not count as activity of
    the car, and no flow card does; a refresh switched on through the
    [refresh_status] capability does. *)
Theorem X24_flows_are_no_activity (card : string) (args : obj) (c : call) (v : value) :
  (runListener card args = Some c → ¬ In Active (performs c).1)
  ∧ (truthy v = true →
     ∃ c', capabilityListener "refresh_status" v = Some c'
           ∧ In Active (performs c').1).
Proof.
  split.
  - unfold runListener.
    repeat match goal with
      | |- (if ?b then _ else _) = _ → _ => destruct b
      end.
    all: intros [= <-]; cbn [perform];
      unfold acOnOff, defrostOnOff, chargingOnOff, lock, setTargetTemp, setChargeTargets,
        setDestination, refreshStatus;
      cbn zeta.
    all: try destruct (truthy (getCapabilityValue "engine")).
    all: try destruct (truthy (getCapabilityValue "climate_control")).
    all: try destruct isEV.
    all: try match goal with
             | |- context [negb (truthy (geoSearch ?p))] =>
                 destruct (truthy (geoSearch p));
                 cbn [negb];
                 try match goal with
                     | |- context [match ?m with Ok _ => _ | Throw _ => _ end] =>
                         destruct m as [[[phone postcode] name]|e']
                     end
             end.
    all: cbn [truthy negb fst String.eqb Ascii.eqb Bool.eqb orb].
    all: try (destruct (get _ "slow") as [slow|e']; [destruct (get _ "fast") as [fast|e']|];
              cbn [fst]).
    all: intros H; actions H; discriminate H.
  - intros Hv. eexists. split; [reflexivity|].
    cbn [perform]. unfold refreshStatus. rewrite Hv. cbn [fst String.eqb Ascii.eqb Bool.eqb orb].
    apply in_app_iff. right. right. by left.
Qed.

End ControlFacts.

(** The air conditioning switched on by a flow while the engine is off. *)
Lemma X21_controls_are_guarded_witness :
  In (Ask (Item "start" (VObj [("temperature", VNum 22)])))
     (perform Host.parse_number Host.format fullBattery positionOnly false nowhere asText
        (AcOnOff (VBool true) "flow")).1
  ∧ truthy (fullBattery "engine") = false.
Proof.
  assert (H : In (Ask (Item "start" (VObj [("temperature", VNum 22)])))
                (perform Host.parse_number Host.format fullBattery positionOnly false nowhere asText
                   (AcOnOff (VBool true) "flow")).1)
    by (right; left; reflexivity).
  split; [exact H|].
  apply (proj1 (X21_controls_are_guarded Host.parse_number Host.format fullBattery
                  positionOnly false nowhere asText _ _ H)).
  by left.
Defined.

(** The temperature handed to the flow card is 0. *)
Lemma X22_start_carries_a_temperature_witness :
  In (Ask (Item "start" (VObj [("temperature", VNum 22)])))
     (perform Host.parse_number Host.format climateOn positionOnly false nowhere asText
        (SetTargetTemp (VNum 0) "flow")).1
  ∧ truthy (oget (VObj [("temperature", VNum 22)]) "temperature") = true.
Proof.
  assert (H : In (Ask (Item "start" (VObj [("temperature", VNum 22)])))
                (perform Host.parse_number Host.format climateOn positionOnly false nowhere asText
                   (SetTargetTemp (VNum 0) "flow")).1)
    by (right; left; reflexivity).
  split; [exact H|].
  apply (proj1 (X22_start_carries_a_temperature Host.parse_number Host.format climateOn
                  positionOnly false nowhere asText _ _ H)).
Defined.

(** Charging switched on for a car that is no EV. *)
Lemma X23_refused_controls_do_nothing_witness :
  (perform Host.parse_number Host.format fullBattery positionOnly false nowhere asText
     (ChargingOnOff (VBool true) "app")).2 = Refused notAnEV
  ∧ (perform Host.parse_number Host.format fullBattery positionOnly false nowhere asText
       (ChargingOnOff (VBool true) "app")).1 = [].
Proof.
  split; [reflexivity|].
  apply (proj1 (X23_refused_controls_do_nothing Host.parse_number Host.format fullBattery
                  positionOnly false nowhere asText (ChargingOnOff (VBool true) "app")) notAnEV).
  reflexivity.
Defined.

(** The [force_refresh] card. *)
Lemma X24_flows_are_no_activity_witness :
  runListener "force_refresh" [] = Some (RefreshStatus (VBool true) "flow")
  ∧ ¬ In Active (perform Host.parse_number Host.format fullBattery positionOnly false nowhere asText
                   (RefreshStatus (VBool true) "flow")).1.
Proof.
  split; [reflexivity|].
  apply (proj1 (X24_flows_are_no_activity Host.parse_number Host.format fullBattery
                  positionOnly false nowhere asText "force_refresh" [] _ (VBool true))).
  reflexivity.
Defined.

(* ===================================================================== *)
(** * Facts about the driver and the migration                           *)
(* ===================================================================== *)

Lemma removeCapability_absent (c : string) (caps : list string) :
  c ∉ caps → removeCapability c caps = caps.
Proof.
  intros H. unfold removeCapability. induction caps as [|c' caps IH]; [done|].
  apply not_elem_of_cons in H as [H1 H2].
  rewrite filter_cons_True by congruence. by rewrite IH.
Qed.

(** Taking the names of a tail out of a list without repetitions leaves
    the part before it. *)
Lemma remove_tail (l1 l2 : list string) :
  NoDup (l1 ++ l2) →
  fold_left (fun cs c => removeCapability c cs) l2 (l1 ++ l2)%list = l1.
Proof.
  revert l1. induction l2 as [|c l2 IH]; intros l1 H.
  - by rewrite app_nil_r.
  - cbn [fold_left].
    apply NoDup_app in H as (H1 & H2 & H3).
    apply NoDup_cons in H3 as [H3 H4].
    assert (E : removeCapability c (l1 ++ c :: l2) = (l1 ++ l2)%list).
    { unfold removeCapability. rewrite filter_app, filter_cons_False by (intros ?; done).
      fold (removeCapability c l1). fold (removeCapability c l2).
      rewrite !removeCapability_absent; [done|done|].
      intros Hin. by apply (H2 c Hin), elem_of_cons; left. }
    rewrite E. apply IH. apply NoDup_app. split; [done|]. split; [|done].
    intros x Hx Hx'. apply (H2 x Hx). by apply elem_of_cons; right.
Qed.

Lemma remove_drop (k : nat) (caps : list string) :
  NoDup caps →
  fold_left (fun cs c => removeCapability c cs) (drop k caps) caps = take k caps.
Proof.
  intros H. rewrite <- (take_drop k caps) at 2. apply remove_tail.
  by rewrite take_drop.
Qed.

Section MigrateFacts.

Variable correctCaps : list string.
Variable state : value.

Lemma migrateAt_aborted (m : migration) (l : list nat) :
  aborted m = true → fold_left (migrateAt correctCaps state) l m = m.
Proof.
  intros H. induction l as [|i l IH]; [done|].
  cbn [fold_left]. unfold migrateAt at 2. by rewrite H.
Qed.

Lemma migrateAt_agree (m : migration) (l : list nat) :
  (∀ i, i ∈ l → capabilities m !! i = correctCaps !! i) →
  fold_left (migrateAt correctCaps state) l m = m.
Proof.
  intros H. induction l as [|i l IH]; [done|].
  cbn [fold_left].
  assert (E : migrateAt correctCaps state m i = m).
  { unfold migrateAt. destruct (aborted m); [done|].
    rewrite decide_True; [done|]. apply H. by left. }
  rewrite E. apply IH. intros j Hj. apply H. by right.
Qed.

Lemma take_snoc (l : list string) (k : nat) (c : string) :
  l !! k = Some c → take (S k) l = (take k l ++ [c])%list.
Proof. intros H. by apply take_S_r. Qed.

(** The turn at the first index where the lists differ. *)
Lemma migrateAt_differ (m : migration) (k : nat) :
  aborted m = false →
  NoDup (capabilities m) →
  take k (capabilities m) = take k correctCaps →
  capabilities m !! k ≠ correctCaps !! k →
  (k ≤ length correctCaps)%nat →
  let m' := migrateAt correctCaps state m k in
  capabilities m' = take (S k) correctCaps
  ∧ (aborted m' = true ↔ (k < length correctCaps)%nat ∧ nullish state = true).
Proof.
  intros Ha Hnd Hpre Hk Hle. cbv zeta. unfold migrateAt. rewrite Ha.
  rewrite decide_False by done. rewrite remove_drop by done. rewrite Hpre.
  destruct (correctCaps !! k) as [c|] eqn:E.
  - assert (Hlt : (k < length correctCaps)%nat) by (by apply lookup_lt_Some in E).
    unfold addCapability. rewrite <- (take_snoc _ _ _ E).
    unfold get. destruct state; cbn [capabilities aborted nullish];
      (split; [done|]); split; try done; by intros [_ ?].
  - apply lookup_ge_None in E. cbn [capabilities aborted].
    split; [by rewrite !take_ge by lia|]. split; [done|]. intros [? _]. lia.
Qed.

Lemma migrate_converges (caps : list string) :
  NoDup caps → NoDup correctCaps → nullish state = false →
  capabilities (migrate correctCaps state caps) = correctCaps
  ∧ aborted (migrate correctCaps state caps) = false.
Proof.
  intros Hc Hcorrect Hstate. unfold migrate.
  set (n := length correctCaps).
  assert (G : ∀ fuel k m,
             (k + fuel = S n)%nat →
             aborted m = false → NoDup (capabilities m) →
             take k (capabilities m) = take k correctCaps →
             capabilities (fold_left (migrateAt correctCaps state) (seq k fuel) m)
               = correctCaps
             ∧ aborted (fold_left (migrateAt correctCaps state) (seq k fuel) m) = false).
  { induction fuel as [|fuel IH]; intros k m Hk Ha Hnd Hpre.
    - cbn [seq fold_left]. split; [|done].
      assert (k = S n) by lia. subst k.
      rewrite (take_ge correctCaps) in Hpre by (unfold n; lia).
      assert (Hlen : (length (capabilities m) ≤ n)%nat).
      { destruct (decide (length (capabilities m) ≤ n)%nat) as [|Hgt]; [done|].
        assert (length (take (S n) (capabilities m)) = S n)
          by (rewrite length_take; lia).
        rewrite Hpre in H. unfold n in H. lia. }
      by rewrite take_ge in Hpre by lia.
    - cbn [seq fold_left].
      assert (Hle : (k ≤ n)%nat) by lia.
      destruct (decide (capabilities m !! k = correctCaps !! k)) as [E|E].
      + assert (E' : migrateAt correctCaps state m k = m).
        { unfold migrateAt. rewrite Ha. by rewrite decide_True. }
        rewrite E'. apply IH; [lia|done|done|].
        destruct (correctCaps !! k) as [c|] eqn:Ec.
        * by rewrite (take_snoc _ _ _ E), (take_snoc _ _ _ Ec), Hpre.
        * apply lookup_ge_None in E, Ec. rewrite !take_ge in Hpre by lia.
          by rewrite Hpre.
      + destruct (migrateAt_differ m k Ha Hnd Hpre E Hle) as [H1 H2].
        apply IH; [lia| | |].
        * apply not_true_is_false. intros H. apply H2 in H as [_ H]. congruence.
        * rewrite H1.
          exact (sublist_NoDup _ _ Hcorrect (sublist_take correctCaps (S k))).
        * by rewrite H1, take_take, Nat.min_id. }
  apply (G (S n) 0%nat); [lia|done|done|done].
Qed.

(** X25.  With the capability values of before at hand, [migrate] leaves
    the device with exactly the capabilities of its engine type, in their
    order, whatever it had before, as long as neither list names a
    capability twice. *)
Theorem X25_migrate_reaches_the_correct_list (caps : list string) :
  NoDup caps → NoDup correctCaps → nullish state = false →
  capabilities (migrate correctCaps state caps) = correctCaps
  ∧ aborted (migrate correctCaps state caps) = false.
Proof. apply migrate_converges. Qed.

(** X26.  A device that has the capabilities of its engine type already
    is left alone by [migrate]: nothing is removed, added or set, and the
    device is not made unavailable.  So is a device [migrate] has been
    through once. *)
Theorem X26_migrate_leaves_correct_devices_alone (caps : list string) :
  migrate correctCaps state correctCaps = Migration correctCaps [] false
  ∧ (NoDup caps → NoDup correctCaps → nullish state = false →
     changes (migrate correctCaps state
                (capabilities (migrate correctCaps state caps))) = []).
Proof.
  assert (H : migrate correctCaps state correctCaps = Migration correctCaps [] false).
  { unfold migrate. by apply migrateAt_agree. }
  split; [done|]. intros H1 H2 H3.
  rewrite (proj1 (migrate_converges caps H1 H2 H3)).
  by rewrite H.
Qed.

End MigrateFacts.

Section MigrateWithoutState.

Variable correctCaps : list string.
Variable state : value.

(** X27.  When the capability values of before are not at hand
    ([this[sym]] is [undefined]), [migrate] stops at the first capability
    it adds: a device whose list differs from the correct one at index
    [k] is left with the first [k + 1] correct capabilities and no
    others. *)
Theorem X27_migrate_without_state_stops (caps : list string) (k : nat) :
  nullish state = true →
  NoDup caps →
  (k < length correctCaps)%nat →
  take k caps = take k correctCaps →
  caps !! k ≠ correctCaps !! k →
  capabilities (migrate correctCaps state caps) = take (S k) correctCaps
  ∧ aborted (migrate correctCaps state caps) = true.
Proof.
  intros Hs Hnd Hk Hpre Hdiff. unfold migrate.
  replace (S (length correctCaps)) with (k + S (length correctCaps - k))%nat by lia.
  rewrite seq_app, fold_left_app. cbn [seq fold_left Nat.add].
  assert (E0 : fold_left (migrateAt correctCaps state) (seq 0 k) (Migration caps [] false)
               = Migration caps [] false).
  { apply migrateAt_agree. intros i Hi. apply elem_of_seq in Hi. cbn [capabilities].
    rewrite <- (lookup_take_lt caps k i), <- (lookup_take_lt correctCaps k i) by lia.
    by rewrite Hpre. }
  rewrite E0.
  destruct (migrateAt_differ correctCaps state (Migration caps [] false) k)
    as [H1 H2]; [done|done|done|done|lia|].
  assert (Ha : aborted (migrateAt correctCaps state (Migration caps [] false) k) = true)
    by (by apply H2).
  rewrite (migrateAt_aborted correctCaps state _ _ Ha). by split.
Qed.

End MigrateWithoutState.

(** X28.  [list_devices] gives every vehicle whose status is there (not
    [undefined] or [null])
    one of the four engine types of the capability table.  The table
    names no capability twice, and it holds [ev_charging_state], by which
    the device takes itself for an EV, and [charge] exactly for the
    vehicles found to be plug-in; it never holds [address]. *)
Theorem X28_engine_decides_capabilities (status vehicle : value) :
  (nullish status = true → engineOf status vehicle = Throw TypeError)
  ∧ (nullish status = false →
     ∃ e caps pev,
       engineOf status vehicle = Ok e
       ∧ isPEV status = Ok pev
       ∧ capabilitiesMap e = Some caps
       ∧ NoDup caps
       ∧ bool_decide ("ev_charging_state" ∈ caps) = pev
       ∧ bool_decide ("charge" ∈ caps) = pev
       ∧ "address" ∉ caps).
Proof.
  split.
  - by destruct status.
  - intros Hs. unfold engineOf, isPEV, isICE.
    assert (G : ∀ k, get status k = Ok (field (spread status) k))
      by (by destruct status).
    rewrite !G. cbn [mbind res_bind].
    set (pev := truthy _ || truthy _).
    set (ice := truthy _ || truthy _ || truthy _ || truthy _).
    destruct pev, ice, (truthy (ochain vehicle _)); cbn [andb negb].
    all: eexists _, _, _; split; [reflexivity|]; split; [reflexivity|];
      split; [reflexivity|].
    all: split; [apply (bool_decide_unpack _); by vm_compute|].
    all: split; [by vm_compute|]; split; [by vm_compute|].
    all: apply (bool_decide_unpack _); by vm_compute.
Qed.

(** A device of an older version with a combustion engine. *)
Lemma X25_migrate_reaches_the_correct_list_witness :
  NoDup oldCaps ∧ NoDup iceCaps ∧ nullish keptState = false
  ∧ capabilities (migrate iceCaps keptState oldCaps) = iceCaps.
Proof.
  assert (H1 : NoDup oldCaps) by (apply (bool_decide_unpack _); vm_compute; exact I).
  assert (H2 : NoDup iceCaps) by (apply (bool_decide_unpack _); vm_compute; exact I).
  split; [exact H1|]. split; [exact H2|]. split; [reflexivity|].
  exact (proj1 (X25_migrate_reaches_the_correct_list iceCaps keptState oldCaps
                  H1 H2 eq_refl)).
Defined.

(** The same device, migrated once more. *)
Lemma X26_migrate_leaves_correct_devices_alone_witness :
  NoDup oldCaps ∧ NoDup iceCaps ∧ nullish keptState = false
  ∧ changes (migrate iceCaps keptState
               (capabilities (migrate iceCaps keptState oldCaps))) = [].
Proof.
  assert (H1 : NoDup oldCaps) by (apply (bool_decide_unpack _); vm_compute; exact I).
  assert (H2 : NoDup iceCaps) by (apply (bool_decide_unpack _); vm_compute; exact I).
  split; [exact H1|]. split; [exact H2|]. split; [reflexivity|].
  exact (proj2 (X26_migrate_leaves_correct_devices_alone iceCaps keptState oldCaps)
           H1 H2 eq_refl).
Defined.

(** The same device without the values of before: it differs from the
    correct list at index 1 and is left with two capabilities. *)
Lemma X27_migrate_without_state_stops_witness :
  nullish VUndefined = true ∧ NoDup oldCaps ∧ (1 < length iceCaps)%nat
  ∧ take 1 oldCaps = take 1 iceCaps ∧ oldCaps !! 1%nat ≠ iceCaps !! 1%nat
  ∧ capabilities (migrate iceCaps VUndefined oldCaps)
    = ["target_temperature"; "refresh_status"].
Proof.
  assert (H1 : NoDup oldCaps) by (apply (bool_decide_unpack _); vm_compute; exact I).
  assert (H2 : (1 < length iceCaps)%nat) by (vm_compute; lia).
  assert (H3 : oldCaps !! 1%nat ≠ iceCaps !! 1%nat) by discriminate.
  split; [reflexivity|]. split; [exact H1|]. split; [exact H2|].
  split; [reflexivity|]. split; [exact H3|].
  exact (proj1 (X27_migrate_without_state_stops iceCaps VUndefined oldCaps 1
                  eq_refl H1 H2 eq_refl H3)).
Defined.

(** An electric car. *)
Lemma X28_engine_decides_capabilities_witness :
  nullish evStatus = false
  ∧ ∃ e caps pev,
      engineOf evStatus VUndefined = Ok e
      ∧ isPEV evStatus = Ok pev
      ∧ capabilitiesMap e = Some caps
      ∧ NoDup caps
      ∧ bool_decide ("ev_charging_state" ∈ caps) = pev
      ∧ bool_decide ("charge" ∈ caps) = pev
      ∧ "address" ∉ caps.
Proof.
  split; [reflexivity|].
  apply (proj2 (X28_engine_decides_capabilities evStatus VUndefined)).
  reflexivity.
Defined.

(* ===================================================================== *)
(** * Facts about the client's errors and the first poll                 *)
(* ===================================================================== *)

Lemma announced_app (t l : list event) :
  announced (t ++ l) = (announced t + announced l)%nat.
Proof. unfold announced. by rewrite List.filter_app, length_app. Qed.

(** X29.  An error of the client costs the health counter 1, and 2 when
    it is a duplicate request (4004).  It starts a restart exactly when
    none is under way and the daily quota is used up (5091) or there is
    no vehicle; one restart is announced then, also when both hold, and
    the queue is emptied.  Otherwise the queue is left as it is. *)
Theorem X29_client_error (msg : string) (d : device) :
  let d' := clientError msg d in
  let due := carries msg "5091" || negb (truthy (vehicle d)) in
  watchDogCounter d'
  = (watchDogCounter d - (if carries msg "4004" then 2 else 1))%Z
  ∧ restarting d' = restarting d || due
  ∧ announced (trace d')
    = (announced (trace d) + (if negb (restarting d) && due then 1 else 0))%nat
  ∧ (negb (restarting d) && due = true →
     queue d' = ∅ ∧ head d' = 0%Z ∧ tail d' = 0%Z ∧ queueRunning d' = false)
  ∧ (negb (restarting d) && due = false →
     queue d' = queue d ∧ head d' = head d ∧ tail d' = tail d
     ∧ queueRunning d' = queueRunning d).
Proof.
  cbv zeta. unfold clientError, restartDevice, flushQueue.
  destruct (carries msg "5091"), (carries msg "4004"), (restarting d) eqn:Er,
    (truthy (vehicle d)) eqn:Ev;
    repeat (progress
      (cbn [emit with_watchDogCounter with_restarting with_slots with_queueRunning
              restarting vehicle watchDogCounter trace queue head tail queueRunning
              negb orb andb];
       rewrite ?Er, ?Ev));
    rewrite ?announced_app;
    repeat split; try done; try lia;
    change (announced [Log "Device will restart"]) with 1%nat;
    cbn [announced List.filter length String.eqb Ascii.eqb Bool.eqb Nat.add]; lia.
Qed.

(** The error of a duplicate request on a device without a vehicle. *)
Lemma X29_client_error_witness :
  negb (restarting (initial VUndefined true))
  && (carries (resCode "4004") "5091" || negb (truthy (vehicle (initial VUndefined true))))
  = true
  ∧ watchDogCounter (clientError (resCode "4004") (initial VUndefined true)) = 4%Z
  ∧ queue (clientError (resCode "4004") (initial VUndefined true)) = ∅.
Proof.
  split; [reflexivity|].
  pose proof (X29_client_error (resCode "4004") (initial VUndefined true))
    as (H1 & _ & _ & H2 & _).
  split; [exact H1|]. exact (proj1 (H2 eq_refl)).
Defined.

Section FirstPoll.

Variable parse_number : value → option Q.
Variable format : value → string.
Variable getCapabilityValue : string → value.
Variable hasCapability : string → bool.

Lemma away_from_zero (x : Q) (c : Q) :
  js_gt parse_number format
    (Math_abs parse_number (js_sub parse_number (VNum x) (VNum 0))) (VNum c) = true
  ↔ (c < Qabs x)%Q.
Proof.
  rewrite abs_sub_numbers, gt_numbers.
  assert (E : (Qabs (x - 0) == Qabs x)%Q).
  { apply Qabs_wd. ring. }
  by rewrite E.
Qed.

(** X30.  A device with no park location in its store starts from the
    position (0, 0): the first record with the engine off fires
    [has_parked] exactly when its position lies more than 0.0003 degrees
    from 0 in latitude or in longitude, which is anywhere but there. *)
Theorem X30_first_poll_parks
    (text : string) (lastRefresh now : value) (info : obj) (lat lon : Q) :
  truthy (field info "engine") = false →
  field info "latitude" = VNum lat →
  field info "longitude" = VNum lon →
  In "has_parked"
     (fired (handleInfo parse_number format getCapabilityValue hasCapability text
               (spread (initialParkLocation VUndefined)) lastRefresh now info))
  ↔ ((3 # 10000) < Qabs lat ∨ (3 # 10000) < Qabs lon)%Q.
Proof.
  intros He Hlat Hlon.
  assert (Hp : isParking parse_number format (spread (initialParkLocation VUndefined)) info
               = true
               ↔ ((3 # 10000) < Qabs lat ∨ (3 # 10000) < Qabs lon)%Q).
  { unfold isParking. rewrite He, Hlat, Hlon. cbn [negb andb].
    change (field (spread (initialParkLocation VUndefined)) "latitude") with (VNum 0).
    change (field (spread (initialParkLocation VUndefined)) "longitude") with (VNum 0).
    rewrite orb_true_iff, !away_from_zero. done. }
  rewrite <- Hp. unfold handleInfo. cbn [fired]. rewrite !in_app_iff.
  destruct (isMoving _ _ _ _), (isParking _ _ _ _), (js_lt _ _ _ _);
    cbn; intuition congruence.
Qed.

End FirstPoll.

(** A car first seen parked in Amsterdam. *)
Lemma X30_first_poll_parks_witness :
  truthy (field parkedElsewhere "engine") = false
  ∧ field parkedElsewhere "latitude" = VNum (52001 # 1000)
  ∧ field parkedElsewhere "longitude" = VNum 5
  ∧ In "has_parked"
       (fired (handleInfo Host.parse_number Host.format fullBattery positionOnly
                 "Jul 02 12:00" (spread (initialParkLocation VUndefined))
                 (VNum 1000) (VNum 2000) parkedElsewhere)).
Proof.
  split; [reflexivity|]. split; [reflexivity|]. split; [reflexivity|].
  apply (proj2 (X30_first_poll_parks Host.parse_number Host.format fullBattery
                  positionOnly "Jul 02 12:00" (VNum 1000) (VNum 2000) parkedElsewhere
                  (52001 # 1000) 5 eq_refl eq_refl eq_refl)).
  left. reflexivity.
Defined.
